(** * Portfolio backtesting engine: a shallow embedding and its properties

    The engine lives in the Backtesting page component
    ([calculateAdvancedRatios], [calculateDynamicLeverage],
    [getSimulationParams], [handleRunBacktest]) and in the constant tables
    of [constants.ts].  The embedding follows that code statement by
    statement.

    Numbers.  A JavaScript [number] is modelled by [num]: an exact rational
    or one of the three non-finite values.  Finite arithmetic is exact (no
    binary64 rounding, no overflow) and the two zeros are identified; a
    division of a finite value by zero yields the infinity of the
    numerator's sign, [0/0] yields [NaN], and comparisons with [NaN] are
    false, as in ECMAScript.

    Scope of the statements.  The engine computes in binary64, the
    embedding in exact rationals.  The properties are therefore stated on
    what rounding and overflow keep: the control flow, the order of the
    stored numbers ([<] and [<=], false on [NaN]), the identities that
    define one stored field from others, and integer ranges.  Where a
    stored value may fail to be finite, a statement either assumes nothing
    of it or assumes its finiteness explicitly; the properties of the
    performance curve are proved for every P&L map, entries that are not
    finite included.

    Effects.  [Math.random] is an explicit stream of draws together with a
    cursor that the simulation threads through; the asynchronous fetches
    are arguments of the run ([dataResult], [stopLossFeedback]); the React
    state setters are collapsed into the [Outcome] of a run.
    [Math.pow] and [Math.sqrt] are irrational and are taken as the fields
    of the [JsMath] interface. *)

From Stdlib Require Import QArith Qround Qminmax Lqa ZArith Lia.
From stdpp Require Import gmap strings list fin_maps sorting pretty.

Local Open Scope Q_scope.

(* ===================================================================== *)
(** ** JavaScript numbers *)
(* ===================================================================== *)

Inductive num : Type :=
  | Fin (q : Q)
  | PInf
  | NInf
  | NaN.

Definition isFinite (x : num) : bool :=
  match x with Fin _ => true | _ => false end.

(** Truthiness of a number: [0] and [NaN] are falsy. *)
Definition truthy (x : num) : bool :=
  match x with
  | Fin q => negb (Qeq_bool q 0)
  | NaN => false
  | PInf | NInf => true
  end.

(** [x || y] on numbers. *)
Definition num_or (x y : num) : num := if truthy x then x else y.

Definition num_neg (x : num) : num :=
  match x with
  | Fin q => Fin (- q)
  | PInf => NInf
  | NInf => PInf
  | NaN => NaN
  end.

Definition num_add (x y : num) : num :=
  match x, y with
  | NaN, _ | _, NaN => NaN
  | Fin a, Fin b => Fin (a + b)
  | PInf, NInf | NInf, PInf => NaN
  | PInf, _ | _, PInf => PInf
  | NInf, _ | _, NInf => NInf
  end.

Definition num_sub (x y : num) : num :=
  match x, y with
  | NaN, _ | _, NaN => NaN
  | Fin a, Fin b => Fin (a - b)
  | PInf, PInf | NInf, NInf => NaN
  | PInf, _ | _, NInf => PInf
  | NInf, _ | _, PInf => NInf
  end.

(** An infinity scaled by a finite factor. *)
Definition inf_scaled (pos : bool) (q : Q) : num :=
  match q ?= 0 with
  | Eq => NaN
  | Gt => if pos then PInf else NInf
  | Lt => if pos then NInf else PInf
  end.

Definition num_mul (x y : num) : num :=
  match x, y with
  | NaN, _ | _, NaN => NaN
  | Fin a, Fin b => Fin (a * b)
  | PInf, Fin b | Fin b, PInf => inf_scaled true b
  | NInf, Fin b | Fin b, NInf => inf_scaled false b
  | PInf, PInf | NInf, NInf => PInf
  | PInf, NInf | NInf, PInf => NInf
  end.

Definition num_div (x y : num) : num :=
  match x, y with
  | NaN, _ | _, NaN => NaN
  | Fin a, Fin b =>
      if Qeq_bool b 0
      then match a ?= 0 with Eq => NaN | Gt => PInf | Lt => NInf end
      else Fin (a / b)
  | Fin _, (PInf | NInf) => Fin 0
  | (PInf | NInf), (PInf | NInf) => NaN
  | PInf, Fin b => match b ?= 0 with Lt => NInf | _ => PInf end
  | NInf, Fin b => match b ?= 0 with Lt => PInf | _ => NInf end
  end.

(** [x < y]; false as soon as one side is [NaN]. *)
Definition num_lt (x y : num) : bool :=
  match x, y with
  | NaN, _ | _, NaN => false
  | Fin a, Fin b => match a ?= b with Lt => true | _ => false end
  | NInf, (Fin _ | PInf) => true
  | Fin _, PInf => true
  | _, _ => false
  end.

(** [x <= y]; false as soon as one side is [NaN]. *)
Definition num_le (x y : num) : bool :=
  match x, y with
  | NaN, _ | _, NaN => false
  | Fin a, Fin b => match a ?= b with Gt => false | _ => true end
  | NInf, _ => true
  | _, PInf => true
  | _, _ => false
  end.

Definition num_gt (x y : num) : bool := num_lt y x.
Definition num_ge (x y : num) : bool := num_le y x.

(** [Math.min(x, y)]. *)
Definition Math_min (x y : num) : num :=
  match x, y with
  | NaN, _ | _, NaN => NaN
  | _, _ => if num_lt y x then y else x
  end.

(** [Math.max(x, y)] and [Math.max(...xs)]; the latter is [-Infinity] on
    the empty list. *)
Definition Math_max2 (x y : num) : num :=
  match x, y with
  | NaN, _ | _, NaN => NaN
  | _, _ => if num_lt x y then y else x
  end.

Definition Math_max (xs : list num) : num := foldl Math_max2 NInf xs.

(** [Math.floor] and [Math.round] (nearest integer, ties towards
    [+Infinity]). *)
Definition Math_floor (x : num) : num :=
  match x with
  | Fin q => Fin (inject_Z (Qfloor q))
  | _ => x
  end.

Definition Math_round (x : num) : num :=
  match x with
  | Fin q => Fin (inject_Z (Qfloor (q + 0.5)))
  | _ => x
  end.

(** Equality of numbers up to the representation of a rational. *)
Definition num_eqv (x y : num) : Prop :=
  match x, y with
  | Fin a, Fin b => a == b
  | PInf, PInf | NInf, NInf | NaN, NaN => True
  | _, _ => False
  end.

(** The irrational part of the [Math] object. *)
Class JsMath : Type := {
  Math_pow : num -> num -> num;
  Math_sqrt : num -> num;
}.

(* ===================================================================== *)
(** ** Risk metrics: [calculateAdvancedRatios] *)
(* ===================================================================== *)

Record PerformanceDataPoint : Type := {
  pd_date : string;
  pd_strategy : num;
  pd_sp500 : num;
  pd_drawdown : num;
}.

Record Ratios : Type := {
  sortino : num;
  calmar : num;
}.

(** [performanceData.slice(1).map((point, i) => ...)]: each point is paired
    with its predecessor [performanceData[i]]. *)
Definition dailyReturn (prev point : PerformanceDataPoint) : num :=
  let prevValue := pd_strategy prev in
  if num_gt prevValue (Fin 0)
  then num_div (num_sub (pd_strategy point) prevValue) prevValue
  else Fin 0.

Fixpoint dailyReturns (performanceData : list PerformanceDataPoint) : list num :=
  match performanceData with
  | prev :: ((point :: _) as rest) => dailyReturn prev point :: dailyReturns rest
  | _ => []
  end.

Definition num_of_nat (n : nat) : num := Fin (inject_Z (Z.of_nat n)).

Section Ratios.
Context `{JsMath}.

Definition annualizedReturnOf (performanceData : list PerformanceDataPoint)
    (barsPerYear : num) : num :=
  match performanceData, last performanceData with
  | first :: _, Some final =>
      num_sub
        (Math_pow (num_div (pd_strategy final) (pd_strategy first))
                  (num_div barsPerYear
                           (num_of_nat (length (dailyReturns performanceData)))))
        (Fin 1)
  | _, _ => NaN
  end.

Definition downsideReturnsOf (performanceData : list PerformanceDataPoint) : list num :=
  filter (fun r => num_lt r (Fin 0) = true) (dailyReturns performanceData).

Definition downsideDeviationOf (performanceData : list PerformanceDataPoint)
    (barsPerYear : num) : num :=
  let downsideReturns := downsideReturnsOf performanceData in
  num_mul
    (Math_sqrt
       (num_div
          (foldl (fun acc r => num_add acc (Math_pow r (Fin 2))) (Fin 0) downsideReturns)
          (num_or (num_of_nat (length downsideReturns)) (Fin 1))))
    (Math_sqrt barsPerYear).

Definition maxDrawdownOf (performanceData : list PerformanceDataPoint) : num :=
  Math_max (map (fun d => num_or (pd_drawdown d) (Fin 0)) performanceData).

Definition calculateAdvancedRatios (performanceData : list PerformanceDataPoint)
    (riskFreeRate barsPerYear : num) : Ratios :=
  if (length performanceData <? 2)%nat then {| sortino := Fin 0; calmar := Fin 0 |}
  else
    let annualizedReturn := annualizedReturnOf performanceData barsPerYear in
    let downsideDeviation := downsideDeviationOf performanceData barsPerYear in
    let sortino_ :=
      if num_gt downsideDeviation (Fin 0)
      then num_div (num_sub annualizedReturn riskFreeRate) downsideDeviation
      else Fin 0 in
    let maxDrawdown := maxDrawdownOf performanceData in
    let calmar_ :=
      if num_gt maxDrawdown (Fin 0)
      then num_div annualizedReturn maxDrawdown
      else Fin 0 in
    {| sortino := if isFinite sortino_ then sortino_ else Fin 0;
       calmar := if isFinite calmar_ then calmar_ else Fin 0 |}.
End Ratios.

(* ===================================================================== *)
(** ** Leverage sizer: [calculateDynamicLeverage] *)
(* ===================================================================== *)

Definition minRR : num := Fin 2.5.
Definition maxRR : num := Fin 5.0.

Definition calculateDynamicLeverage (rr maxLeverage : num) : num :=
  let clampedRR := Math_min rr maxRR in
  let rrRange := num_sub maxRR minRR in
  let leverageRange := num_sub maxLeverage (Fin 2) in
  if num_le rrRange (Fin 0) || num_le leverageRange (Fin 0) then Fin 2
  else
    let leverage :=
      num_add (Fin 2)
              (num_mul (num_div (num_sub clampedRR minRR) rrRange) leverageRange) in
    Math_round (Math_min leverage maxLeverage).

(** The leverage the sizer is meant to hand to [Math.round]: the linear
    interpolation between [2] and [maxLeverage], capped at [maxLeverage],
    for a ratio [c] already clamped. *)
Definition interpolated (c maxLeverage : Q) : Q :=
  Qmin (2 + (c - 2.5) / (5.0 - 2.5) * (maxLeverage - 2)) maxLeverage.

(* ===================================================================== *)
(** ** Types and constant tables ([types.ts], [constants.ts]) *)
(* ===================================================================== *)

Inductive AssetClass : Type :=
  | AC_USStocks | AC_GlobalStocks | AC_UKStocks | AC_EUStocks | AC_AsianStocks
  | AC_Crypto | AC_Commodities | AC_Forex | AC_Bonds | AC_Indices.

Inductive AssetUniverse : Type :=
  | AU_SP500 | AU_EU50 | AU_FTSE100 | AU_Asian50
  | AU_Bonds | AU_Indices | AU_Forex | AU_Commodities.

Record SavedStrategy : Type := {
  st_id : string;
  st_models : list string;
  st_assetUniverses : list AssetUniverse;
  st_customSymbols : list string;
  st_stopLossPercentage : num;
}.

Record AlpacaBar : Type := {
  bar_t : string;
  bar_o : num;
  bar_h : num;
  bar_l : num;
  bar_c : num;
  bar_v : num;
}.

Inductive ExitReason : Type := TP | SL | EOD.
Inductive TradeType : Type := WIN | LOSS.

Record Trade : Type := {
  tr_id : string;
  tr_symbol : string;
  tr_pnl : num;
  tr_pnlPercentage : num;
  tr_positionSize : num;
  tr_value : num;
  tr_leverage : num;
  tr_holdingTime : string;
  tr_rr : num;
  tr_type : TradeType;
  tr_assetClass : AssetClass;
  tr_entryPrice : num;
  tr_exitPrice : num;
  tr_stopLossPrice : num;
  tr_takeProfitPrice : num;
  tr_commission : num;
  tr_slippage : num;
  tr_exitReason : ExitReason;
}.

Record BackendResponse : Type := {
  br_success : bool;
  br_data : option (gmap string (list AlpacaBar));
}.

Definition SP500_SYMBOLS : list string :=
  ["AAPL"; "MSFT"; "GOOGL"; "AMZN"; "NVDA"; "TSLA"; "JPM"; "JNJ"; "V"; "UNH";
   "HD"; "PG"; "BAC"; "MA"; "XOM"; "CVX"; "PFE"; "KO"; "PEP"; "DIS"].
Definition EU_TOP_50_SYMBOLS : list string :=
  ["ASML.AS"; "NVO"; "LVMH.PA"; "MC.PA"; "OR.PA"; "SAP.DE"; "SIE.DE"; "AIR.PA";
   "TTE"; "IDEXY"].
Definition UK_TOP_100_SYMBOLS : list string :=
  ["SHEL"; "AZN.L"; "HSBA.L"; "ULVR.L"; "DGE.L"; "BP.L"; "BATS.L"; "GLEN.L";
   "RIO.L"; "BARC.L"].
Definition ASIAN_TOP_50_SYMBOLS : list string :=
  ["BABA"; "TM"; "SONY"; "600519.SS"; "TSM"; "TCEHY"; "HDB"; "SMFG"; "MUFG"; "INFY"].
Definition TOP_BONDS_SYMBOLS : list string :=
  ["TLT"; "IEF"; "SHY"; "LQD"; "HYG"; "BND"; "AGG"; "TIP"; "JNK"; "VCSH"].
Definition TOP_INDICES_SYMBOLS : list string :=
  ["^GSPC"; "^GDAXI"; "^FTSE"; "^N225"; "^HSI"; "EEM"].
Definition TOP_FOREX_SYMBOLS : list string :=
  ["EURUSD=X"; "USDJPY=X"; "GBPUSD=X"; "AUDUSD=X"; "USDCAD=X"; "USDCHF=X";
   "NZDUSD=X"; "EURJPY=X"; "GBPJPY=X"; "EURGBP=X"; "AUDJPY=X"; "CADJPY=X";
   "CHFJPY=X"; "EURAUD=X"; "EURCAD=X"].
Definition TOP_COMMODITIES_SYMBOLS : list string :=
  ["GLD"; "SLV"; "USO"; "UNG"; "CORN"; "WEAT"; "SOYB"; "DBA"; "USCI"; "PPLT";
   "PALL"; "CPER"; "NIB"; "JO"; "SGG"].

Definition ASSET_UNIVERSES : list AssetUniverse :=
  [AU_SP500; AU_EU50; AU_FTSE100; AU_Asian50; AU_Bonds; AU_Indices; AU_Forex;
   AU_Commodities].

Definition ASSET_UNIVERSE_TICKER_MAP (u : AssetUniverse) : list string :=
  match u with
  | AU_SP500 => SP500_SYMBOLS
  | AU_EU50 => EU_TOP_50_SYMBOLS
  | AU_FTSE100 => UK_TOP_100_SYMBOLS
  | AU_Asian50 => ASIAN_TOP_50_SYMBOLS
  | AU_Bonds => TOP_BONDS_SYMBOLS
  | AU_Indices => TOP_INDICES_SYMBOLS
  | AU_Forex => TOP_FOREX_SYMBOLS
  | AU_Commodities => TOP_COMMODITIES_SYMBOLS
  end.

Definition ASSET_UNIVERSE_ASSET_CLASS_MAP (u : AssetUniverse) : AssetClass :=
  match u with
  | AU_SP500 => AC_USStocks
  | AU_EU50 => AC_EUStocks
  | AU_FTSE100 => AC_UKStocks
  | AU_Asian50 => AC_AsianStocks
  | AU_Bonds => AC_Bonds
  | AU_Indices => AC_Indices
  | AU_Forex => AC_Forex
  | AU_Commodities => AC_Commodities
  end.

(** The reverse lookup is filled by [Map.set] in key order of the ticker
    map, then the three crypto pairs; a later [set] overrides an earlier
    one. *)
Definition SYMBOL_TO_ASSET_CLASS_MAP : gmap string AssetClass :=
  let set_all (m : gmap string AssetClass) (kvs : list (string * AssetClass)) :=
    foldl (fun acc kv => <[kv.1 := kv.2]> acc) m kvs in
  let from_universes :=
    foldl (fun acc universe =>
             set_all acc (map (fun symbol => (symbol, ASSET_UNIVERSE_ASSET_CLASS_MAP universe))
                              (ASSET_UNIVERSE_TICKER_MAP universe)))
          ∅ ASSET_UNIVERSES in
  set_all from_universes
          [("BTC/USD", AC_Crypto); ("ETH/USD", AC_Crypto); ("SOL/USD", AC_Crypto)].

Definition ASSET_LEVERAGE_MAP (c : AssetClass) : num :=
  match c with
  | AC_USStocks | AC_GlobalStocks | AC_UKStocks | AC_EUStocks | AC_AsianStocks => Fin 5
  | AC_Crypto => Fin 10
  | AC_Commodities => Fin 20
  | AC_Forex => Fin 30
  | AC_Bonds => Fin 30
  | AC_Indices => Fin 20
  end.

(* ===================================================================== *)
(** ** The Backtesting component *)
(* ===================================================================== *)

Inductive Timeframe : Type := TF_5Min | TF_15Min | TF_1Hour | TF_1Day.

Record SimulationParams : Type := {
  barsPerYear : num;
  tradeProbability : num;
  holdingTime : string;
}.

Definition getSimulationParams (tf : Timeframe) : SimulationParams :=
  match tf with
  | TF_5Min =>
      {| barsPerYear := Fin (252 * 7 * 12); tradeProbability := Fin 0.002;
         holdingTime := "5-60m" |}
  | TF_15Min =>
      {| barsPerYear := Fin (252 * 7 * 4); tradeProbability := Fin 0.007;
         holdingTime := "15-180m" |}
  | TF_1Hour =>
      {| barsPerYear := Fin (252 * 7); tradeProbability := Fin 0.03;
         holdingTime := "1-8h" |}
  | TF_1Day =>
      {| barsPerYear := Fin 252; tradeProbability := Fin 0.2; holdingTime := "1-5d" |}
  end.

(** The form state read by [handleRunBacktest]. *)
Record BacktestForm : Type := {
  selectedStrategyIds : list string;
  startDate : string;
  endDate : string;
  initialCapital : num;
  commission : num;
  slippage : num;
  useWeeklyBias : bool;
  timeframe : Timeframe;
}.

(** [[...new Set(xs)]]: the first occurrence of every element, in order. *)
Fixpoint uniq_from (seen xs : list string) : list string :=
  match xs with
  | [] => []
  | x :: rest =>
      if decide (x ∈ seen) then uniq_from seen rest
      else x :: uniq_from (x :: seen) rest
  end.

Definition uniq (xs : list string) : list string := uniq_from [] xs.

(** [t.split('T')[0]]. *)
Fixpoint beforeT (t : string) : string :=
  match t with
  | EmptyString => EmptyString
  | String ch rest => if Ascii.eqb ch (Ascii.ascii_of_nat 84) then EmptyString else String ch (beforeT rest)
  end.

(** [xs[i]] for a number [i]: [undefined] unless [i] is an index of [xs]. *)
Definition array_get {A : Type} (xs : list A) (i : num) : option A :=
  match i with
  | Fin q =>
      if Qeq_bool q (inject_Z (Qfloor q)) && (0 <=? Qfloor q)%Z
      then xs !! Z.to_nat (Qfloor q)
      else None
  | _ => None
  end.

(** The [k]-th value returned by [Math.random]: the fractional part of the
    [k]-th element of the stream, so that every draw lies in [[0, 1)]. *)
Definition Math_random (rnd : nat -> Q) (k : nat) : num :=
  Fin (rnd k - inject_Z (Qfloor (rnd k))).

Definition strategySymbols (strategy : SavedStrategy) : list string :=
  uniq (flat_map ASSET_UNIVERSE_TICKER_MAP (st_assetUniverses strategy)
        ++ st_customSymbols strategy).

Definition allSymbolsOf (selectedStrategies : list SavedStrategy) : list string :=
  uniq (flat_map (fun s => flat_map ASSET_UNIVERSE_TICKER_MAP (st_assetUniverses s)
                           ++ st_customSymbols s) selectedStrategies).

Definition symbolsToFetchOf (selectedStrategies : list SavedStrategy) : list string :=
  uniq ("SPY" :: allSymbolsOf selectedStrategies).

(** [data[s] && data[s].length > 5]. *)
Definition hasBars (data : gmap string (list AlpacaBar)) (s : string) : bool :=
  match data !! s with
  | Some bars => (5 <? length bars)%nat
  | None => false
  end.

Definition availableSymbolsOf (data : gmap string (list AlpacaBar))
    (strategy : SavedStrategy) : list string :=
  filter (fun s => hasBars data s = true) (strategySymbols strategy).

(** *** Trade simulation *)

(** The mutable state of the simulation loops: the cursor into the random
    stream, [allTrades] and [dailyPnl]. *)
Record SimState : Type := {
  rng : nat;
  allTrades : list Trade;
  dailyPnl : gmap string num;
}.

Definition initialSimState : SimState :=
  {| rng := 0%nat; allTrades := []; dailyPnl := ∅ |}.

(** [symbolBars.slice(i - 5, i).reduce((sum, p) => sum + p.c, 0) / 5]. *)
Definition weeklySmaOf (symbolBars : list AlpacaBar) (i : nat) : num :=
  num_div
    (foldl (fun sum p => num_add sum (bar_c p)) (Fin 0)
           (take 5 (drop (i - 5) symbolBars)))
    (Fin 5).

(** The exit of a position against its entry bar: the raw exit price and
    the reason. *)
Definition resolveExit (currentBar : AlpacaBar) (stopLossPrice takeProfitPrice : num)
    : num * ExitReason :=
  if num_le (bar_l currentBar) stopLossPrice then (stopLossPrice, SL)
  else if num_ge (bar_h currentBar) takeProfitPrice then (takeProfitPrice, TP)
  else (bar_c currentBar, EOD).

(** The body of the signal branch once the entry is decided: prices, exit,
    sizing, P&L and the [Trade] pushed to [allTrades]. *)
Definition executeTrade (form : BacktestForm) (holdingTime_ : string)
    (strategy : SavedStrategy) (i : nat) (symbolToTrade : string)
    (currentBar : AlpacaBar) (potentialRR : num) : Trade :=
  let entryPrice :=
    num_mul (bar_o currentBar) (num_add (Fin 1) (num_div (slippage form) (Fin 100))) in
  let stopDistance :=
    num_mul entryPrice (num_div (st_stopLossPercentage strategy) (Fin 100)) in
  let stopLossPrice := num_sub entryPrice stopDistance in
  let takeProfitPrice := num_add entryPrice (num_mul stopDistance potentialRR) in
  let rawExit := resolveExit currentBar stopLossPrice takeProfitPrice in
  let exitReason := rawExit.2 in
  let exitPrice :=
    num_mul rawExit.1 (num_sub (Fin 1) (num_div (slippage form) (Fin 100))) in
  let assetClass := default AC_USStocks (SYMBOL_TO_ASSET_CLASS_MAP !! symbolToTrade) in
  let tradeValue := num_mul (initialCapital form) (Fin 0.02) in
  let positionSize := num_div tradeValue entryPrice in
  let grossPnl := num_mul (num_sub exitPrice entryPrice) positionSize in
  let netPnl := num_sub grossPnl (commission form) in
  {| tr_id := "trade-" +:+ pretty i +:+ "-" +:+ symbolToTrade;
     tr_symbol := symbolToTrade;
     tr_pnl := netPnl;
     tr_pnlPercentage := num_mul (num_div netPnl tradeValue) (Fin 100);
     tr_positionSize := positionSize;
     tr_value := tradeValue;
     tr_leverage := calculateDynamicLeverage potentialRR (ASSET_LEVERAGE_MAP assetClass);
     tr_holdingTime := holdingTime_;
     tr_rr := potentialRR;
     tr_type := if num_gt netPnl (Fin 0) then WIN else LOSS;
     tr_assetClass := assetClass;
     tr_entryPrice := entryPrice;
     tr_exitPrice := exitPrice;
     tr_stopLossPrice := stopLossPrice;
     tr_takeProfitPrice := takeProfitPrice;
     tr_commission := commission form;
     tr_slippage :=
       num_add (num_mul entryPrice (num_div (slippage form) (Fin 100)))
               (num_mul exitPrice (num_div (slippage form) (Fin 100)));
     tr_exitReason := exitReason |}.

(** [dailyPnl[date] += netPnl]. *)
Definition addPnl (date : string) (netPnl : num) (pnl : gmap string num)
    : gmap string num :=
  <[date := num_add (default NaN (pnl !! date)) netPnl]> pnl.

(** One iteration of the bar loop, [i] being the bar index (the loop only
    visits indices of [timelineBars]).  A [continue] keeps the entry of the
    date and the draws already consumed. *)
Definition simulateBar (rnd : nat -> Q) (form : BacktestForm)
    (data : gmap string (list AlpacaBar)) (strategy : SavedStrategy)
    (availableSymbols : list string) (timelineBars : list AlpacaBar)
    (st : SimState) (i : nat) : SimState :=
  let params := getSimulationParams (timeframe form) in
  match timelineBars !! i with
  | None => st
  | Some timelineBar =>
      let date := beforeT (bar_t timelineBar) in
      let pnl0 :=
        <[date := num_or (default NaN (dailyPnl st !! date)) (Fin 0)]> (dailyPnl st) in
      let skip (draws : nat) :=
        {| rng := (rng st + draws)%nat; allTrades := allTrades st; dailyPnl := pnl0 |} in
      if num_lt (Math_random rnd (rng st)) (tradeProbability params) then
        let pick :=
          Math_floor (num_mul (Math_random rnd (S (rng st)))
                              (num_of_nat (length availableSymbols))) in
        match array_get availableSymbols pick with
        | None => skip 2%nat
        | Some symbolToTrade =>
            match data !! symbolToTrade with
            | None => skip 2%nat
            | Some symbolBars =>
                match symbolBars !! i with
                | None => skip 2%nat
                | Some currentBar =>
                    let isUptrend := num_gt (bar_c currentBar) (weeklySmaOf symbolBars i) in
                    if useWeeklyBias form && negb isUptrend then skip 2%nat
                    else
                      let potentialRR :=
                        num_add (Fin 2.5)
                                (num_mul (Math_random rnd (S (S (rng st)))) (Fin 2.5)) in
                      let trade :=
                        executeTrade form (holdingTime params) strategy i symbolToTrade
                                     currentBar potentialRR in
                      {| rng := (rng st + 3)%nat;
                         allTrades := allTrades st ++ [trade];
                         dailyPnl := addPnl date (tr_pnl trade) pnl0 |}
                end
            end
        end
      else skip 1%nat
  end.

(** One iteration of the strategy loop. *)
Definition simulateStrategy (rnd : nat -> Q) (form : BacktestForm)
    (data : gmap string (list AlpacaBar)) (st : SimState) (strategy : SavedStrategy)
    : SimState :=
  let availableSymbols := availableSymbolsOf data strategy in
  match availableSymbols with
  | [] => st
  | first :: _ =>
      let timelineBars := default [] (data !! first) in
      foldl (simulateBar rnd form data strategy availableSymbols timelineBars) st
            (seq 5 (length timelineBars - 5))
  end.

Definition simulate (rnd : nat -> Q) (form : BacktestForm)
    (data : gmap string (list AlpacaBar)) (selectedStrategies : list SavedStrategy)
    : SimState :=
  foldl (simulateStrategy rnd form data) initialSimState selectedStrategies.

(** [t] is the trade opened by [strategy] on bar [i] of [symbol]. *)
Definition openedOn (form : BacktestForm) (data : gmap string (list AlpacaBar))
    (strategy : SavedStrategy) (i : nat) (symbol : string) (currentBar : AlpacaBar)
    (t : Trade) : Prop :=
  exists (symbolBars : list AlpacaBar) (rr : Q),
    data !! symbol = Some symbolBars /\ symbolBars !! i = Some currentBar /\
    (5 <= i)%nat /\ 2.5 <= rr < 5.0 /\
    t = executeTrade form (holdingTime (getSimulationParams (timeframe form)))
                     strategy i symbol currentBar (Fin rr).

(** *** Performance curve *)

Definition date_le (a b : string) : Prop := String.leb a b = true.

#[global] Instance date_le_dec (a b : string) : Decision (date_le a b).
Proof. unfold date_le. apply _. Defined.

(** [Object.keys(dailyPnl).sort()]. *)
Definition sortedDatesOf (pnl : gmap string num) : list string :=
  merge_sort date_le (fst <$> map_to_list pnl).

Record CurveState : Type := {
  portfolioValue : num;
  peakValue : num;
  spyValue : num;
  performanceData : list PerformanceDataPoint;
}.

(** Truthiness of a possibly [undefined] number. *)
Definition truthy_opt (x : option num) : bool :=
  match x with Some v => truthy v | None => false end.

(** [new Map(spyData?.map(bar => [bar.t.split('T')[0], bar.c]))]. *)
Definition dateToSpyPriceMapOf (spyData : option (list AlpacaBar)) : gmap string num :=
  foldl (fun acc bar => <[beforeT (bar_t bar) := bar_c bar]> acc) ∅ (default [] spyData).

(** [spyData?.[0]?.c]. *)
Definition spyInitialPriceOf (spyData : option (list AlpacaBar)) : option num :=
  match spyData with
  | Some (bar :: _) => Some (bar_c bar)
  | _ => None
  end.

(** One iteration of the loop over [sortedDates]. *)
Definition curveStep (initialCapital_ : num) (pnl : gmap string num)
    (dateToSpyPriceMap : gmap string num) (spyInitialPrice : option num)
    (st : CurveState) (date : string) : CurveState :=
  let portfolioValue' := num_add (portfolioValue st) (default NaN (pnl !! date)) in
  let peakValue' :=
    if num_gt portfolioValue' (peakValue st) then portfolioValue' else peakValue st in
  let drawdown := num_div (num_sub peakValue' portfolioValue') peakValue' in
  let currentSpyPrice := dateToSpyPriceMap !! date in
  let spyValue' :=
    if truthy_opt currentSpyPrice && truthy_opt spyInitialPrice
    then num_mul initialCapital_
                 (num_div (default NaN currentSpyPrice) (default NaN spyInitialPrice))
    else spyValue st in
  {| portfolioValue := portfolioValue';
     peakValue := peakValue';
     spyValue := spyValue';
     performanceData :=
       performanceData st ++
       [{| pd_date := date; pd_strategy := portfolioValue'; pd_sp500 := spyValue';
           pd_drawdown := drawdown |}] |}.

Definition initialCurveState (initialCapital_ : num) : CurveState :=
  {| portfolioValue := initialCapital_; peakValue := initialCapital_;
     spyValue := initialCapital_; performanceData := [] |}.

Definition buildCurve (initialCapital_ : num) (pnl : gmap string num)
    (spyData : option (list AlpacaBar)) : CurveState :=
  foldl (curveStep initialCapital_ pnl (dateToSpyPriceMapOf spyData)
                   (spyInitialPriceOf spyData))
        (initialCurveState initialCapital_) (sortedDatesOf pnl).

(** The running peak the drawdown is measured against: the largest of the
    initial capital and the portfolio values so far. *)
Definition runningPeak (initialCapital_ : num) (values : list num) : num :=
  foldl (fun peak value => if num_gt value peak then value else peak) initialCapital_ values.

(** The peak at the [k]-th point of a curve, and the portfolio value before
    it (the initial capital before the first point). *)
Definition peakAt (initialCapital_ : num) (points : list PerformanceDataPoint) (k : nat)
    : num :=
  runningPeak initialCapital_ (pd_strategy <$> take (S k) points).

Definition previousValue (initialCapital_ : num) (points : list PerformanceDataPoint)
    (k : nat) : num :=
  match k with
  | O => initialCapital_
  | S j => from_option pd_strategy NaN (points !! j)
  end.

(** *** Predicates on simulations and curves *)

(** Every trade of a simulation was opened by a selected strategy on a bar
    of the fetched data. *)
Definition tradeOrigin (form : BacktestForm) (data : gmap string (list AlpacaBar))
    (selectedStrategies : list SavedStrategy) (t : Trade) : Prop :=
  exists strategy i symbol currentBar,
    strategy ∈ selectedStrategies /\ openedOn form data strategy i symbol currentBar t.


(** The shape of a curve: every point adds its date's P&L to the previous
    portfolio value, and its drawdown is the unguarded quotient
    [(peak - value) / peak] against the running peak. *)
Definition curveShape (initialCapital_ : num) (pnl : gmap string num)
    (points : list PerformanceDataPoint) : Prop :=
  forall k p, points !! k = Some p ->
    pd_strategy p =
      num_add (previousValue initialCapital_ points k) (default NaN (pnl !! pd_date p)) /\
    pd_drawdown p =
      num_div (num_sub (peakAt initialCapital_ points k) (pd_strategy p))
              (peakAt initialCapital_ points k).

(** Every entry of the daily P&L is finite. *)
Definition finitePnl (pnl : gmap string num) : Prop :=
  forall date v, pnl !! date = Some v -> isFinite v = true.

(** *** Well-formed inputs

    The run configuration of the specification: a positive initial capital,
    a non-negative slippage, finite commission and stop-loss percentages,
    and bars with finite prices and a positive open. *)

Definition wellFormedBar (bar : AlpacaBar) : Prop :=
  num_gt (bar_o bar) (Fin 0) = true /\ isFinite (bar_o bar) = true /\
  isFinite (bar_h bar) = true /\ isFinite (bar_l bar) = true /\
  isFinite (bar_c bar) = true.

Definition wellFormedData (data : gmap string (list AlpacaBar)) : Prop :=
  forall symbol bars, data !! symbol = Some bars -> Forall wellFormedBar bars.

Definition wellFormedForm (form : BacktestForm) : Prop :=
  num_gt (initialCapital form) (Fin 0) = true /\ isFinite (initialCapital form) = true /\
  num_ge (slippage form) (Fin 0) = true /\ isFinite (slippage form) = true /\
  isFinite (commission form) = true.

Definition wellFormedStrategy (strategy : SavedStrategy) : Prop :=
  isFinite (st_stopLossPercentage strategy) = true.

(** *** Result assembly *)

(** The summary block.  [winRate] is kept as the percentage itself, before
    [toFixed(2)] turns it into a string. *)
Record BacktestSummary : Type := {
  sm_trades : nat;
  sm_wins : nat;
  sm_losses : nat;
  sm_winRate : num;
  sm_avgWin : num;
  sm_avgLoss : num;
  sm_avgRR : num;
  sm_avgPositionSize : num;
  sm_avgLeverage : num;
}.

Record RunConfig : Type := {
  cfg_startDate : string;
  cfg_endDate : string;
  cfg_initialCapital : num;
  cfg_commission : num;
  cfg_slippage : num;
}.

(** The result object.  [res_metrics] holds each metric's label and its
    numeric value before it is formatted for display. *)
Record BacktestResults : Type := {
  res_metrics : list (string * num);
  res_performanceData : list PerformanceDataPoint;
  res_allTrades : list Trade;
  res_stopLossFeedback : string;
  res_summary : BacktestSummary;
  res_config : RunConfig;
}.

Inductive RunError : Type :=
  | FetchFailed
  | NoPerformanceData.

Definition errorMessage (e : RunError) : string :=
  match e with
  | FetchFailed =>
      "Could not fetch real data for any selected assets. Please check asset universes or custom symbols."
  | NoPerformanceData =>
      "Could not generate performance data. No trades were executed in the simulation."
  end.

(** What a run leaves on the page: the alert of the first guard, an error
    banner, or the results. *)
Inductive Outcome : Type :=
  | Alerted (message : string)
  | SetError (e : RunError)
  | SetResults (results : BacktestResults).

Definition isWin (t : Trade) : bool :=
  match tr_type t with WIN => true | LOSS => false end.

Definition isLoss (t : Trade) : bool :=
  match tr_type t with WIN => false | LOSS => true end.

(** [ts.length > 0 ? ts.reduce((sum, t) => sum + f(t), 0) / ts.length : 0]. *)
Definition averageOf (f : Trade -> num) (ts : list Trade) : num :=
  if (0 <? length ts)%nat
  then num_div (foldl (fun sum t => num_add sum (f t)) (Fin 0) ts) (num_of_nat (length ts))
  else Fin 0.

Definition summaryOf (trades : list Trade) : BacktestSummary :=
  let winningTrades := filter (fun t => isWin t = true) trades in
  {| sm_trades := length trades;
     sm_wins := length winningTrades;
     sm_losses := (length trades - length winningTrades)%nat;
     sm_winRate :=
       if (0 <? length trades)%nat
       then num_mul (num_div (num_of_nat (length winningTrades))
                             (num_of_nat (length trades))) (Fin 100)
       else Fin 0;
     sm_avgWin := averageOf tr_pnl winningTrades;
     sm_avgLoss := averageOf tr_pnl (filter (fun t => isLoss t = true) trades);
     sm_avgRR := averageOf tr_rr trades;
     sm_avgPositionSize := averageOf tr_value trades;
     sm_avgLeverage := averageOf tr_leverage trades |}.

(** [savedStrategies.filter(s => selectedStrategyIds.includes(s.id))]. *)
Definition selectedStrategiesOf (savedStrategies : list SavedStrategy)
    (form : BacktestForm) : list SavedStrategy :=
  filter (fun s => st_id s ∈ selectedStrategyIds form) savedStrategies.

(** The fetched bars, unless
    [!dataResult.success || !dataResult.data ||
     Object.keys(dataResult.data).length === 0]. *)
Definition fetchedData (dataResult : BackendResponse)
    : option (gmap string (list AlpacaBar)) :=
  match br_data dataResult with
  | None => None
  | Some data =>
      if negb (br_success dataResult) || (size data =? 0)%nat then None else Some data
  end.

Section Run.
Context `{JsMath}.

Definition assembleResults (form : BacktestForm) (stopLossFeedback : string)
    (sim : SimState) (curve : CurveState) : BacktestResults :=
  let params := getSimulationParams (timeframe form) in
  let totalReturn := num_sub (portfolioValue curve) (initialCapital form) in
  let totalReturnPercent := num_mul (num_div totalReturn (initialCapital form)) (Fin 100) in
  let ratios := calculateAdvancedRatios (performanceData curve) (Fin 0.02)
                                        (barsPerYear params) in
  {| res_metrics :=
       [("Total P&L", totalReturn);
        ("Total Return", totalReturnPercent);
        ("Max Drawdown", num_mul (maxDrawdownOf (performanceData curve)) (Fin 100));
        ("Sortino Ratio", sortino ratios);
        ("Calmar Ratio", calmar ratios)];
     res_performanceData := performanceData curve;
     res_allTrades := allTrades sim;
     res_stopLossFeedback := stopLossFeedback;
     res_summary := summaryOf (allTrades sim);
     res_config :=
       {| cfg_startDate := startDate form; cfg_endDate := endDate form;
          cfg_initialCapital := initialCapital form;
          cfg_commission := commission form; cfg_slippage := slippage form |} |}.

(** [handleRunBacktest].  [dataResult] is what [fetchStockHistoricalData]
    answered for [symbolsToFetchOf selectedStrategies]; [stopLossFeedback]
    is what [getStrategyOptimizations] answered. *)
Definition handleRunBacktest (rnd : nat -> Q) (savedStrategies : list SavedStrategy)
    (form : BacktestForm) (dataResult : BackendResponse) (stopLossFeedback : string)
    : Outcome :=
  if (length (selectedStrategyIds form) =? 0)%nat
  then Alerted "Please select at least one strategy to backtest."
  else
    let selectedStrategies := selectedStrategiesOf savedStrategies form in
    match fetchedData dataResult with
    | None => SetError FetchFailed
    | Some data =>
        let sim := simulate rnd form data selectedStrategies in
        let curve := buildCurve (initialCapital form) (dailyPnl sim) (data !! "SPY") in
        if (length (performanceData curve) =? 0)%nat
        then SetError NoPerformanceData
        else SetResults (assembleResults form stopLossFeedback sim curve)
    end.
End Run.

(* ===================================================================== *)
(** ** The rest of the component and the services it calls *)
(* ===================================================================== *)

#[global] Instance AssetClass_eq_dec : EqDecision AssetClass.
Proof. solve_decision. Defined.

(** [handleStrategySelection]: the state update of a click on a strategy
    button, [prev.includes(id) ? prev.filter(x => x !== id) : [...prev, id]]. *)
Definition handleStrategySelection (strategyId : string) (prev : list string)
    : list string :=
  if decide (strategyId ∈ prev)
  then filter (fun id => id <> strategyId) prev
  else prev ++ [strategyId].

(** *** [fetchStockHistoricalData] ([marketDataService.ts])

    The two HTTP backends are functions from the requested symbols (for the
    date range and timeframe of the call) to the bars they answer, [None]
    when the request failed or carried no bars. *)

(** [s.includes(needle)]. *)
Definition includes (needle s : string) : bool :=
  match String.index 0 needle s with Some _ => true | None => false end.

Definition isUSStock (symbol : string) : bool :=
  negb (includes "/" symbol) && negb (String.prefix "^" symbol)
  && negb (includes "=" symbol) && negb (includes "." symbol).

Record Backends : Type := {
  alpacaBars : list string -> option (gmap string (list AlpacaBar));
  internalBars : list string -> option (gmap string (list AlpacaBar));
}.

(** [alpacaBars[symbol] && alpacaBars[symbol].length > 0]. *)
Definition served (bars : gmap string (list AlpacaBar)) (symbol : string) : bool :=
  match bars !! symbol with
  | Some (_ :: _) => true
  | _ => false
  end.

(** Step 2 of the fetch: what Alpaca contributed, and the symbols left for
    the internal backend (the non-US symbols, then the US stocks Alpaca
    failed on). *)
Definition fetchFromAlpaca (backends : Backends) (symbols : list string)
    : gmap string (list AlpacaBar) * list string :=
  let symbolsForAlpaca := filter (fun s => isUSStock s = true) symbols in
  let symbolsForNodeServer := filter (fun s => isUSStock s = false) symbols in
  if (0 <? length symbolsForAlpaca)%nat then
    match alpacaBars backends symbolsForAlpaca with
    | Some bars =>
        (foldl (fun combined symbol =>
                  if served bars symbol
                  then <[symbol := default [] (bars !! symbol)]> combined
                  else combined)
               ∅ symbolsForAlpaca,
         symbolsForNodeServer
           ++ filter (fun s => served bars s = false) symbolsForAlpaca)
    | None => (∅, symbolsForNodeServer ++ symbolsForAlpaca)
    end
  else (∅, symbolsForNodeServer).

(** Step 3 and the answer.  Every key the internal backend answers is
    copied over what Alpaca contributed. *)
Definition fetchStockHistoricalData (backends : Backends) (symbols : list string)
    : BackendResponse :=
  let '(fromAlpaca, symbolsForNodeServer) := fetchFromAlpaca backends symbols in
  let combinedData :=
    if (0 <? length symbolsForNodeServer)%nat then
      match internalBars backends (uniq symbolsForNodeServer) with
      | Some data => data ∪ fromAlpaca
      | None => fromAlpaca
      end
    else fromAlpaca in
  if (0 <? size combinedData)%nat
  then {| br_success := true; br_data := Some combinedData |}
  else {| br_success := false; br_data := None |}.

(** What the fetch asks of each backend: Alpaca is asked for
    [alpacaRequestOf] when that is not empty, the internal backend for
    [internalRequestOf] when that is not empty. *)
Definition alpacaRequestOf (symbols : list string) : list string :=
  filter (fun s => isUSStock s = true) symbols.

Definition internalRequestOf (backends : Backends) (symbols : list string)
    : list string :=
  uniq (fetchFromAlpaca backends symbols).2.

Section RunWithFetch.
Context `{JsMath}.

(** [handleRunBacktest] with the fetch it awaits. *)
Definition runBacktest (backends : Backends) (rnd : nat -> Q)
    (savedStrategies : list SavedStrategy) (form : BacktestForm)
    (stopLossFeedback : string) : Outcome :=
  handleRunBacktest rnd savedStrategies form
    (fetchStockHistoricalData backends
       (symbolsToFetchOf (selectedStrategiesOf savedStrategies form)))
    stopLossFeedback.
End RunWithFetch.

(** *** Predicates and measures for the properties below *)

(** [t] was opened by [strategy] on a bar, past the five lookback bars, of
    one of its available symbols, with a risk/reward ratio between [2.5]
    and [5.0].  The upper end is included: [2.5 + draw * 2.5] stays below
    [5.0] for a draw below [1], but its rounding may reach it. *)
Definition tradeSource (form : BacktestForm) (data : gmap string (list AlpacaBar))
    (strategy : SavedStrategy) (t : Trade) : Prop :=
  exists (i : nat) (symbol : string) (symbolBars : list AlpacaBar)
         (currentBar : AlpacaBar) (rr : Q),
    symbol ∈ availableSymbolsOf data strategy /\
    data !! symbol = Some symbolBars /\ symbolBars !! i = Some currentBar /\
    (5 <= i)%nat /\ 2.5 <= rr <= 5.0 /\
    t = executeTrade form (holdingTime (getSimulationParams (timeframe form)))
                     strategy i symbol currentBar (Fin rr).

(** Every trade of a simulation state has its source in a selected
    strategy. *)
Definition tradesFromSelected (form : BacktestForm) (data : gmap string (list AlpacaBar))
    (selectedStrategies : list SavedStrategy) (st : SimState) : Prop :=
  Forall (fun t => exists strategy, strategy ∈ selectedStrategies /\
                                    tradeSource form data strategy t)
         (allTrades st).

(** Inputs in the ranges the form is meant for: besides [wellFormedForm], a
    slippage of at most 100% and a commission that is not negative; a
    positive stop-loss percentage; bars whose low is not above their
    close. *)
Definition soundForm (form : BacktestForm) : Prop :=
  wellFormedForm form /\ num_le (slippage form) (Fin 100) = true /\
  num_ge (commission form) (Fin 0) = true.

Definition soundStrategy (strategy : SavedStrategy) : Prop :=
  isFinite (st_stopLossPercentage strategy) = true /\
  num_gt (st_stopLossPercentage strategy) (Fin 0) = true.

Definition soundBar (bar : AlpacaBar) : Prop :=
  wellFormedBar bar /\ num_le (bar_l bar) (bar_c bar) = true.

Definition soundData (data : gmap string (list AlpacaBar)) : Prop :=
  forall symbol bars, data !! symbol = Some bars -> Forall soundBar bars.

(** The rational a finite number stands for. *)
Definition finiteValue (x : num) : Q :=
  match x with Fin q => q | _ => 0 end.

(** The summed P&L of a list of trades, and of a daily P&L map. *)
Definition tradesPnl (trades : list Trade) : Q :=
  foldr (fun t total => finiteValue (tr_pnl t) + total) 0 trades.

Definition entriesPnl (entries : list (string * num)) : Q :=
  foldr (fun entry total => finiteValue entry.2 + total) 0 entries.

Definition dailyPnlTotal (pnl : gmap string num) : Q := entriesPnl (map_to_list pnl).

(** The two facts the loops keep: finite entries, and a total equal to the
    summed P&L of the trades pushed so far. *)
Definition pnlConserved (st : SimState) : Prop :=
  finitePnl (dailyPnl st) /\
  Forall (fun t => isFinite (tr_pnl t) = true) (allTrades st) /\
  dailyPnlTotal (dailyPnl st) == tradesPnl (allTrades st).

(** The summed P&L of the given dates. *)
Definition datesPnl (pnl : gmap string num) (dates : list string) : Q :=
  foldr (fun date total => finiteValue (default NaN (pnl !! date)) + total) 0 dates.

(** The number of bars the bar loop visits for a strategy. *)
Definition barsVisited (data : gmap string (list AlpacaBar)) (strategy : SavedStrategy)
    : nat :=
  match availableSymbolsOf data strategy with
  | [] => 0%nat
  | first :: _ => (length (default [] (data !! first)) - 5)%nat
  end.

(** The benchmark value before the [k]-th point of a curve. *)
Definition previousBenchmark (initialCapital_ : num)
    (points : list PerformanceDataPoint) (k : nat) : num :=
  match k with
  | O => initialCapital_
  | S j => from_option pd_sp500 NaN (points !! j)
  end.

(** The benchmark value a point is given. *)
Definition benchmarkOf (initialCapital_ : num) (spyData : option (list AlpacaBar))
    (points : list PerformanceDataPoint) (k : nat) (p : PerformanceDataPoint) : num :=
  let currentSpyPrice := dateToSpyPriceMapOf spyData !! pd_date p in
  let spyInitialPrice := spyInitialPriceOf spyData in
  if truthy_opt currentSpyPrice && truthy_opt spyInitialPrice
  then num_mul initialCapital_
               (num_div (default NaN currentSpyPrice) (default NaN spyInitialPrice))
  else previousBenchmark initialCapital_ points k.

(** The bars the bar loops visit for all the selected strategies. *)
Definition totalBarsVisited (data : gmap string (list AlpacaBar))
    (selectedStrategies : list SavedStrategy) : nat :=
  foldr (fun strategy total => (barsVisited data strategy + total)%nat) 0%nat
        selectedStrategies.

(* ===================================================================== *)
(** ** Example inputs *)
(* ===================================================================== *)

(** An executable [JsMath] to run the definitions on examples: powers with
    an integer exponent and square roots of squares of rationals are exact;
    other square roots are rounded down to a multiple of the inverse
    denominator, and other powers are not represented ([NaN]). *)
Definition exactPow (x y : num) : num :=
  match x, y with
  | _, NaN => NaN
  | NaN, Fin b => if Qeq_bool b 0 then Fin 1 else NaN
  | Fin a, Fin b =>
      if Qeq_bool b (inject_Z (Qfloor b))
      then if Qeq_bool a 0 && (Qfloor b <? 0)%Z then PInf
           else Fin (Qpower a (Qfloor b))
      else NaN
  | _, _ => NaN
  end.

Definition exactSqrt (x : num) : num :=
  match x with
  | Fin q =>
      if num_lt x (Fin 0) then NaN
      else Fin (Z.sqrt (Qnum q * Zpos (Qden q)) # Qden q)
  | PInf => PInf
  | NInf | NaN => NaN
  end.

Definition exactMath : JsMath := {| Math_pow := exactPow; Math_sqrt := exactSqrt |}.

Definition mkBar (t : string) (o h l c : Q) : AlpacaBar :=
  {| bar_t := t; bar_o := Fin o; bar_h := Fin h; bar_l := Fin l; bar_c := Fin c;
     bar_v := Fin 1000 |}.

(** Five flat daily bars at 100, the lookback of the first tradable bar. *)
Definition leadBars : list AlpacaBar :=
  [mkBar "2024-01-01T05:00:00Z" 100 100 100 100;
   mkBar "2024-01-02T05:00:00Z" 100 100 100 100;
   mkBar "2024-01-03T05:00:00Z" 100 100 100 100;
   mkBar "2024-01-04T05:00:00Z" 100 100 100 100;
   mkBar "2024-01-05T05:00:00Z" 100 100 100 100].

(** Sixth bars: flat, falling through the stop, and spanning both the stop
    and the target. *)
Definition flatBar : AlpacaBar := mkBar "2024-01-08T05:00:00Z" 100 100 100 100.
Definition fallingBar : AlpacaBar := mkBar "2024-01-08T05:00:00Z" 100 100 90 95.
Definition wideBar : AlpacaBar := mkBar "2024-01-08T05:00:00Z" 100 120 90 95.

(** What the fetch answers: the benchmark and one custom symbol. *)
Definition fetchedWith (lastBar : AlpacaBar) : gmap string (list AlpacaBar) :=
  <["ZZZ" := leadBars ++ [lastBar]]> (<["SPY" := leadBars ++ [flatBar]]> ∅).

Definition fetchOf (data : gmap string (list AlpacaBar)) : BackendResponse :=
  {| br_success := true; br_data := Some data |}.

Definition fetchFailure : BackendResponse := {| br_success := false; br_data := None |}.

(** What the fetch answers when only the benchmark was requested. *)
Definition benchmarkOnly : gmap string (list AlpacaBar) :=
  <["SPY" := leadBars ++ [flatBar]]> ∅.

(** A second trading day, and the answer covering both days. *)
Definition nextBar : AlpacaBar := mkBar "2024-01-09T05:00:00Z" 100 104 99 102.

Definition fetchedTwoDays : gmap string (list AlpacaBar) :=
  <["ZZZ" := leadBars ++ [fallingBar; nextBar]]>
    (<["SPY" := leadBars ++ [flatBar; nextBar]]> ∅).

(** Backends: Alpaca answering every request with both symbols while the
    internal backend is down, and both backends answering no symbol. *)
Definition alpacaOnly : Backends :=
  {| alpacaBars := fun _ => Some (fetchedWith fallingBar);
     internalBars := fun _ => None |}.

Definition emptyBackend : Backends :=
  {| alpacaBars := fun _ => Some ∅; internalBars := fun _ => Some ∅ |}.

Definition feedback : string := "Keep the stop-loss at 5%.".

(** A rising two-point curve. *)
Definition risingCurve : list PerformanceDataPoint :=
  [{| pd_date := "2024-01-08"; pd_strategy := Fin 100000; pd_sp500 := Fin 100000;
      pd_drawdown := Fin 0 |};
   {| pd_date := "2024-01-09"; pd_strategy := Fin 101000; pd_sp500 := Fin 100500;
      pd_drawdown := Fin 0 |}].

(** A strategy trading the custom symbol, and one that resolves to no
    symbol at all. *)
Definition customStrategy : SavedStrategy :=
  {| st_id := "s1"; st_models := ["RSI"]; st_assetUniverses := [];
     st_customSymbols := ["ZZZ"]; st_stopLossPercentage := Fin 5 |}.

Definition symbollessStrategy : SavedStrategy :=
  {| st_id := "s0"; st_models := ["RSI"]; st_assetUniverses := [];
     st_customSymbols := []; st_stopLossPercentage := Fin 5 |}.

(** The form with its default commission, slippage and timeframe, the
    trend filter switched off. *)
Definition formWith (ids : list string) (capital fee : Q) : BacktestForm :=
  {| selectedStrategyIds := ids; startDate := "2024-01-01"; endDate := "2024-01-09";
     initialCapital := Fin capital; commission := Fin fee; slippage := Fin 0.05;
     useWeeklyBias := false; timeframe := TF_1Day |}.

Definition defaultForm : BacktestForm := formWith ["s1"] 100000 0.5.

(** Random streams: every draw [0.1] (a trade fires on every bar, with
    [rr = 2.75]) and every draw [0.9] (no trade ever fires). *)
Definition alwaysTrade : nat -> Q := fun _ => 0.1.
Definition neverTrade : nat -> Q := fun _ => 0.9.

(* ===================================================================== *)
(** * Properties *)
(* ===================================================================== *)

(** ** Numbers *)

Lemma num_lt_Fin (a b : Q) : num_lt (Fin a) (Fin b) = true <-> a < b.
Proof.
  simpl. rewrite Qlt_alt. destruct (a ?= b); split; congruence.
Qed.

Lemma num_le_Fin (a b : Q) : num_le (Fin a) (Fin b) = true <-> a <= b.
Proof.
  simpl. rewrite Qle_alt. destruct (a ?= b); split; congruence.
Qed.

Lemma num_lt_Fin_false (a b : Q) : num_lt (Fin a) (Fin b) = false <-> b <= a.
Proof.
  rewrite <- not_true_iff_false, num_lt_Fin. split; [apply Qnot_lt_le | apply Qle_not_lt].
Qed.

Lemma num_le_Fin_false (a b : Q) : num_le (Fin a) (Fin b) = false <-> b < a.
Proof.
  rewrite <- not_true_iff_false, num_le_Fin. split; [apply Qnot_le_lt | apply Qlt_not_le].
Qed.

Lemma num_div_Fin (a b : Q) : ~ b == 0 -> num_div (Fin a) (Fin b) = Fin (a / b).
Proof.
  intros Hb. simpl. destruct (Qeq_bool b 0) eqn:E; [| reflexivity].
  apply Qeq_bool_iff in E. contradiction.
Qed.

(** A comparison that holds rules out its converse, [NaN] included. *)
Lemma num_gt_not_le (x y : num) : num_gt x y = true -> num_le x y = false.
Proof.
  unfold num_gt. destruct x as [a | | |], y as [b | | |]; try (simpl; congruence).
  rewrite num_lt_Fin, num_le_Fin_false. auto.
Qed.

Lemma num_lt_not_ge (x y : num) : num_lt x y = true -> num_ge x y = false.
Proof. unfold num_ge. apply (num_gt_not_le y x). Qed.

#[global] Instance num_eqv_equiv : Equivalence num_eqv.
Proof.
  split.
  - intros [a | | |]; simpl; auto. reflexivity.
  - intros [a | | |] [b | | |]; simpl; auto. intros E. symmetry. exact E.
  - intros [a | | |] [b | | |] [c | | |]; simpl; auto; try contradiction.
    intros E1 E2. rewrite E1. exact E2.
Qed.

Lemma Qfloor_half_lower (x : Q) (n : Z) : inject_Z n <= x -> (n <= Qfloor (x + 0.5))%Z.
Proof.
  intros Hx. rewrite <- (Qfloor_Z n). apply Qfloor_resp_le. lra.
Qed.

Lemma Qfloor_half_upper (x : Q) (n : Z) : x <= inject_Z n -> (Qfloor (x + 0.5) <= n)%Z.
Proof.
  intros Hx.
  assert (Hlt : inject_Z (Qfloor (x + 0.5)) < inject_Z (n + 1)).
  { eapply Qle_lt_trans; [apply Qfloor_le |]. rewrite inject_Z_plus.
    change (inject_Z 1) with 1. lra. }
  rewrite <- Zlt_Qlt in Hlt. lia.
Qed.

(** ** Leverage sizer *)

Lemma Math_min_Fin (a b : Q) : exists c, Math_min (Fin a) (Fin b) = Fin c /\ c == Qmin a b.
Proof.
  unfold Math_min. destruct (num_lt (Fin b) (Fin a)) eqn:E.
  - apply num_lt_Fin in E. exists b. split; [reflexivity |].
    symmetry. apply Q.min_r. apply Qlt_le_weak. exact E.
  - apply num_lt_Fin_false in E. exists a. split; [reflexivity |].
    symmetry. apply Q.min_l. exact E.
Qed.

Lemma calculateDynamicLeverage_interpolated (rr maxLeverage : Q) :
  2 < maxLeverage ->
  exists x,
    calculateDynamicLeverage (Fin rr) (Fin maxLeverage) = Fin (inject_Z (Qfloor (x + 0.5))) /\
    x == interpolated (Qmin rr 5.0) maxLeverage.
Proof.
  intros Hm. unfold calculateDynamicLeverage.
  replace (num_sub maxRR minRR) with (Fin (5.0 - 2.5)) by reflexivity.
  replace (num_le (Fin (5.0 - 2.5)) (Fin 0)) with false by reflexivity.
  assert (Hrange : num_le (num_sub (Fin maxLeverage) (Fin 2)) (Fin 0) = false).
  { apply num_le_Fin_false. lra. }
  rewrite Hrange. cbn [orb]. unfold maxRR, minRR.
  destruct (Math_min_Fin rr 5.0) as (c & -> & Hc).
  cbn [num_sub]. rewrite num_div_Fin by lra. cbn [num_mul num_add].
  destruct (Math_min_Fin (2 + (c - 2.5) / (5.0 - 2.5) * (maxLeverage - 2)) maxLeverage)
    as (x & -> & Hx).
  exists x. split; [reflexivity |].
  rewrite Hx. unfold interpolated. rewrite Hc. reflexivity.
Qed.

Lemma calculateDynamicLeverage_collapsed (rr : num) (maxLeverage : Q) :
  maxLeverage <= 2 -> calculateDynamicLeverage rr (Fin maxLeverage) = Fin 2.
Proof.
  intros Hm. unfold calculateDynamicLeverage.
  assert (Hrange : num_le (num_sub (Fin maxLeverage) (Fin 2)) (Fin 0) = true).
  { apply num_le_Fin. lra. }
  rewrite Hrange, orb_true_r. reflexivity.
Qed.

Lemma interpolated_bounds (c maxLeverage : Q) :
  2.5 <= c -> 2 <= maxLeverage ->
  2 <= interpolated c maxLeverage <= maxLeverage.
Proof.
  intros Hc Hm. unfold interpolated. split; [| apply Q.le_min_r].
  apply Q.min_glb; [| exact Hm].
  assert (Hfrac : 0 <= (c - 2.5) / (5.0 - 2.5)).
  { apply Qle_shift_div_l; lra. }
  assert (Hprod : 0 <= (c - 2.5) / (5.0 - 2.5) * (maxLeverage - 2)).
  { apply Qmult_le_0_compat; lra. }
  lra.
Qed.

#[global] Instance interpolated_proper : Proper (Qeq ==> Qeq ==> Qeq) interpolated.
Proof.
  intros c c' Hc m m' Hm. unfold interpolated.
  apply Q.min_compat; [| exact Hm]. rewrite Hc, Hm. reflexivity.
Qed.

(** C9.  The three test vectors of the leverage sizer:
    [calculateDynamicLeverage(2.5, 20) == 2],
    [calculateDynamicLeverage(5.0, 20) == 20] and
    [calculateDynamicLeverage(3.75, 10) == 6]. *)
Theorem calculateDynamicLeverage_vectors :
  calculateDynamicLeverage (Fin 2.5) (Fin 20) = Fin 2 /\
  calculateDynamicLeverage (Fin 5.0) (Fin 20) = Fin 20 /\
  calculateDynamicLeverage (Fin 3.75) (Fin 10) = Fin 6.
Proof. repeat split; vm_compute; reflexivity. Qed.

(** C1, as stated, fails: a risk/reward ratio below [2.5] is not raised to
    [2.5] (only the upper bound is clamped), and the result falls below
    [2].  At [rr = 0], [maxLeverage = 20] the result is [-16]. *)
Lemma calculateDynamicLeverage_no_lower_clamp :
  calculateDynamicLeverage (Fin 0) (Fin 20) = Fin (-16) /\
  calculateDynamicLeverage (Fin 0) (Fin 20) <> calculateDynamicLeverage (Fin 2.5) (Fin 20) /\
  num_le (Fin 2) (calculateDynamicLeverage (Fin 0) (Fin 20)) = false.
Proof. repeat split; vm_compute; congruence. Qed.

(** C1, amended.  For every risk/reward ratio [rr >= 2.5] and every integer
    [maxLeverage], the sizer returns an integer [r]: [r = 2] when
    [maxLeverage <= 2]; otherwise [2 <= r <= maxLeverage], with [r = 2] at
    [rr = 2.5] and [r = maxLeverage] at every [rr >= 5.0] (for a
    [maxLeverage] of at most [2^53], the integers a [number] holds
    exactly).  A ratio above [5.0] gives the result of [5.0].  Nothing is
    said of the integer in between beyond its range: it is the rounding of
    an interpolation whose last digit depends on the arithmetic. *)
Theorem calculateDynamicLeverage_range (rr : Q) (maxLeverage : Z) :
  2.5 <= rr ->
  exists r : Z,
    calculateDynamicLeverage (Fin rr) (Fin (inject_Z maxLeverage)) = Fin (inject_Z r) /\
    ((maxLeverage <= 2)%Z -> r = 2%Z) /\
    ((2 < maxLeverage)%Z -> (2 <= r <= maxLeverage)%Z) /\
    (rr == 2.5 -> r = 2%Z) /\
    (5.0 <= rr -> (2 < maxLeverage <= 2 ^ 53)%Z -> r = maxLeverage) /\
    (5.0 <= rr ->
     calculateDynamicLeverage (Fin 5.0) (Fin (inject_Z maxLeverage)) = Fin (inject_Z r)).
Proof.
  intros Hrr. destruct (Z_le_gt_dec maxLeverage 2) as [Hm | Hm].
  - assert (HmQ : inject_Z maxLeverage <= 2).
    { change 2 with (inject_Z 2). rewrite <- Zle_Qle. exact Hm. }
    exists 2%Z. rewrite !calculateDynamicLeverage_collapsed by exact HmQ.
    repeat split; auto; lia.
  - assert (HmQ : 2 < inject_Z maxLeverage).
    { change 2 with (inject_Z 2). rewrite <- Zlt_Qlt. lia. }
    destruct (calculateDynamicLeverage_interpolated rr _ HmQ) as (x & Hx & Hxeq).
    destruct (calculateDynamicLeverage_interpolated 5.0 _ HmQ) as (y & Hy & Hyeq).
    assert (Hclamped : 2.5 <= Qmin rr 5.0) by (apply Q.min_glb; lra).
    pose proof (interpolated_bounds _ (inject_Z maxLeverage) Hclamped) as Hb.
    exists (Qfloor (x + 0.5)). split; [exact Hx |]. split; [lia |].
    split; [| split; [| split]].
    + intros _. split.
      * apply Qfloor_half_lower. rewrite Hxeq.
        change (inject_Z 2) with 2. apply Hb. lra.
      * apply Qfloor_half_upper. rewrite Hxeq. apply Hb. lra.
    + intros Hlow.
      assert (Ec : Qmin rr 5.0 == 2.5).
      { etransitivity; [apply Q.min_l; lra | exact Hlow]. }
      assert (Ea : 2 + (2.5 - 2.5) / (5.0 - 2.5) * (inject_Z maxLeverage - 2) == 2)
        by field.
      assert (Ex : x == 2).
      { rewrite Hxeq, Ec. unfold interpolated.
        etransitivity; [apply Q.min_l; rewrite Ea; lra | exact Ea]. }
      rewrite (Qfloor_comp _ (inject_Z 2 + 0.5)) by (rewrite Ex; reflexivity).
      apply Z.le_antisymm.
      * apply Qfloor_half_upper. lra.
      * apply Qfloor_half_lower. lra.
    + intros H5 _.
      assert (Ec : Qmin rr 5.0 == 5.0) by (apply Q.min_r; exact H5).
      assert (Ea : 2 + (5.0 - 2.5) / (5.0 - 2.5) * (inject_Z maxLeverage - 2)
                   == inject_Z maxLeverage) by field.
      assert (Ex : x == inject_Z maxLeverage).
      { rewrite Hxeq, Ec. unfold interpolated.
        etransitivity; [apply Q.min_l; rewrite Ea; lra | exact Ea]. }
      rewrite (Qfloor_comp _ (inject_Z maxLeverage + 0.5)) by (rewrite Ex; reflexivity).
      apply Z.le_antisymm.
      * apply Qfloor_half_upper. lra.
      * apply Qfloor_half_lower. lra.
    + intros H5. rewrite Hy. do 2 f_equal. apply Qfloor_comp.
      rewrite Hxeq, Hyeq.
      assert (E : Qmin rr 5.0 == Qmin 5.0 5.0).
      { rewrite Q.min_r by exact H5. rewrite Q.min_l by lra. reflexivity. }
      rewrite E. reflexivity.
Qed.

Lemma calculateDynamicLeverage_range_witness :
  exists r : Z,
    calculateDynamicLeverage (Fin 3.75) (Fin (inject_Z 10)) = Fin (inject_Z r) /\
    ((10 <= 2)%Z -> r = 2%Z) /\
    ((2 < 10)%Z -> (2 <= r <= 10)%Z) /\
    (3.75 == 2.5 -> r = 2%Z) /\
    (5.0 <= 3.75 -> (2 < 10 <= 2 ^ 53)%Z -> r = 10%Z) /\
    (5.0 <= 3.75 ->
     calculateDynamicLeverage (Fin 5.0) (Fin (inject_Z 10)) = Fin (inject_Z r)).
Proof. apply (calculateDynamicLeverage_range 3.75 10). vm_compute. discriminate. Defined.

(** ** Trade simulation *)

Lemma Math_random_range (rnd : nat -> Q) (k : nat) :
  exists r, Math_random rnd k = Fin r /\ 0 <= r < 1.
Proof.
  unfold Math_random. eexists. split; [reflexivity |].
  pose proof (Qfloor_le (rnd k)). pose proof (Qlt_floor (rnd k)) as Hlt.
  rewrite inject_Z_plus in Hlt. change (inject_Z 1) with 1 in Hlt. lra.
Qed.

Lemma potentialRR_range (rnd : nat -> Q) (k : nat) :
  exists rr, num_add (Fin 2.5) (num_mul (Math_random rnd k) (Fin 2.5)) = Fin rr /\
             2.5 <= rr < 5.0.
Proof.
  destruct (Math_random_range rnd k) as (r & -> & Hr).
  eexists. split; [reflexivity |]. lra.
Qed.

(** A bar iteration leaves [allTrades] alone or pushes the trade opened on
    that bar. *)
Lemma simulateBar_allTrades rnd form data strategy availableSymbols timelineBars st i :
  (5 <= i)%nat ->
  let st' := simulateBar rnd form data strategy availableSymbols timelineBars st i in
  allTrades st' = allTrades st \/
  exists symbol currentBar t,
    openedOn form data strategy i symbol currentBar t /\
    allTrades st' = allTrades st ++ [t].
Proof.
  intros Hi. unfold simulateBar.
  destruct (potentialRR_range rnd (S (S (rng st)))) as (rr & Hrr & Hrange).
  destruct (timelineBars !! i) as [timelineBar |]; [| auto].
  destruct (num_lt _ _); [| cbn [allTrades]; auto].
  destruct (array_get _ _) as [symbol |]; [| cbn [allTrades]; auto].
  destruct (data !! symbol) as [symbolBars |] eqn:Hdata; [| cbn [allTrades]; auto].
  destruct (symbolBars !! i) as [currentBar |] eqn:Hbar; [| cbn [allTrades]; auto].
  destruct (useWeeklyBias form && negb _); cbn [allTrades]; [auto |].
  right. exists symbol, currentBar. eexists. split; [| reflexivity].
  exists symbolBars, rr. rewrite Hrr. auto.
Qed.

Lemma foldl_invariant {A B : Type} (P : A -> Prop) (f : A -> B -> A) (l : list B) (a : A) :
  P a -> (forall a' b, b ∈ l -> P a' -> P (f a' b)) -> P (foldl f a l).
Proof.
  revert a. induction l as [| b l IH]; intros a Ha Hstep; simpl; [exact Ha |].
  apply IH.
  - apply Hstep; [left | exact Ha].
  - intros a' b' Hb'. apply Hstep. right. exact Hb'.
Qed.

Lemma elem_of_seq_ge (i start len : nat) : i ∈ seq start len -> (start <= i < start + len)%nat.
Proof. rewrite list_elem_of_In, in_seq. auto. Qed.

Lemma simulateStrategy_allTrades rnd form data selectedStrategies st strategy :
  strategy ∈ selectedStrategies ->
  Forall (tradeOrigin form data selectedStrategies) (allTrades st) ->
  Forall (tradeOrigin form data selectedStrategies)
         (allTrades (simulateStrategy rnd form data st strategy)).
Proof.
  intros Hsel Hst. unfold simulateStrategy.
  destruct (availableSymbolsOf data strategy) as [| first rest]; [exact Hst |].
  apply (foldl_invariant
           (fun s => Forall (tradeOrigin form data selectedStrategies) (allTrades s)));
    [exact Hst |].
  intros s i Hi Hs. apply elem_of_seq_ge in Hi.
  destruct (simulateBar_allTrades rnd form data strategy (first :: rest)
              (default [] (data !! first)) s i) as [-> | (symbol & bar & t & Hopen & ->)];
    [lia | exact Hs |].
  apply Forall_app. split; [exact Hs |].
  apply Forall_singleton. exists strategy, i, symbol, bar. auto.
Qed.

Lemma simulate_allTrades rnd form data selectedStrategies :
  Forall (tradeOrigin form data selectedStrategies)
         (allTrades (simulate rnd form data selectedStrategies)).
Proof.
  unfold simulate.
  apply (foldl_invariant
           (fun s => Forall (tradeOrigin form data selectedStrategies) (allTrades s))).
  - constructor.
  - intros s strategy Hin Hs. apply simulateStrategy_allTrades; assumption.
Qed.

Lemma executeTrade_exit form holdingTime_ strategy i symbol currentBar rr :
  let t := executeTrade form holdingTime_ strategy i symbol currentBar rr in
  let rawExit := resolveExit currentBar (tr_stopLossPrice t) (tr_takeProfitPrice t) in
  tr_exitReason t = rawExit.2 /\
  tr_exitPrice t = num_mul rawExit.1 (num_sub (Fin 1) (num_div (slippage form) (Fin 100))).
Proof. split; reflexivity. Qed.

(** C5.  A trade whose entry bar has [low <= stopLossPrice] and
    [high >= takeProfitPrice] at once is resolved as a stop-loss: the stop
    is checked before the target.  ([handleRunBacktest_trades]: every trade
    of a run is [openedOn] the bar it was simulated against.) *)
Theorem stop_loss_precedes_take_profit form data strategy i symbol currentBar t :
  openedOn form data strategy i symbol currentBar t ->
  num_le (bar_l currentBar) (tr_stopLossPrice t) = true ->
  num_ge (bar_h currentBar) (tr_takeProfitPrice t) = true ->
  tr_exitReason t = SL /\
  tr_exitPrice t =
    num_mul (tr_stopLossPrice t) (num_sub (Fin 1) (num_div (slippage form) (Fin 100))).
Proof.
  intros (symbolBars & rr & _ & _ & _ & _ & ->) Hlow _.
  destruct (executeTrade_exit form (holdingTime (getSimulationParams (timeframe form)))
              strategy i symbol currentBar (Fin rr)) as [-> ->].
  unfold resolveExit. rewrite Hlow. split; reflexivity.
Qed.

(** C6.  The recorded exit price of a trade is the raw exit price chosen
    against its entry bar (stop, target or close) times
    [1 - slippage / 100]; and a trade whose entry bar has
    [low > stopLossPrice] and [high < takeProfitPrice] exits at the bar's
    close with reason [EOD], at [close * (1 - slippage / 100)]. *)
Theorem end_of_period_exit form data strategy i symbol currentBar t :
  openedOn form data strategy i symbol currentBar t ->
  (exists raw,
      (raw = tr_stopLossPrice t \/ raw = tr_takeProfitPrice t \/ raw = bar_c currentBar) /\
      raw = (resolveExit currentBar (tr_stopLossPrice t) (tr_takeProfitPrice t)).1 /\
      tr_exitPrice t = num_mul raw (num_sub (Fin 1) (num_div (slippage form) (Fin 100)))) /\
  (num_gt (bar_l currentBar) (tr_stopLossPrice t) = true ->
   num_lt (bar_h currentBar) (tr_takeProfitPrice t) = true ->
   tr_exitReason t = EOD /\
   tr_exitPrice t =
     num_mul (bar_c currentBar) (num_sub (Fin 1) (num_div (slippage form) (Fin 100)))).
Proof.
  intros (symbolBars & rr & _ & _ & _ & _ & ->).
  destruct (executeTrade_exit form (holdingTime (getSimulationParams (timeframe form)))
              strategy i symbol currentBar (Fin rr)) as [-> ->].
  split.
  - eexists. split; [| split; reflexivity].
    unfold resolveExit. repeat case_match; cbn [fst]; auto.
  - intros Hlow Hhigh. apply num_gt_not_le in Hlow. apply num_lt_not_ge in Hhigh.
    unfold resolveExit. rewrite Hlow, Hhigh. split; reflexivity.
Qed.

(** ** Risk metrics *)

Lemma num_mul_zero_not_positive (x : num) : num_gt (num_mul (Fin 0) x) (Fin 0) = false.
Proof. destruct x as [q | | |]; reflexivity. Qed.

Lemma num_eqv_zero_not_positive (x : num) : num_eqv x (Fin 0) -> num_gt x (Fin 0) = false.
Proof.
  destruct x as [q | | |]; simpl; try contradiction.
  intros E. apply num_lt_Fin_false. rewrite E. lra.
Qed.

Lemma filter_nil_Forall {A : Type} (P : A -> Prop) `{forall x, Decision (P x)} (l : list A) :
  Forall (fun x => ~ P x) l -> filter P l = [].
Proof.
  induction 1 as [| x l Hx _ IH]; [reflexivity |].
  rewrite filter_cons_False by exact Hx. exact IH.
Qed.

Section RatiosProperties.
Context `{JsMath}.

Lemma downsideDeviationOf_no_downside performanceData barsPerYear_ :
  downsideReturnsOf performanceData = [] ->
  downsideDeviationOf performanceData barsPerYear_ =
  num_mul (Math_sqrt (Fin 0)) (Math_sqrt barsPerYear_).
Proof. intros E. unfold downsideDeviationOf. rewrite E. reflexivity. Qed.

(** C7.  When [Math.sqrt(0)] is [0]: if no per-period return is strictly
    negative, the downside deviation is [0] (for a finite
    [Math.sqrt(barsPerYear)]) and the Sortino ratio is [0]; the Calmar
    ratio is [0] when the maximum drawdown is [0]; and both ratios of the
    output are always finite, each being the computed ratio when that is
    finite and [0] otherwise. *)
Theorem calculateAdvancedRatios_degenerate performanceData riskFreeRate barsPerYear_ :
  Math_sqrt (Fin 0) = Fin 0 ->
  let out := calculateAdvancedRatios performanceData riskFreeRate barsPerYear_ in
  (Forall (fun r => num_lt r (Fin 0) = false) (dailyReturns performanceData) ->
   (isFinite (Math_sqrt barsPerYear_) = true ->
    num_eqv (downsideDeviationOf performanceData barsPerYear_) (Fin 0)) /\
   sortino out = Fin 0) /\
  (num_eqv (maxDrawdownOf performanceData) (Fin 0) -> calmar out = Fin 0) /\
  isFinite (sortino out) = true /\ isFinite (calmar out) = true /\
  (let annualizedReturn := annualizedReturnOf performanceData barsPerYear_ in
   let rawSortino :=
     num_div (num_sub annualizedReturn riskFreeRate)
             (downsideDeviationOf performanceData barsPerYear_) in
   let rawCalmar := num_div annualizedReturn (maxDrawdownOf performanceData) in
   (sortino out = rawSortino \/ sortino out = Fin 0) /\
   (calmar out = rawCalmar \/ calmar out = Fin 0)).
Proof.
  intros Hsqrt0 out. subst out. unfold calculateAdvancedRatios.
  split; [| split].
  - intros Hnone.
    assert (Hempty : downsideReturnsOf performanceData = []).
    { apply filter_nil_Forall. eapply Forall_impl; [exact Hnone |].
      intros r Hr. simpl in Hr. rewrite Hr. discriminate. }
    rewrite (downsideDeviationOf_no_downside _ _ Hempty), Hsqrt0.
    split.
    + destruct (Math_sqrt barsPerYear_) as [s | | |]; try discriminate.
      intros _. simpl. lra.
    + rewrite num_mul_zero_not_positive. destruct (_ <? _)%nat; reflexivity.
  - intros Hdd. rewrite (num_eqv_zero_not_positive _ Hdd).
    destruct (_ <? _)%nat; reflexivity.
  - destruct (_ <? _)%nat; cbn [sortino calmar isFinite].
    + auto.
    + repeat split;
        repeat match goal with
               | |- context [if ?b then _ else _] => destruct b eqn:?
               end; auto.
Qed.
End RatiosProperties.

(** ** Daily P&L *)

(** A bar iteration keeps every key of [dailyPnl] and adds the date of its
    timeline bar, whether or not a trade fires. *)
Lemma simulateBar_dailyPnl_mono rnd form data strategy availableSymbols timelineBars st i
    (date : string) :
  is_Some (dailyPnl st !! date) ->
  is_Some (dailyPnl (simulateBar rnd form data strategy availableSymbols timelineBars st i)
           !! date).
Proof.
  intros Hdate. unfold simulateBar, addPnl.
  repeat case_match; cbn [dailyPnl]; auto;
    repeat (apply lookup_insert_is_Some'; right); exact Hdate.
Qed.

Lemma simulateBar_dailyPnl_date rnd form data strategy availableSymbols timelineBars st i
    (timelineBar : AlpacaBar) :
  timelineBars !! i = Some timelineBar ->
  is_Some (dailyPnl (simulateBar rnd form data strategy availableSymbols timelineBars st i)
           !! beforeT (bar_t timelineBar)).
Proof.
  intros Hbar. unfold simulateBar, addPnl. rewrite Hbar.
  repeat case_match; cbn [dailyPnl];
    repeat (apply lookup_insert_is_Some'; try (left; reflexivity); right).
Qed.


Lemma foldl_establish {A B : Type} (P : A -> Prop) (f : A -> B -> A) (l : list B)
    (a : A) (b : B) :
  b ∈ l -> (forall a', P (f a' b)) -> (forall a' b', P a' -> P (f a' b')) ->
  P (foldl f a l).
Proof.
  intros Hb Hset Hkeep. revert a.
  induction l as [| b' l IH]; intros a; [inversion Hb |]. simpl.
  apply elem_of_cons in Hb as [<- | Hb].
  - apply foldl_invariant; [apply Hset | auto].
  - apply IH. exact Hb.
Qed.

Lemma simulateStrategy_dailyPnl_mono rnd form data st strategy (date : string) :
  is_Some (dailyPnl st !! date) ->
  is_Some (dailyPnl (simulateStrategy rnd form data st strategy) !! date).
Proof.
  intros Hdate. unfold simulateStrategy.
  destruct (availableSymbolsOf data strategy) as [| first rest]; [exact Hdate |].
  apply (foldl_invariant (fun s => is_Some (dailyPnl s !! date))); [exact Hdate |].
  intros s i _. apply simulateBar_dailyPnl_mono.
Qed.

(** The strategy loop enters the date of every timeline bar from index 5
    onward into [dailyPnl]. *)
Lemma simulateStrategy_dailyPnl_timeline rnd form data st strategy first rest
    timelineBars i timelineBar :
  availableSymbolsOf data strategy = first :: rest ->
  data !! first = Some timelineBars ->
  (5 <= i)%nat -> timelineBars !! i = Some timelineBar ->
  is_Some (dailyPnl (simulateStrategy rnd form data st strategy)
           !! beforeT (bar_t timelineBar)).
Proof.
  intros Havail Hfirst Hi Hbar. unfold simulateStrategy. rewrite Havail, Hfirst.
  cbn [from_option id].
  apply (foldl_establish (fun s => is_Some (dailyPnl s !! beforeT (bar_t timelineBar)))
           _ _ _ i).
  - apply list_elem_of_In, in_seq. apply lookup_lt_Some in Hbar. lia.
  - intros s. apply simulateBar_dailyPnl_date. exact Hbar.
  - intros s j. apply simulateBar_dailyPnl_mono.
Qed.

Lemma simulate_dailyPnl_timeline rnd form data selectedStrategies strategy first rest
    timelineBars i timelineBar :
  strategy ∈ selectedStrategies ->
  availableSymbolsOf data strategy = first :: rest ->
  data !! first = Some timelineBars ->
  (5 <= i)%nat -> timelineBars !! i = Some timelineBar ->
  is_Some (dailyPnl (simulate rnd form data selectedStrategies)
           !! beforeT (bar_t timelineBar)).
Proof.
  intros Hsel Havail Hfirst Hi Hbar. unfold simulate.
  apply (foldl_establish (fun s => is_Some (dailyPnl s !! beforeT (bar_t timelineBar)))
           _ _ _ strategy Hsel).
  - intros s. eapply simulateStrategy_dailyPnl_timeline; eassumption.
  - intros s strategy'. apply simulateStrategy_dailyPnl_mono.
Qed.


(** Without an available symbol for any selected strategy the simulation
    does nothing. *)
Lemma simulate_no_available rnd form data selectedStrategies :
  Forall (fun strategy => availableSymbolsOf data strategy = []) selectedStrategies ->
  simulate rnd form data selectedStrategies = initialSimState.
Proof.
  intros Hnone. unfold simulate.
  apply (foldl_invariant (fun s => s = initialSimState)); [reflexivity |].
  intros s strategy Hin ->. rewrite Forall_forall in Hnone.
  unfold simulateStrategy. rewrite (Hnone strategy Hin). reflexivity.
Qed.

(** The available symbols of a strategy are among its resolved symbols and
    have more than five bars. *)
Lemma availableSymbolsOf_spec data strategy symbol :
  symbol ∈ availableSymbolsOf data strategy <->
  symbol ∈ strategySymbols strategy /\
  exists bars, data !! symbol = Some bars /\ (5 < length bars)%nat.
Proof.
  unfold availableSymbolsOf. rewrite list_elem_of_filter. unfold hasBars.
  split.
  - intros [Hbars Hin]. split; [exact Hin |].
    destruct (data !! symbol) as [bars |]; [| discriminate].
    exists bars. split; [reflexivity |]. apply Nat.ltb_lt. exact Hbars.
  - intros [Hin (bars & -> & Hlen)]. split; [| exact Hin].
    apply Nat.ltb_lt. exact Hlen.
Qed.

(** ** Performance curve *)

Lemma sortedDatesOf_elem (pnl : gmap string num) (date : string) :
  date ∈ sortedDatesOf pnl <-> is_Some (pnl !! date).
Proof.
  unfold sortedDatesOf. rewrite merge_sort_Permutation, list_elem_of_fmap. split.
  - intros ([d v] & -> & Hin). apply elem_of_map_to_list in Hin. eauto.
  - intros [v Hv]. exists (date, v). split; [reflexivity |].
    apply elem_of_map_to_list. exact Hv.
Qed.

Lemma sortedDatesOf_NoDup (pnl : gmap string num) : NoDup (sortedDatesOf pnl).
Proof.
  unfold sortedDatesOf. rewrite merge_sort_Permutation. apply NoDup_fst_map_to_list.
Qed.

Lemma sortedDatesOf_nil (pnl : gmap string num) : sortedDatesOf pnl = [] <-> pnl = ∅.
Proof.
  split.
  - intros Hnil. apply map_empty. intros date.
    destruct (pnl !! date) as [v |] eqn:E; [| reflexivity].
    assert (Hin : date ∈ sortedDatesOf pnl) by (apply sortedDatesOf_elem; eauto).
    rewrite Hnil in Hin. inversion Hin.
  - intros ->. unfold sortedDatesOf. rewrite map_to_list_empty. reflexivity.
Qed.

Section Curve.
Variables (initialCapital_ : num) (pnl dateToSpyPriceMap : gmap string num)
          (spyInitialPrice : option num).

Let step := curveStep initialCapital_ pnl dateToSpyPriceMap spyInitialPrice.

(** What one iteration pushes. *)
Lemma curveStep_push st date :
  exists p,
    performanceData (step st date) = performanceData st ++ [p] /\
    pd_date p = date /\
    pd_strategy p = portfolioValue (step st date) /\
    portfolioValue (step st date) =
      num_add (portfolioValue st) (default NaN (pnl !! date)) /\
    peakValue (step st date) =
      (if num_gt (pd_strategy p) (peakValue st) then pd_strategy p else peakValue st) /\
    pd_drawdown p =
      num_div (num_sub (peakValue (step st date)) (pd_strategy p))
              (peakValue (step st date)).
Proof. eexists. repeat split; reflexivity. Qed.

Lemma curve_dates st dates :
  pd_date <$> performanceData (foldl step st dates) =
  (pd_date <$> performanceData st) ++ dates.
Proof.
  revert st. induction dates as [| date dates IH]; intros st; simpl.
  - rewrite app_nil_r. reflexivity.
  - rewrite IH. destruct (curveStep_push st date) as (p & -> & <- & _).
    rewrite fmap_app, <- app_assoc. reflexivity.
Qed.

Lemma curve_prefix st dates :
  exists points, performanceData (foldl step st dates) = performanceData st ++ points.
Proof.
  revert st. induction dates as [| date dates IH]; intros st; simpl.
  - exists []. rewrite app_nil_r. reflexivity.
  - destruct (IH (step st date)) as (points & ->).
    destruct (curveStep_push st date) as (p & -> & _).
    exists (p :: points). rewrite <- app_assoc. reflexivity.
Qed.
End Curve.

Lemma buildCurve_dates initialCapital_ pnl spyData :
  pd_date <$> performanceData (buildCurve initialCapital_ pnl spyData) = sortedDatesOf pnl.
Proof. unfold buildCurve. rewrite curve_dates. reflexivity. Qed.

Lemma buildCurve_empty initialCapital_ pnl spyData :
  performanceData (buildCurve initialCapital_ pnl spyData) = [] <-> pnl = ∅.
Proof.
  rewrite <- sortedDatesOf_nil, <- (buildCurve_dates initialCapital_ pnl spyData). split.
  - intros ->. reflexivity.
  - apply fmap_nil_inv.
Qed.


Lemma Qdiv_pos_le (a b c : Q) : 0 < b -> (a / b <= c <-> a <= c * b).
Proof.
  intros Hb. split; intros Hle.
  - assert (E : a == a / b * b) by (field; lra). rewrite E.
    apply Qmult_le_compat_r; lra.
  - apply Qle_shift_div_r; assumption.
Qed.

Lemma Qdiv_pos_ge (a b c : Q) : 0 < b -> (c <= a / b <-> c * b <= a).
Proof.
  intros Hb. split; intros Hle.
  - assert (E : a == a / b * b) by (field; lra). rewrite E.
    apply Qmult_le_compat_r; lra.
  - apply Qle_shift_div_l; assumption.
Qed.

Lemma Qdiv_pos_eq0 (a b : Q) : 0 < b -> (a / b == 0 <-> a == 0).
Proof.
  intros Hb. split; intros E.
  - assert (E' : a == a / b * b) by (field; lra). rewrite E', E. lra.
  - rewrite E. field. lra.
Qed.

Lemma runningPeak_snoc initialCapital_ values value :
  runningPeak initialCapital_ (values ++ [value]) =
  (if num_gt value (runningPeak initialCapital_ values) then value
   else runningPeak initialCapital_ values).
Proof. unfold runningPeak. rewrite foldl_app. reflexivity. Qed.

Lemma curveShape_snoc initialCapital_ pnl points p :
  curveShape initialCapital_ pnl points ->
  pd_strategy p =
    num_add (from_option pd_strategy initialCapital_ (last points))
            (default NaN (pnl !! pd_date p)) ->
  pd_drawdown p =
    (let peak := runningPeak initialCapital_ (pd_strategy <$> (points ++ [p])) in
     num_div (num_sub peak (pd_strategy p)) peak) ->
  curveShape initialCapital_ pnl (points ++ [p]).
Proof.
  intros Hshape Hvalue Hdrawdown k q Hq.
  destruct (decide (k < length points)%nat) as [Hlt | Hge].
  - rewrite lookup_app_l in Hq by exact Hlt.
    destruct (Hshape k q Hq) as [Hv Hd]. split.
    + rewrite Hv. f_equal. destruct k as [| j]; [reflexivity |]. cbn [previousValue].
      rewrite lookup_app_l by lia. reflexivity.
    + rewrite Hd. unfold peakAt. rewrite take_app_le by lia. reflexivity.
  - rewrite lookup_app_r in Hq by lia.
    assert (Hk : k = length points).
    { apply lookup_lt_Some in Hq. simpl in Hq. lia. }
    subst k. rewrite Nat.sub_diag in Hq. injection Hq as <-. split.
    + rewrite Hvalue. f_equal. rewrite last_lookup.
      destruct points as [| p0 points']; [reflexivity |]. cbn [previousValue length pred].
      rewrite lookup_app_l by (simpl; lia).
      destruct ((p0 :: points') !! length points') as [q |] eqn:E; [reflexivity |].
      apply lookup_ge_None in E. simpl in E. lia.
    + rewrite Hdrawdown. unfold peakAt. rewrite take_ge by (rewrite length_app; simpl; lia).
      reflexivity.
Qed.

Lemma buildCurve_shape initialCapital_ pnl spyData :
  curveShape initialCapital_ pnl (performanceData (buildCurve initialCapital_ pnl spyData)).
Proof.
  unfold buildCurve.
  set (step := curveStep initialCapital_ pnl (dateToSpyPriceMapOf spyData)
                         (spyInitialPriceOf spyData)).
  apply (foldl_invariant
           (fun st => curveShape initialCapital_ pnl (performanceData st) /\
                      peakValue st =
                        runningPeak initialCapital_ (pd_strategy <$> performanceData st) /\
                      portfolioValue st =
                        from_option pd_strategy initialCapital_ (last (performanceData st)))
           step (sortedDatesOf pnl) (initialCurveState initialCapital_)).
  - split; [| split; reflexivity]. intros k p Hp. inversion Hp.
  - intros st date _ (Hshape & Hpeak & Hvalue).
    destruct (curveStep_push initialCapital_ pnl (dateToSpyPriceMapOf spyData)
                (spyInitialPriceOf spyData) st date)
      as (p & Hpush & Hdate & Hstrategy & Hportfolio & Hpeak' & Hdrawdown).
    fold step in Hpush, Hstrategy, Hportfolio, Hpeak', Hdrawdown.
    assert (Hrun : runningPeak initialCapital_ (pd_strategy <$> (performanceData st ++ [p]))
                   = peakValue (step st date)).
    { rewrite fmap_app. change (pd_strategy <$> [p]) with [pd_strategy p].
      rewrite runningPeak_snoc, <- Hpeak, Hpeak'. reflexivity. }
    rewrite Hpush. split; [| split].
    + apply curveShape_snoc; [exact Hshape | |].
      * rewrite Hstrategy, Hportfolio, Hvalue, Hdate. reflexivity.
      * cbn zeta. rewrite Hrun. exact Hdrawdown.
    + rewrite Hrun. reflexivity.
    + rewrite last_snoc. symmetry. exact Hstrategy.
Qed.

(** *** Curves over finite values *)

Lemma isFinite_Fin (x : num) : isFinite x = true <-> exists q, x = Fin q.
Proof.
  destruct x; simpl; split; intros E; eauto; try discriminate; destruct E; discriminate.
Qed.

Lemma runningPeak_finite (c0 : Q) (values : list num) :
  Forall (fun v => isFinite v = true) values ->
  exists peak,
    runningPeak (Fin c0) values = Fin peak /\ c0 <= peak /\
    Forall (fun v => exists q, v = Fin q /\ q <= peak) values.
Proof.
  induction values as [| value values IH] using rev_ind; intros Hfin.
  - exists c0. repeat split; [lra | constructor].
  - apply Forall_app in Hfin as [Hvalues Hvalue].
    apply Forall_singleton, isFinite_Fin in Hvalue as [q ->].
    destruct (IH Hvalues) as (peak & Hpeak & Hc & Hle).
    rewrite runningPeak_snoc, Hpeak. unfold num_gt.
    destruct (num_lt (Fin peak) (Fin q)) eqn:E.
    + apply num_lt_Fin in E. exists q. repeat split; [lra |].
      apply Forall_app. split.
      * eapply Forall_impl; [exact Hle |]. intros v (q' & -> & Hq'). exists q'. split; [auto | lra].
      * apply Forall_singleton. exists q. split; [reflexivity | lra].
    + apply num_lt_Fin_false in E. exists peak. repeat split; [exact Hc |].
      apply Forall_app. split; [exact Hle |].
      apply Forall_singleton. exists q. auto.
Qed.

Lemma buildCurve_pnl_lookup initialCapital_ pnl spyData p :
  p ∈ performanceData (buildCurve initialCapital_ pnl spyData) ->
  is_Some (pnl !! pd_date p).
Proof.
  intros Hp. apply sortedDatesOf_elem.
  rewrite <- (buildCurve_dates initialCapital_ pnl spyData).
  apply list_elem_of_fmap. eauto.
Qed.

(** ** Finite P&L from well-formed inputs *)

Lemma executeTrade_pnl_finite form holdingTime_ strategy i symbol currentBar (rr : Q) :
  wellFormedForm form -> wellFormedStrategy strategy -> wellFormedBar currentBar ->
  isFinite (tr_pnl (executeTrade form holdingTime_ strategy i symbol currentBar (Fin rr)))
  = true.
Proof.
  intros (Hcapital & Hfc & Hslip & Hfs & Hfk) Hstop (Hopen & Hfo & Hfh & Hfl & Hfcl).
  unfold wellFormedStrategy in Hstop.
  apply isFinite_Fin in Hfc as [capital Ecapital], Hfs as [slip Eslip],
    Hfk as [fee Efee], Hstop as [stop Estop], Hfo as [o Eo], Hfh as [h Eh],
    Hfl as [l El], Hfcl as [c Ec].
  rewrite Eslip in Hslip. rewrite Eo in Hopen.
  apply num_le_Fin in Hslip. apply num_lt_Fin in Hopen.
  unfold executeTrade, resolveExit. cbn [tr_pnl].
  rewrite Ecapital, Eslip, Efee, Estop, Eo, Eh, El, Ec.
  rewrite !(num_div_Fin _ 100) by lra. cbn [num_add num_mul num_sub].
  assert (Hrate : 0 <= slip / 100) by (apply Qle_shift_div_l; lra).
  assert (Hentry : 0 < o * (1 + slip / 100)).
  { apply Qmult_lt_0_compat; lra. }
  repeat case_match; cbn [fst snd num_mul num_sub];
    rewrite num_div_Fin by lra; reflexivity.
Qed.

Lemma addPnl_finite (date : string) (netPnl : num) (pnl : gmap string num) :
  finitePnl pnl -> is_Some (pnl !! date) -> isFinite netPnl = true ->
  finitePnl (addPnl date netPnl pnl).
Proof.
  intros Hpnl [v0 Hv0] Hnet date' v. unfold addPnl. rewrite lookup_insert.
  case_decide as Heq; [| apply Hpnl].
  intros [= <-]. rewrite Hv0. cbn [from_option id].
  apply Hpnl, isFinite_Fin in Hv0 as [b ->]. apply isFinite_Fin in Hnet as [x ->].
  reflexivity.
Qed.

Lemma simulateBar_finitePnl rnd form data strategy availableSymbols timelineBars st i :
  wellFormedForm form -> wellFormedStrategy strategy -> wellFormedData data ->
  finitePnl (dailyPnl st) ->
  finitePnl (dailyPnl (simulateBar rnd form data strategy availableSymbols timelineBars
                                   st i)).
Proof.
  intros Hform Hstrategy Hdata Hst. unfold simulateBar.
  destruct (potentialRR_range rnd (S (S (rng st)))) as (rr & Hrr & _).
  assert (Hinit : forall date0,
            finitePnl (<[date0 := num_or (default NaN (dailyPnl st !! date0)) (Fin 0)]>
                         (dailyPnl st))).
  { intros date0 date v. rewrite lookup_insert. case_decide as Heq; [| apply Hst].
    intros [= <-]. destruct (dailyPnl st !! date0) as [v0 |] eqn:E; [| reflexivity].
    apply Hst in E. cbn [from_option id]. unfold num_or.
    destruct (truthy v0); [exact E | reflexivity]. }
  destruct (timelineBars !! i) as [timelineBar |]; [| exact Hst].
  destruct (num_lt _ _); [| cbn [dailyPnl]; apply Hinit].
  destruct (array_get _ _) as [symbol |]; [| cbn [dailyPnl]; apply Hinit].
  destruct (data !! symbol) as [symbolBars |] eqn:Hsymbol; [| cbn [dailyPnl]; apply Hinit].
  destruct (symbolBars !! i) as [currentBar |] eqn:Hbar; [| cbn [dailyPnl]; apply Hinit].
  destruct (useWeeklyBias form && negb _); [cbn [dailyPnl]; apply Hinit |].
  rewrite Hrr. apply addPnl_finite; [apply Hinit | |].
  - rewrite lookup_insert_eq. eauto.
  - apply executeTrade_pnl_finite; [exact Hform | exact Hstrategy |].
    specialize (Hdata symbol symbolBars Hsymbol). rewrite Forall_lookup in Hdata.
    exact (Hdata i currentBar Hbar).
Qed.

(** ** Runs *)


Lemma availableSymbolsOf_first data strategy first rest :
  availableSymbolsOf data strategy = first :: rest ->
  exists timelineBars, data !! first = Some timelineBars /\ (5 < length timelineBars)%nat.
Proof.
  intros E. assert (Hin : first ∈ availableSymbolsOf data strategy).
  { rewrite E. left. }
  apply availableSymbolsOf_spec in Hin as [_ Hbars]. exact Hbars.
Qed.

(** The simulation leaves [dailyPnl] empty exactly when no selected
    strategy has an available symbol. *)
Lemma simulate_dailyPnl_empty rnd form data selectedStrategies :
  dailyPnl (simulate rnd form data selectedStrategies) = ∅ <->
  Forall (fun strategy => availableSymbolsOf data strategy = []) selectedStrategies.
Proof.
  split.
  - intros Hempty. apply Forall_forall. intros strategy Hin.
    destruct (availableSymbolsOf data strategy) as [| first rest] eqn:Havail;
      [reflexivity | exfalso].
    destruct (availableSymbolsOf_first _ _ _ _ Havail) as (timelineBars & Hfirst & Hlen).
    destruct (lookup_lt_is_Some_2 timelineBars 5 Hlen) as [bar Hbar].
    destruct (simulate_dailyPnl_timeline rnd form data selectedStrategies strategy first
                rest timelineBars 5 bar Hin Havail Hfirst (le_n 5) Hbar) as [v Hv].
    rewrite Hempty, lookup_empty in Hv. discriminate.
  - intros Hnone. rewrite simulate_no_available by exact Hnone. reflexivity.
Qed.

Lemma length_zero_nil {A : Type} (l : list A) : (length l =? 0)%nat = true <-> l = [].
Proof. rewrite Nat.eqb_eq. split; [apply nil_length_inv | intros ->; reflexivity]. Qed.

Section RunProperties.
Context `{JsMath}.

(** What a run does once a strategy is selected and the fetch succeeded. *)
Lemma handleRunBacktest_fetched rnd savedStrategies form dataResult feedback data :
  selectedStrategyIds form <> [] ->
  fetchedData dataResult = Some data ->
  let sim := simulate rnd form data (selectedStrategiesOf savedStrategies form) in
  let curve := buildCurve (initialCapital form) (dailyPnl sim) (data !! "SPY") in
  handleRunBacktest rnd savedStrategies form dataResult feedback =
  (if decide (dailyPnl sim = ∅) then SetError NoPerformanceData
   else SetResults (assembleResults form feedback sim curve)).
Proof.
  intros Hids Hdata sim curve. unfold handleRunBacktest.
  destruct (length (selectedStrategyIds form) =? 0)%nat eqn:E.
  { apply length_zero_nil in E. contradiction. }
  rewrite Hdata. fold sim. fold curve.
  destruct (length (performanceData curve) =? 0)%nat eqn:Hcurve.
  - apply length_zero_nil, buildCurve_empty in Hcurve.
    rewrite decide_True by exact Hcurve. reflexivity.
  - rewrite decide_False; [reflexivity |]. intros Hempty.
    apply (buildCurve_empty (initialCapital form) _ (data !! "SPY")) in Hempty.
    apply length_zero_nil in Hempty. fold curve in Hempty. congruence.
Qed.

Lemma handleRunBacktest_results rnd savedStrategies form dataResult feedback results :
  handleRunBacktest rnd savedStrategies form dataResult feedback = SetResults results ->
  exists data,
    fetchedData dataResult = Some data /\
    let sim := simulate rnd form data (selectedStrategiesOf savedStrategies form) in
    dailyPnl sim <> ∅ /\
    results = assembleResults form feedback sim
                (buildCurve (initialCapital form) (dailyPnl sim) (data !! "SPY")).
Proof.
  intros Hrun.
  destruct (decide (selectedStrategyIds form = [])) as [Hids | Hids].
  { unfold handleRunBacktest in Hrun. rewrite Hids in Hrun. discriminate. }
  destruct (fetchedData dataResult) as [data |] eqn:Hdata.
  - exists data. split; [reflexivity |].
    rewrite (handleRunBacktest_fetched _ _ _ _ _ _ Hids Hdata) in Hrun.
    cbn zeta. case_decide; [discriminate |]. split; [assumption | congruence].
  - unfold handleRunBacktest in Hrun. rewrite Hdata in Hrun.
    destruct (_ =? _)%nat; discriminate.
Qed.
(** Every trade of the results of a run was opened by a selected strategy
    on a bar of the fetched data. *)
Lemma handleRunBacktest_trades rnd savedStrategies form dataResult feedback results :
  handleRunBacktest rnd savedStrategies form dataResult feedback = SetResults results ->
  exists data,
    fetchedData dataResult = Some data /\
    Forall (tradeOrigin form data (selectedStrategiesOf savedStrategies form))
           (res_allTrades results).
Proof.
  intros Hrun.
  destruct (handleRunBacktest_results _ _ _ _ _ _ Hrun) as (data & Hdata & _ & ->).
  exists data. split; [exact Hdata |]. apply simulate_allTrades.
Qed.
End RunProperties.

Lemma wellFormedForm_capital form :
  wellFormedForm form -> exists c0, initialCapital form = Fin c0 /\ 0 < c0.
Proof.
  intros (Hpos & Hfin & _). apply isFinite_Fin in Hfin as [c0 E].
  rewrite E in Hpos. apply num_lt_Fin in Hpos. eauto.
Qed.

(** *** Order and sign of the drawdown

    The facts below hold for every P&L map, its entries finite or not, and
    use of the arithmetic only the order it keeps: what they state does not
    depend on how the sums and quotients are rounded. *)

Lemma num_lt_irrefl (x : num) : num_lt x x = false.
Proof.
  destruct x as [a | | |]; try reflexivity. apply num_lt_Fin_false. lra.
Qed.

Lemma num_lt_trans (x y z : num) :
  num_lt x y = true -> num_lt y z = true -> num_lt x z = true.
Proof.
  destruct x as [a | | |], y as [b | | |], z as [c | | |];
    try discriminate; try reflexivity.
  rewrite !num_lt_Fin. lra.
Qed.

Lemma num_le_lt_trans (x y z : num) :
  num_le x y = true -> num_lt y z = true -> num_le x z = true.
Proof.
  destruct x as [a | | |], y as [b | | |], z as [c | | |];
    try discriminate; try reflexivity.
  rewrite !num_le_Fin, num_lt_Fin. lra.
Qed.

Lemma num_add_finite (x y : num) :
  isFinite (num_add x y) = true -> isFinite x = true /\ isFinite y = true.
Proof.
  destruct x, y; try discriminate. auto.
Qed.

(** The running peak is at least the initial capital and no value so far
    exceeds it. *)
Lemma runningPeak_bounds (c0 : Q) (values : list num) :
  num_le (Fin c0) (runningPeak (Fin c0) values) = true /\
  Forall (fun v => num_gt v (runningPeak (Fin c0) values) = false) values.
Proof.
  induction values as [| value values [IHc IHv]] using rev_ind.
  - split; [apply num_le_Fin; lra | constructor].
  - rewrite runningPeak_snoc.
    destruct (num_gt value (runningPeak (Fin c0) values)) eqn:E.
    + split; [apply (num_le_lt_trans _ _ _ IHc E) |].
      apply Forall_app. split; [| apply Forall_singleton, num_lt_irrefl].
      eapply Forall_impl; [exact IHv |]. intros v Hv. cbn beta in *.
      unfold num_gt in *. destruct (num_lt value v) eqn:Hlt; [| reflexivity].
      rewrite (num_lt_trans _ _ _ E Hlt) in Hv. discriminate.
    + split; [exact IHc |]. apply Forall_app. split; [exact IHv |].
      apply Forall_singleton. exact E.
Qed.

Lemma peakAt_bounds (c0 : Q) (points : list PerformanceDataPoint) (k : nat) :
  num_le (Fin c0) (peakAt (Fin c0) points k) = true /\
  (forall j q, (j <= k)%nat -> points !! j = Some q ->
               num_gt (pd_strategy q) (peakAt (Fin c0) points k) = false).
Proof.
  unfold peakAt.
  destruct (runningPeak_bounds c0 (pd_strategy <$> take (S k) points)) as [Hc Hv].
  split; [exact Hc |]. intros j q Hj Hq.
  rewrite Forall_forall in Hv. apply Hv. apply list_elem_of_fmap. exists q.
  split; [reflexivity |]. apply list_elem_of_lookup. exists j.
  apply lookup_take_Some. split; [exact Hq | lia].
Qed.

(** A finite portfolio value has only finite values before it: a value
    that is not finite stays so. *)
Lemma curveShape_finite_prefix initialCapital_ pnl points (k : nat) p :
  curveShape initialCapital_ pnl points ->
  points !! k = Some p -> isFinite (pd_strategy p) = true ->
  forall j q, (j <= k)%nat -> points !! j = Some q -> isFinite (pd_strategy q) = true.
Proof.
  intros Hshape. revert p. induction k as [| k IH]; intros p Hp Hfin j q Hj Hq.
  - assert (j = 0%nat) as -> by lia. rewrite Hp in Hq. injection Hq as <-. exact Hfin.
  - destruct (decide (j = S k)) as [-> | Hne].
    { rewrite Hp in Hq. injection Hq as <-. exact Hfin. }
    destruct (Hshape (S k) p Hp) as [Hv _]. rewrite Hv in Hfin.
    apply num_add_finite in Hfin as [Hprev _]. cbn [previousValue] in Hprev.
    destruct (points !! k) as [pk |] eqn:Hk; [| discriminate].
    cbn [from_option] in Hprev. apply (IH pk eq_refl Hprev j q); [lia | exact Hq].
Qed.

Lemma peakAt_finite (c0 : Q) pnl points (k : nat) p :
  curveShape (Fin c0) pnl points ->
  points !! k = Some p -> isFinite (pd_strategy p) = true ->
  exists peak value,
    peakAt (Fin c0) points k = Fin peak /\ pd_strategy p = Fin value /\
    c0 <= peak /\ value <= peak.
Proof.
  intros Hshape Hp Hfin.
  pose proof (curveShape_finite_prefix _ _ _ _ _ Hshape Hp Hfin) as Hprefix.
  assert (Hall : Forall (fun v => isFinite v = true) (pd_strategy <$> take (S k) points)).
  { apply Forall_fmap, Forall_lookup. intros j q Hq.
    apply lookup_take_Some in Hq as [Hq Hj]. apply (Hprefix j q); [lia | exact Hq]. }
  destruct (runningPeak_finite c0 _ Hall) as (peak & Hpeak & Hc & Hle).
  apply isFinite_Fin in Hfin as [value Hvalue].
  exists peak, value. split; [exact Hpeak |]. split; [exact Hvalue |].
  split; [exact Hc |].
  rewrite Forall_forall in Hle.
  destruct (Hle (pd_strategy p)) as (w & Hw & Hwle).
  { apply list_elem_of_fmap. exists p. split; [reflexivity |].
    apply list_elem_of_lookup. exists k. apply lookup_take_Some. split; [exact Hp | lia]. }
  rewrite Hvalue in Hw. injection Hw as <-. exact Hwle.
Qed.

(** The sign of the quotient [(peak - value) / peak] against a peak that is
    at least a positive capital and is not exceeded by the value. *)
Lemma drawdown_sign (c0 : Q) (peak value : num) :
  0 < c0 -> num_le (Fin c0) peak = true -> num_gt value peak = false ->
  let d := num_div (num_sub peak value) peak in
  num_gt peak (Fin 0) = true /\
  num_lt d (Fin 0) = false /\
  (num_gt d (Fin 1) = true -> num_lt value (Fin 0) = true) /\
  (num_eqv d (Fin 0) -> num_eqv value peak).
Proof.
  intros Hc Hpeak Hvalue. cbn zeta.
  destruct peak as [pk | | |]; try discriminate.
  - apply num_le_Fin in Hpeak.
    assert (Hpos : 0 < pk) by lra.
    split; [apply num_lt_Fin; exact Hpos |].
    destruct value as [v | | |]; try discriminate.
    + apply num_lt_Fin_false in Hvalue. cbn [num_sub]. rewrite num_div_Fin by lra.
      split; [apply num_lt_Fin_false, Qdiv_pos_ge; lra |]. split.
      * intros Hd. apply num_lt_Fin in Hd. apply num_lt_Fin.
        destruct (Qlt_le_dec v 0) as [Hneg | Hnonneg]; [exact Hneg |].
        assert ((pk - v) / pk <= 1) by (apply Qdiv_pos_le; lra). lra.
      * cbn [num_eqv]. intros Hd. apply Qdiv_pos_eq0 in Hd; lra.
    + cbn [num_sub num_div].
      destruct (pk ?= 0) eqn:E; try (split; [reflexivity |];
        split; [intros _; reflexivity | intros Habs; destruct Habs]).
      apply Qlt_alt in E. lra.
    + cbn [num_sub num_div]. split; [reflexivity |]. split; [discriminate |].
      intros Habs. destruct Habs.
  - split; [reflexivity |].
    destruct value as [v | | |]; cbn [num_sub num_div];
      (split; [reflexivity |]); (split; [discriminate | intros Habs; destruct Habs]).
Qed.

(** With a finite value, the quotient is a number between [0] and the
    bound its sign allows. *)
Lemma drawdown_finite_value (c0 peak value : Q) :
  0 < c0 -> c0 <= peak -> value <= peak ->
  let d := num_div (num_sub (Fin peak) (Fin value)) (Fin peak) in
  num_ge d (Fin 0) = true /\
  (0 <= value -> num_le d (Fin 1) = true) /\
  (value == peak -> num_eqv d (Fin 0)).
Proof.
  intros Hc Hpeak Hvalue. cbn zeta. cbn [num_sub]. rewrite num_div_Fin by lra.
  split; [apply num_le_Fin, Qdiv_pos_ge; lra |]. split.
  - intros Hv. apply num_le_Fin, Qdiv_pos_le; lra.
  - intros Hv. cbn [num_eqv]. apply Qdiv_pos_eq0; lra.
Qed.

(** The first point of a curve: its value is the capital plus the first
    date's P&L, and the sign of that P&L decides its drawdown. *)
Lemma buildCurve_first_sign (c0 : Q) pnl spyData p :
  0 < c0 ->
  performanceData (buildCurve (Fin c0) pnl spyData) !! 0%nat = Some p ->
  exists x,
    pnl !! pd_date p = Some x /\ pd_strategy p = num_add (Fin c0) x /\
    (isFinite (pd_strategy p) = true -> num_ge x (Fin 0) = true ->
     num_eqv (pd_drawdown p) (Fin 0)) /\
    (num_gt (pd_drawdown p) (Fin 0) = true -> num_lt x (Fin 0) = true).
Proof.
  intros Hc Hp.
  destruct (buildCurve_pnl_lookup (Fin c0) pnl spyData p) as [x Hx].
  { apply list_elem_of_lookup. eauto. }
  destruct (buildCurve_shape (Fin c0) pnl spyData 0%nat p Hp) as [Hv Hd].
  cbn [previousValue] in Hv. rewrite Hx in Hv. cbn [from_option id] in Hv.
  exists x. split; [exact Hx |]. split; [exact Hv |].
  unfold peakAt in Hd. rewrite (take_S_r _ _ _ Hp), take_0 in Hd.
  change (pd_strategy <$> [] ++ [p]) with ([] ++ [pd_strategy p]) in Hd.
  rewrite runningPeak_snoc in Hd. cbn [runningPeak foldl] in Hd.
  rewrite Hd, Hv. clear Hd Hv Hx Hp.
  destruct x as [b | | |]; cbn [num_add isFinite]; try (split; discriminate).
  - destruct (num_gt (Fin (c0 + b)) (Fin c0)) eqn:E; unfold num_gt in E.
    + apply num_lt_Fin in E. cbn [num_sub]. rewrite num_div_Fin by lra. split.
      * intros _ _. cbn [num_eqv]. apply Qdiv_pos_eq0; lra.
      * intros Hd. apply num_lt_Fin in Hd.
        assert ((c0 + b - (c0 + b)) / (c0 + b) == 0) by (apply Qdiv_pos_eq0; lra). lra.
    + apply num_lt_Fin_false in E. cbn [num_sub]. rewrite num_div_Fin by lra. split.
      * intros _ Hb. apply num_le_Fin in Hb. cbn [num_eqv]. apply Qdiv_pos_eq0; lra.
      * intros Hd. apply num_lt_Fin in Hd. apply num_lt_Fin.
        destruct (Qlt_le_dec b 0) as [Hneg | Hnonneg]; [exact Hneg |].
        assert ((c0 - (c0 + b)) / c0 == 0) by (apply Qdiv_pos_eq0; lra). lra.
  - split; [discriminate |]. intros _. reflexivity.
Qed.

Section RunClaims.
Context `{JsMath}.

(** C3, amended.  In a run with a positive initial capital, the drawdown of
    a point is never negative, and it is a number [>= 0] when the portfolio
    value of the point is finite; it is [<= 1] when that value is finite
    and not negative, so that a drawdown above [1] comes with a negative
    portfolio value only.  The first point has drawdown [0] when the
    aggregated P&L of the first date is not negative, so that a positive
    first drawdown comes with a negative first P&L only.  The statement
    holds whatever the P&L entries, finite or not, and rests on the order
    of the values alone. *)
Theorem drawdown_bounds rnd savedStrategies form dataResult feedback results data
    (c0 : Q) :
  handleRunBacktest rnd savedStrategies form dataResult feedback = SetResults results ->
  fetchedData dataResult = Some data ->
  initialCapital form = Fin c0 -> 0 < c0 ->
  let pnl := dailyPnl (simulate rnd form data (selectedStrategiesOf savedStrategies form)) in
  (forall p, p ∈ res_performanceData results ->
     num_lt (pd_drawdown p) (Fin 0) = false /\
     (num_gt (pd_drawdown p) (Fin 1) = true -> num_lt (pd_strategy p) (Fin 0) = true) /\
     (isFinite (pd_strategy p) = true ->
      num_ge (pd_drawdown p) (Fin 0) = true /\
      (num_ge (pd_strategy p) (Fin 0) = true -> num_le (pd_drawdown p) (Fin 1) = true))) /\
  (forall p, res_performanceData results !! 0%nat = Some p ->
     exists x,
       pnl !! pd_date p = Some x /\ pd_strategy p = num_add (Fin c0) x /\
       (isFinite (pd_strategy p) = true -> num_ge x (Fin 0) = true ->
        num_eqv (pd_drawdown p) (Fin 0)) /\
       (num_gt (pd_drawdown p) (Fin 0) = true -> num_lt x (Fin 0) = true)).
Proof.
  intros Hrun Hdata Hc0 Hpos pnl.
  destruct (handleRunBacktest_results _ _ _ _ _ _ Hrun) as (data' & Hdata' & _ & ->).
  rewrite Hdata in Hdata'. injection Hdata' as <-.
  fold pnl. cbn [assembleResults res_performanceData]. rewrite Hc0.
  set (points := performanceData (buildCurve (Fin c0) pnl (data !! "SPY"))).
  pose proof (buildCurve_shape (Fin c0) pnl (data !! "SPY")) as Hshape. fold points in Hshape.
  split.
  - intros p Hp. apply list_elem_of_lookup in Hp as [k Hk].
    destruct (Hshape k p Hk) as [_ Hd].
    destruct (peakAt_bounds c0 points k) as [Hcpeak Hle].
    destruct (drawdown_sign c0 _ (pd_strategy p) Hpos Hcpeak (Hle k p (le_n k) Hk))
      as (_ & Hsign & Habove & _).
    rewrite <- Hd in Hsign, Habove.
    split; [exact Hsign |]. split; [exact Habove |]. intros Hfin.
    destruct (peakAt_finite c0 pnl points k p Hshape Hk Hfin)
      as (peak & value & Hpeak & Hvalue & Hcp & Hvp).
    destruct (drawdown_finite_value c0 peak value Hpos Hcp Hvp) as (Hnonneg & Hone & _).
    rewrite Hd, Hpeak, Hvalue. split; [exact Hnonneg |].
    intros Hv. apply Hone. apply num_le_Fin in Hv. exact Hv.
  - intros p Hp. apply (buildCurve_first_sign c0 pnl _ p Hpos Hp).
Qed.

(** C4, amended.  The drawdown of every point of a run is the quotient
    [(peak - portfolioValue) / peak], where [peak] is the running maximum
    of the initial capital and the portfolio values so far, which the
    portfolio value of the point does not exceed; the division is not
    guarded.  With a positive initial capital the peak is at least the
    initial capital, hence positive, so the quotient never divides by
    zero. *)
Theorem drawdown_quotient rnd savedStrategies form dataResult feedback results k p :
  handleRunBacktest rnd savedStrategies form dataResult feedback = SetResults results ->
  res_performanceData results !! k = Some p ->
  let peak := peakAt (initialCapital form) (res_performanceData results) k in
  pd_drawdown p = num_div (num_sub peak (pd_strategy p)) peak /\
  (forall c0 : Q,
     initialCapital form = Fin c0 -> 0 < c0 ->
     num_ge peak (initialCapital form) = true /\
     num_gt peak (Fin 0) = true /\
     num_gt (pd_strategy p) peak = false).
Proof.
  intros Hrun Hp.
  destruct (handleRunBacktest_results _ _ _ _ _ _ Hrun) as (data' & Hdata' & _ & ->).
  cbn [assembleResults res_performanceData] in *. split.
  - apply (buildCurve_shape _ _ _ k p Hp).
  - intros c0 Hc0 Hpos. rewrite Hc0 in Hp |- *.
    match goal with
    | |- context [peakAt _ ?points k] =>
        destruct (peakAt_bounds c0 points k) as [Hcpeak Hle]
    end.
    specialize (Hle k p (le_n k) Hp).
    destruct (drawdown_sign c0 _ (pd_strategy p) Hpos Hcpeak Hle) as (Hpeak & _).
    split; [exact Hcpeak |]. split; [exact Hpeak | exact Hle].
Qed.
End RunClaims.


Lemma strategySymbols_nil_available data strategy :
  strategySymbols strategy = [] -> availableSymbolsOf data strategy = [].
Proof. unfold availableSymbolsOf. intros ->. reflexivity. Qed.

Section OutcomeClaims.
Context `{JsMath}.


(** The performance-data error is reported exactly when a strategy is
    selected, the fetch succeeded and no selected strategy has an
    available symbol. *)
Lemma handleRunBacktest_no_performance_data rnd savedStrategies form dataResult
    feedback :
  handleRunBacktest rnd savedStrategies form dataResult feedback
    = SetError NoPerformanceData <->
  selectedStrategyIds form <> [] /\
  exists data,
    fetchedData dataResult = Some data /\
    Forall (fun strategy => availableSymbolsOf data strategy = [])
           (selectedStrategiesOf savedStrategies form).
Proof.
  split.
  - intros Hrun.
    destruct (decide (selectedStrategyIds form = [])) as [Hids | Hids].
    { unfold handleRunBacktest in Hrun. rewrite Hids in Hrun. discriminate. }
    split; [exact Hids |].
    destruct (fetchedData dataResult) as [data |] eqn:Hdata.
    + exists data. split; [reflexivity |].
      rewrite (handleRunBacktest_fetched _ _ _ _ _ _ Hids Hdata) in Hrun.
      case_decide as Hempty; [| discriminate].
      apply simulate_dailyPnl_empty in Hempty. exact Hempty.
    + unfold handleRunBacktest in Hrun. rewrite Hdata in Hrun.
      destruct (_ =? _)%nat; discriminate.
  - intros (Hids & data & Hdata & Hnone).
    rewrite (handleRunBacktest_fetched _ _ _ _ _ _ Hids Hdata).
    rewrite decide_True; [reflexivity |].
    apply simulate_dailyPnl_empty. exact Hnone.
Qed.

(** C2, amended.  A run reports the performance-data error exactly when a
    strategy is selected, the fetch succeeded and no selected strategy has
    an available symbol; in that case no trade was simulated and the
    daily P&L (hence the performance curve) is empty.  The error differs
    from the fetch error, and so do their messages. *)
Theorem no_performance_data_error rnd savedStrategies form dataResult feedback :
  (handleRunBacktest rnd savedStrategies form dataResult feedback
     = SetError NoPerformanceData <->
   selectedStrategyIds form <> [] /\
   exists data,
     fetchedData dataResult = Some data /\
     Forall (fun strategy => availableSymbolsOf data strategy = [])
            (selectedStrategiesOf savedStrategies form)) /\
  (forall data,
     fetchedData dataResult = Some data ->
     Forall (fun strategy => availableSymbolsOf data strategy = [])
            (selectedStrategiesOf savedStrategies form) ->
     simulate rnd form data (selectedStrategiesOf savedStrategies form)
       = initialSimState) /\
  SetError NoPerformanceData <> SetError FetchFailed /\
  errorMessage NoPerformanceData <> errorMessage FetchFailed.
Proof.
  split; [| split; [| split; [discriminate | discriminate]]].
  - apply handleRunBacktest_no_performance_data.
  - intros data _ Hnone. apply simulate_no_available. exact Hnone.
Qed.

(** C8, amended.  When a strategy is selected and no selected strategy
    resolves to any symbol, the run never assembles results: it reports
    the fetch error when the fetch failed or returned nothing, and the
    performance-data error otherwise, after a simulation that did
    nothing.  The only outcome decided before the fetch is the alert for
    an empty selection. *)
Theorem no_resolvable_symbols rnd savedStrategies form dataResult feedback :
  (selectedStrategyIds form <> [] ->
   Forall (fun strategy => strategySymbols strategy = [])
          (selectedStrategiesOf savedStrategies form) ->
   handleRunBacktest rnd savedStrategies form dataResult feedback =
     match fetchedData dataResult with
     | None => SetError FetchFailed
     | Some data => SetError NoPerformanceData
     end /\
   (forall data, simulate rnd form data (selectedStrategiesOf savedStrategies form)
                 = initialSimState) /\
   (forall results,
      handleRunBacktest rnd savedStrategies form dataResult feedback
        <> SetResults results)) /\
  ((exists message,
      handleRunBacktest rnd savedStrategies form dataResult feedback = Alerted message)
   <-> selectedStrategyIds form = []).
Proof.
  split.
  - intros Hids Hnone.
    assert (Havail : forall data,
              Forall (fun strategy => availableSymbolsOf data strategy = [])
                     (selectedStrategiesOf savedStrategies form)).
    { intros data. eapply Forall_impl; [exact Hnone |].
      intros strategy. apply strategySymbols_nil_available. }
    assert (Hrun : handleRunBacktest rnd savedStrategies form dataResult feedback =
                   match fetchedData dataResult with
                   | None => SetError FetchFailed
                   | Some data => SetError NoPerformanceData
                   end).
    { destruct (fetchedData dataResult) as [data |] eqn:Hdata.
      - apply handleRunBacktest_no_performance_data. split; [exact Hids |]. eauto.
      - unfold handleRunBacktest. rewrite Hdata.
        destruct (_ =? _)%nat eqn:E; [| reflexivity].
        apply length_zero_nil in E. contradiction. }
    split; [exact Hrun |]. split.
    + intros data. apply simulate_no_available. apply Havail.
    + intros results. rewrite Hrun. destruct (fetchedData dataResult); discriminate.
  - split.
    + intros [message Hrun].
      destruct (decide (selectedStrategyIds form = [])) as [Hids | Hids];
        [exact Hids | exfalso].
      destruct (fetchedData dataResult) as [data |] eqn:Hdata.
      * rewrite (handleRunBacktest_fetched _ _ _ _ _ _ Hids Hdata) in Hrun.
        case_decide; discriminate.
      * unfold handleRunBacktest in Hrun. rewrite Hdata in Hrun.
        destruct (length (selectedStrategyIds form) =? 0)%nat eqn:E; [| discriminate].
        apply length_zero_nil in E. contradiction.
    + intros Hids. unfold handleRunBacktest. rewrite Hids. eauto.
Qed.
End OutcomeClaims.

(* ===================================================================== *)
(** * The properties on the example inputs *)
(* ===================================================================== *)

Lemma wellFormedBar_mkBar t o h l c : 0 < o -> wellFormedBar (mkBar t o h l c).
Proof.
  intros Ho. unfold wellFormedBar, mkBar. cbn [bar_o bar_h bar_l bar_c isFinite].
  repeat split. apply num_lt_Fin. exact Ho.
Qed.

Lemma wellFormedData_empty : wellFormedData ∅.
Proof. intros symbol bars. rewrite lookup_empty. discriminate. Qed.

Lemma wellFormedData_insert symbol bars data :
  Forall wellFormedBar bars -> wellFormedData data ->
  wellFormedData (<[symbol := bars]> data).
Proof.
  intros Hbars Hdata symbol' bars'. rewrite lookup_insert.
  case_decide; [intros [= <-]; exact Hbars | apply Hdata].
Qed.

Lemma wellFormedData_fetchedWith t o h l c :
  0 < o -> wellFormedData (fetchedWith (mkBar t o h l c)).
Proof.
  intros Ho. unfold fetchedWith, leadBars, flatBar. cbn [app].
  apply wellFormedData_insert;
    [| apply wellFormedData_insert; [| apply wellFormedData_empty]];
    repeat (constructor; [apply wellFormedBar_mkBar; first [exact Ho | lra] |]);
    constructor.
Qed.

Lemma wellFormedForm_formWith ids capital fee :
  0 < capital -> wellFormedForm (formWith ids capital fee).
Proof.
  intros Hc. unfold wellFormedForm, formWith.
  cbn [initialCapital slippage commission isFinite]. repeat split.
  apply num_lt_Fin. exact Hc.
Qed.

Lemma selected_custom : selectedStrategiesOf [customStrategy] defaultForm = [customStrategy].
Proof. vm_compute. reflexivity. Qed.

Lemma selected_symbolless :
  selectedStrategiesOf [symbollessStrategy] (formWith ["s0"] 100000 0.5)
  = [symbollessStrategy].
Proof. vm_compute. reflexivity. Qed.

(** C2, as stated, fails: with data for the strategy's symbol and a stream
    under which no signal ever fires, the run simulates zero trades and
    still assembles results, with one point for the date of bar 5. *)
Lemma zero_trades_still_results :
  exists results,
    @handleRunBacktest exactMath neverTrade [customStrategy] defaultForm
      (fetchOf (fetchedWith flatBar)) feedback = SetResults results /\
    res_allTrades results = [] /\
    sm_trades (res_summary results) = 0%nat /\
    pd_date <$> res_performanceData results = ["2024-01-08"].
Proof. eexists. split; [vm_compute; reflexivity |]. repeat split. Qed.

(** C3, as stated, fails twice.  With the default capital and commission,
    a trade stopped out on the first date gives the first point a positive
    drawdown; with a commission above the capital the portfolio value turns
    negative and the drawdown exceeds [1]. *)
Lemma drawdown_bounds_counterexample :
  (exists results p,
     @handleRunBacktest exactMath alwaysTrade [customStrategy] defaultForm
       (fetchOf (fetchedWith fallingBar)) feedback = SetResults results /\
     res_performanceData results !! 0%nat = Some p /\
     num_gt (pd_drawdown p) (Fin 0) = true) /\
  (exists results p,
     @handleRunBacktest exactMath alwaysTrade [customStrategy] (formWith ["s1"] 100 150)
       (fetchOf (fetchedWith fallingBar)) feedback = SetResults results /\
     res_performanceData results !! 0%nat = Some p /\
     num_le (pd_drawdown p) (Fin 1) = false).
Proof.
  split; do 2 eexists; (split; [vm_compute; reflexivity |]);
    (split; [reflexivity |]); vm_compute; reflexivity.
Qed.

(** C4, as stated, fails: the quotient is not guarded.  With an initial
    capital of [0] and no trade the peak is [0] and the stored drawdown is
    [0 / 0 = NaN]; with a trade (which then only costs its commission) it
    is [+Infinity]. *)
Lemma drawdown_division_by_zero :
  (exists results p,
     @handleRunBacktest exactMath neverTrade [customStrategy] (formWith ["s1"] 0 0.5)
       (fetchOf (fetchedWith flatBar)) feedback = SetResults results /\
     res_performanceData results !! 0%nat = Some p /\
     peakAt (Fin 0) (res_performanceData results) 0 = Fin 0 /\
     pd_drawdown p = NaN) /\
  (exists results p,
     @handleRunBacktest exactMath alwaysTrade [customStrategy] (formWith ["s1"] 0 0.5)
       (fetchOf (fetchedWith flatBar)) feedback = SetResults results /\
     res_performanceData results !! 0%nat = Some p /\
     peakAt (Fin 0) (res_performanceData results) 0 = Fin 0 /\
     pd_drawdown p = PInf).
Proof.
  split; do 2 eexists; (split; [vm_compute; reflexivity |]);
    (split; [reflexivity |]); split; vm_compute; reflexivity.
Qed.

(** C8, as stated, fails: for a selected strategy that resolves to no
    symbol, the outcome is not the input alert raised before any work but
    an error that depends on what the fetch of the benchmark answered: the
    performance-data error after a successful fetch, the fetch error
    otherwise. *)
Lemma no_resolvable_symbols_counterexample :
  strategySymbols symbollessStrategy = [] /\
  @handleRunBacktest exactMath alwaysTrade [symbollessStrategy]
    (formWith ["s0"] 100000 0.5) (fetchOf benchmarkOnly) feedback
    = SetError NoPerformanceData /\
  @handleRunBacktest exactMath alwaysTrade [symbollessStrategy]
    (formWith ["s0"] 100000 0.5) fetchFailure feedback
    = SetError FetchFailed /\
  (forall message,
     @handleRunBacktest exactMath alwaysTrade [symbollessStrategy]
       (formWith ["s0"] 100000 0.5) (fetchOf benchmarkOnly) feedback
     <> Alerted message).
Proof.
  split; [reflexivity |]. split; [vm_compute; reflexivity |].
  split; [vm_compute; reflexivity |]. intros message. vm_compute. discriminate.
Qed.

(** The trade opened on the wide sixth bar, and on the flat one. *)
Lemma openedOn_sixth_bar (lastBar : AlpacaBar) :
  openedOn defaultForm (fetchedWith lastBar) customStrategy 5 "ZZZ" lastBar
    (executeTrade defaultForm "1-5d" customStrategy 5 "ZZZ" lastBar (Fin 2.75)).
Proof.
  exists (leadBars ++ [lastBar]), 2.75.
  split; [reflexivity |]. split; [reflexivity |]. split; [lia |].
  split; [split; vm_compute; [discriminate | reflexivity] | reflexivity].
Defined.

Lemma stop_loss_precedes_take_profit_witness :
  let t := executeTrade defaultForm "1-5d" customStrategy 5 "ZZZ" wideBar (Fin 2.75) in
  tr_exitReason t = SL /\
  tr_exitPrice t =
    num_mul (tr_stopLossPrice t)
            (num_sub (Fin 1) (num_div (slippage defaultForm) (Fin 100))).
Proof.
  apply (stop_loss_precedes_take_profit defaultForm (fetchedWith wideBar) customStrategy
           5 "ZZZ" wideBar _ (openedOn_sixth_bar wideBar));
    vm_compute; reflexivity.
Defined.

Lemma end_of_period_exit_witness :
  let t := executeTrade defaultForm "1-5d" customStrategy 5 "ZZZ" flatBar (Fin 2.75) in
  tr_exitReason t = EOD /\
  tr_exitPrice t =
    num_mul (bar_c flatBar) (num_sub (Fin 1) (num_div (slippage defaultForm) (Fin 100))).
Proof.
  apply (proj2 (end_of_period_exit defaultForm (fetchedWith flatBar) customStrategy
                  5 "ZZZ" flatBar _ (openedOn_sixth_bar flatBar)));
    vm_compute; reflexivity.
Defined.

Lemma calculateAdvancedRatios_degenerate_witness :
  let out := @calculateAdvancedRatios exactMath risingCurve (Fin 0.02) (Fin 252) in
  num_eqv (@downsideDeviationOf exactMath risingCurve (Fin 252)) (Fin 0) /\
  sortino out = Fin 0 /\ calmar out = Fin 0 /\
  isFinite (sortino out) = true /\ isFinite (calmar out) = true.
Proof.
  destruct (@calculateAdvancedRatios_degenerate exactMath risingCurve (Fin 0.02) (Fin 252)
              eq_refl) as (Hsortino & Hcalmar & Hfs & Hfc & _).
  destruct Hsortino as [Hdeviation Hzero].
  { repeat constructor. }
  split; [apply Hdeviation; reflexivity |]. split; [exact Hzero |].
  split; [apply Hcalmar; vm_compute; reflexivity |]. split; assumption.
Defined.

Lemma drawdown_bounds_witness :
  exists results,
    @handleRunBacktest exactMath alwaysTrade [customStrategy] defaultForm
      (fetchOf (fetchedWith fallingBar)) feedback = SetResults results /\
    let pnl := dailyPnl (simulate alwaysTrade defaultForm (fetchedWith fallingBar)
                           (selectedStrategiesOf [customStrategy] defaultForm)) in
    (forall p, p ∈ res_performanceData results ->
       num_lt (pd_drawdown p) (Fin 0) = false /\
       (num_gt (pd_drawdown p) (Fin 1) = true -> num_lt (pd_strategy p) (Fin 0) = true) /\
       (isFinite (pd_strategy p) = true ->
        num_ge (pd_drawdown p) (Fin 0) = true /\
        (num_ge (pd_strategy p) (Fin 0) = true ->
         num_le (pd_drawdown p) (Fin 1) = true))) /\
    (forall p, res_performanceData results !! 0%nat = Some p ->
       exists x,
         pnl !! pd_date p = Some x /\ pd_strategy p = num_add (Fin 100000) x /\
         (isFinite (pd_strategy p) = true -> num_ge x (Fin 0) = true ->
          num_eqv (pd_drawdown p) (Fin 0)) /\
         (num_gt (pd_drawdown p) (Fin 0) = true -> num_lt x (Fin 0) = true)).
Proof.
  eexists. split; [vm_compute; reflexivity |].
  apply (@drawdown_bounds exactMath alwaysTrade [customStrategy] defaultForm
           (fetchOf (fetchedWith fallingBar)) feedback _ (fetchedWith fallingBar) 100000).
  - vm_compute. reflexivity.
  - reflexivity.
  - reflexivity.
  - reflexivity.
Defined.

Lemma drawdown_quotient_witness :
  exists results p,
    @handleRunBacktest exactMath alwaysTrade [customStrategy] defaultForm
      (fetchOf (fetchedWith fallingBar)) feedback = SetResults results /\
    res_performanceData results !! 0%nat = Some p /\
    let peak := peakAt (initialCapital defaultForm) (res_performanceData results) 0 in
    pd_drawdown p = num_div (num_sub peak (pd_strategy p)) peak /\
    num_ge peak (initialCapital defaultForm) = true /\
    num_gt peak (Fin 0) = true /\
    num_gt (pd_strategy p) peak = false.
Proof.
  do 2 eexists.
  assert (Hrun : @handleRunBacktest exactMath alwaysTrade [customStrategy] defaultForm
                   (fetchOf (fetchedWith fallingBar)) feedback = SetResults _)
    by (vm_compute; reflexivity).
  split; [exact Hrun |]. split; [reflexivity |].
  destruct (@drawdown_quotient exactMath alwaysTrade [customStrategy] defaultForm
              (fetchOf (fetchedWith fallingBar)) feedback _ 0%nat _ Hrun eq_refl)
    as [Hquotient Hpeak].
  split; [exact Hquotient | exact (Hpeak 100000 eq_refl eq_refl)].
Defined.


Lemma no_performance_data_error_witness :
  @handleRunBacktest exactMath alwaysTrade [symbollessStrategy]
    (formWith ["s0"] 100000 0.5) (fetchOf benchmarkOnly) feedback
  = SetError NoPerformanceData.
Proof.
  apply (proj1 (@no_performance_data_error exactMath alwaysTrade [symbollessStrategy]
                  (formWith ["s0"] 100000 0.5) (fetchOf benchmarkOnly) feedback)).
  split; [discriminate |]. exists benchmarkOnly. split; [reflexivity |].
  rewrite selected_symbolless. repeat constructor.
Defined.

Lemma no_resolvable_symbols_witness :
  @handleRunBacktest exactMath alwaysTrade [symbollessStrategy]
    (formWith ["s0"] 100000 0.5) (fetchOf benchmarkOnly) feedback =
    match fetchedData (fetchOf benchmarkOnly) with
    | None => SetError FetchFailed
    | Some data => SetError NoPerformanceData
    end /\
  (forall data, simulate alwaysTrade (formWith ["s0"] 100000 0.5) data
                  (selectedStrategiesOf [symbollessStrategy] (formWith ["s0"] 100000 0.5))
                = initialSimState) /\
  (forall results,
     @handleRunBacktest exactMath alwaysTrade [symbollessStrategy]
       (formWith ["s0"] 100000 0.5) (fetchOf benchmarkOnly) feedback
     <> SetResults results).
Proof.
  apply (proj1 (@no_resolvable_symbols exactMath alwaysTrade [symbollessStrategy]
                  (formWith ["s0"] 100000 0.5) (fetchOf benchmarkOnly) feedback)).
  - discriminate.
  - rewrite selected_symbolless. repeat constructor.
Defined.

(* ===================================================================== *)
(** * Further properties of the component and its services *)
(* ===================================================================== *)

(** ** Strategy selection *)

Lemma filter_all {A : Type} (P : A -> Prop) `{forall x, Decision (P x)} (l : list A) :
  Forall P l -> filter P l = l.
Proof.
  induction 1 as [| x l Hx _ IH]; [reflexivity |].
  rewrite filter_cons_True by exact Hx. rewrite IH. reflexivity.
Qed.

Lemma handleStrategySelection_elem strategyId prev (x : string) :
  x ∈ handleStrategySelection strategyId prev <->
  (x = strategyId /\ strategyId ∉ prev) \/ (x <> strategyId /\ x ∈ prev).
Proof.
  unfold handleStrategySelection. case_decide as Hin.
  - rewrite list_elem_of_filter. split.
    + intros [Hne Hx]. right. auto.
    + intros [[_ Hout] | [Hne Hx]]; [contradiction | auto].
  - rewrite elem_of_app, list_elem_of_singleton. split.
    + intros [Hx | ->]; [right | left]; [| auto]. split; [| exact Hx].
      intros ->. contradiction.
    + intros [[-> _] | [_ Hx]]; auto.
Qed.

(** X1.  A click on a strategy flips its membership in the selection and
    leaves every other strategy as it was; a selection without duplicates
    stays without duplicates. *)
Theorem handleStrategySelection_flips strategyId prev :
  (strategyId ∈ handleStrategySelection strategyId prev <-> strategyId ∉ prev) /\
  (forall other, other <> strategyId ->
     (other ∈ handleStrategySelection strategyId prev <-> other ∈ prev)) /\
  (NoDup prev -> NoDup (handleStrategySelection strategyId prev)).
Proof.
  split; [| split].
  - rewrite handleStrategySelection_elem. split.
    + intros [[_ Hout] | [Hne _]]; [exact Hout | contradiction].
    + intros Hout. left. auto.
  - intros other Hne. rewrite handleStrategySelection_elem. split.
    + intros [[-> _] | [_ Hx]]; [contradiction | exact Hx].
    + intros Hx. right. auto.
  - intros Hnd. unfold handleStrategySelection. case_decide as Hin.
    + apply NoDup_filter. exact Hnd.
    + apply NoDup_app. split; [exact Hnd |]. split; [| apply NoDup_singleton].
      intros x Hx Hx'. apply list_elem_of_singleton in Hx'. subst x. contradiction.
Qed.

(** X2.  Two clicks on a strategy that was not selected restore the
    selection as it was; two clicks on a selected one keep the same
    strategies selected but move it to the end of the list. *)
Theorem handleStrategySelection_twice strategyId prev :
  let twice := handleStrategySelection strategyId
                 (handleStrategySelection strategyId prev) in
  (strategyId ∉ prev -> twice = prev) /\
  (strategyId ∈ prev ->
   twice = filter (fun id => id <> strategyId) prev ++ [strategyId]) /\
  (forall x, x ∈ twice <-> x ∈ prev).
Proof.
  cbn zeta. split; [| split].
  - intros Hout. unfold handleStrategySelection at 2. rewrite decide_False by exact Hout.
    unfold handleStrategySelection. rewrite decide_True.
    + rewrite filter_app, (filter_all (fun id => id <> strategyId) prev).
      * rewrite filter_cons_False by (intros Hne; apply Hne; reflexivity).
        rewrite filter_nil, app_nil_r. reflexivity.
      * apply Forall_forall. intros x Hx ->. contradiction.
    + apply elem_of_app. right. apply list_elem_of_singleton. reflexivity.
  - intros Hin. unfold handleStrategySelection at 2. rewrite decide_True by exact Hin.
    unfold handleStrategySelection. rewrite decide_False; [reflexivity |].
    rewrite list_elem_of_filter. intros [Hne _]. apply Hne. reflexivity.
  - intros x. rewrite !handleStrategySelection_elem.
    destruct (decide (strategyId ∈ prev)); destruct (decide (x ∈ prev));
      destruct (decide (x = strategyId)) as [-> | Hne]; tauto.
Qed.

(** ** Resolved symbols *)

Lemma uniq_from_spec seen xs :
  NoDup (uniq_from seen xs) /\
  forall x, x ∈ uniq_from seen xs <-> x ∈ xs /\ x ∉ seen.
Proof.
  revert seen. induction xs as [| y xs IH]; intros seen; simpl.
  - split; [constructor |]. intros x. split.
    + intros Hx. inversion Hx.
    + intros [Hx _]. inversion Hx.
  - case_decide as Hy.
    + destruct (IH seen) as [Hnd Hin]. split; [exact Hnd |].
      intros x. rewrite Hin, elem_of_cons. split.
      * intros [Hx Hout]. auto.
      * intros [[-> | Hx] Hout]; [contradiction | auto].
    + destruct (IH (y :: seen)) as [Hnd Hin]. split.
      * constructor; [| exact Hnd]. rewrite Hin, elem_of_cons. intros [_ Hout].
        apply Hout. left. reflexivity.
      * intros x. rewrite elem_of_cons, Hin, !elem_of_cons. split.
        -- intros [-> | [Hx Hout]]; [auto |]. split; [auto |].
           intros Hseen. apply Hout. right. exact Hseen.
        -- intros [[-> | Hx] Hout]; [auto |].
           destruct (decide (x = y)) as [-> | Hne]; [auto |]. right.
           split; [exact Hx |]. intros [Heq | Hseen]; contradiction.
Qed.

Lemma uniq_spec xs : NoDup (uniq xs) /\ forall x, x ∈ uniq xs <-> x ∈ xs.
Proof.
  destruct (uniq_from_spec [] xs) as [Hnd Hin]. split; [exact Hnd |].
  intros x. unfold uniq. rewrite Hin. split; [intros [Hx _]; exact Hx |].
  intros Hx. split; [exact Hx |]. intros Hnil. inversion Hnil.
Qed.

(** X3.  The symbols a strategy resolves to are exactly the tickers of its
    asset universes and its custom symbols, each listed once; the
    available ones are those among them with more than five fetched bars,
    still each listed once. *)
Theorem strategySymbols_resolved data strategy :
  NoDup (strategySymbols strategy) /\
  (forall symbol,
     symbol ∈ strategySymbols strategy <->
     (exists universe, universe ∈ st_assetUniverses strategy /\
                       symbol ∈ ASSET_UNIVERSE_TICKER_MAP universe) \/
     symbol ∈ st_customSymbols strategy) /\
  NoDup (availableSymbolsOf data strategy) /\
  (forall symbol,
     symbol ∈ availableSymbolsOf data strategy <->
     symbol ∈ strategySymbols strategy /\
     exists bars, data !! symbol = Some bars /\ (5 < length bars)%nat).
Proof.
  destruct (uniq_spec (flat_map ASSET_UNIVERSE_TICKER_MAP (st_assetUniverses strategy)
                       ++ st_customSymbols strategy)) as [Hnd Hin].
  split; [exact Hnd |]. split; [| split].
  - intros symbol. unfold strategySymbols. rewrite Hin, elem_of_app.
    rewrite list_elem_of_In, in_flat_map.
    split; (intros [(universe & Hu & Hs) | Hc]; [left | right; exact Hc]);
      exists universe; rewrite ?list_elem_of_In in *; auto.
  - unfold availableSymbolsOf. apply NoDup_filter. exact Hnd.
  - apply availableSymbolsOf_spec.
Qed.

(** ** Leverage *)

Lemma interpolated_monotone (c c' maxLeverage : Q) :
  2 <= maxLeverage -> c <= c' ->
  interpolated c maxLeverage <= interpolated c' maxLeverage.
Proof.
  intros Hm Hc. unfold interpolated. apply Q.min_le_compat_r.
  assert (Hfrac : (c - 2.5) / (5.0 - 2.5) <= (c' - 2.5) / (5.0 - 2.5)).
  { apply Qdiv_pos_le; [lra |].
    assert (E : (c' - 2.5) / (5.0 - 2.5) * (5.0 - 2.5) == c' - 2.5) by (field; lra).
    rewrite E. lra. }
  assert (Hprod : (c - 2.5) / (5.0 - 2.5) * (maxLeverage - 2)
                  <= (c' - 2.5) / (5.0 - 2.5) * (maxLeverage - 2)).
  { apply Qmult_le_compat_r; lra. }
  lra.
Qed.

(** X4.  The leverage never decreases when the risk/reward ratio grows,
    whatever the (finite) ratios and maximum leverage. *)
Theorem calculateDynamicLeverage_monotone (rr rr' maxLeverage : Q) :
  rr <= rr' ->
  num_le (calculateDynamicLeverage (Fin rr) (Fin maxLeverage))
         (calculateDynamicLeverage (Fin rr') (Fin maxLeverage)) = true.
Proof.
  intros Hrr. destruct (Qlt_le_dec 2 maxLeverage) as [Hm | Hm].
  - destruct (calculateDynamicLeverage_interpolated rr _ Hm) as (x & -> & Hx).
    destruct (calculateDynamicLeverage_interpolated rr' _ Hm) as (x' & -> & Hx').
    apply num_le_Fin. rewrite <- Zle_Qle. apply Qfloor_resp_le.
    rewrite Hx, Hx'. apply Qplus_le_l. apply interpolated_monotone; [lra |].
    apply Q.min_le_compat_r. exact Hrr.
  - rewrite !calculateDynamicLeverage_collapsed by exact Hm. reflexivity.
Qed.

Lemma calculateDynamicLeverage_monotone_witness :
  num_le (calculateDynamicLeverage (Fin 1) (Fin 20))
         (calculateDynamicLeverage (Fin 4) (Fin 20)) = true.
Proof. apply (calculateDynamicLeverage_monotone 1 4 20). vm_compute. discriminate. Defined.

Lemma ASSET_LEVERAGE_MAP_integer (c : AssetClass) :
  exists m : Z, ASSET_LEVERAGE_MAP c = Fin (inject_Z m) /\ (5 <= m <= 30)%Z.
Proof.
  destruct c;
    [exists 5%Z | exists 5%Z | exists 5%Z | exists 5%Z | exists 5%Z | exists 10%Z
     | exists 20%Z | exists 30%Z | exists 30%Z | exists 20%Z];
    (split; [reflexivity | lia]).
Qed.

(** The sizer on the ratios the simulator draws and the maxima of the
    leverage table. *)
Lemma calculateDynamicLeverage_in_table (rr : Q) (c : AssetClass) :
  2.5 <= rr ->
  exists (r m : Z),
    calculateDynamicLeverage (Fin rr) (ASSET_LEVERAGE_MAP c) = Fin (inject_Z r) /\
    ASSET_LEVERAGE_MAP c = Fin (inject_Z m) /\ (2 <= r <= m)%Z /\ (5 <= m <= 30)%Z.
Proof.
  intros Hrr. destruct (ASSET_LEVERAGE_MAP_integer c) as (m & -> & Hm).
  assert (HmQ : 2 < inject_Z m).
  { change 2 with (inject_Z 2). rewrite <- Zlt_Qlt. lia. }
  destruct (calculateDynamicLeverage_interpolated rr _ HmQ) as (x & -> & Hx).
  assert (Hclamped : 2.5 <= Qmin rr 5.0) by (apply Q.min_glb; lra).
  destruct (interpolated_bounds _ (inject_Z m) Hclamped) as [Hlow Hhigh]; [lra |].
  exists (Qfloor (x + 0.5)), m. repeat split; try lia; try reflexivity.
  - apply Qfloor_half_lower. rewrite Hx. exact Hlow.
  - apply Qfloor_half_upper. rewrite Hx. exact Hhigh.
Qed.

(** ** Where trades come from *)

Lemma array_get_elem {A : Type} (xs : list A) (i : num) (x : A) :
  array_get xs i = Some x -> x ∈ xs.
Proof.
  unfold array_get. destruct i as [q | | |]; try discriminate.
  destruct (_ && _); [| discriminate]. intros Hx.
  apply list_elem_of_lookup. eauto.
Qed.

Lemma simulateBar_tradeSource rnd form data strategy timelineBars st i :
  (5 <= i)%nat ->
  let st' := simulateBar rnd form data strategy (availableSymbolsOf data strategy)
                         timelineBars st i in
  (allTrades st' = allTrades st \/
   exists t, tradeSource form data strategy t /\ allTrades st' = allTrades st ++ [t]) /\
  (rng st + 1 <= rng st' <= rng st + 3)%nat \/
  (allTrades st' = allTrades st /\ rng st' = rng st).
Proof.
  intros Hi. unfold simulateBar.
  destruct (potentialRR_range rnd (S (S (rng st)))) as (rr & Hrr & Hrange).
  destruct (timelineBars !! i) as [timelineBar |]; [left | right; auto].
  destruct (num_lt _ _); [| cbn [allTrades rng]; split; [auto | lia]].
  destruct (array_get _ _) as [symbol |] eqn:Hpick;
    [| cbn [allTrades rng]; split; [auto | lia]].
  destruct (data !! symbol) as [symbolBars |] eqn:Hdata;
    [| cbn [allTrades rng]; split; [auto | lia]].
  destruct (symbolBars !! i) as [currentBar |] eqn:Hbar;
    [| cbn [allTrades rng]; split; [auto | lia]].
  destruct (useWeeklyBias form && negb _) eqn:Hbias;
    cbn [allTrades rng]; (split; [| lia]); [auto |].
  right. eexists. split; [| reflexivity].
  exists i, symbol, symbolBars, currentBar, rr. rewrite Hrr.
  repeat split; try assumption; try lra.
  apply array_get_elem in Hpick. exact Hpick.
Qed.

Lemma simulate_tradeSource rnd form data selectedStrategies :
  tradesFromSelected form data selectedStrategies
                     (simulate rnd form data selectedStrategies).
Proof.
  unfold simulate. apply (foldl_invariant (tradesFromSelected form data selectedStrategies)).
  - constructor.
  - intros s strategy Hin Hs. unfold simulateStrategy.
    destruct (availableSymbolsOf data strategy) as [| first rest] eqn:Havail; [exact Hs |].
    rewrite <- Havail.
    apply (foldl_invariant (tradesFromSelected form data selectedStrategies)); [exact Hs |].
    intros s' i Hi Hs'. apply elem_of_seq_ge in Hi.
    destruct (simulateBar_tradeSource rnd form data strategy
                (default [] (data !! first)) s' i) as [[Hstep _] | [Hsame _]]; [lia | |].
    + destruct Hstep as [Hsame | (t & Ht & Hpush)]; unfold tradesFromSelected.
      * rewrite Hsame. exact Hs'.
      * rewrite Hpush. apply Forall_app. split; [exact Hs' |].
        apply Forall_singleton. eauto.
    + unfold tradesFromSelected. rewrite Hsame. exact Hs'.
Qed.

(** ** Prices and P&L of a trade *)

(** The fields of a trade over finite inputs and a positive open, in closed
    form. *)
Lemma executeTrade_closed_form form holdingTime_ strategy i symbol currentBar
    (rr capital slip fee stop o h l c : Q) :
  initialCapital form = Fin capital -> slippage form = Fin slip ->
  commission form = Fin fee -> st_stopLossPercentage strategy = Fin stop ->
  bar_o currentBar = Fin o -> bar_h currentBar = Fin h -> bar_l currentBar = Fin l ->
  bar_c currentBar = Fin c ->
  0 <= slip -> 0 < o ->
  let t := executeTrade form holdingTime_ strategy i symbol currentBar (Fin rr) in
  let a := slip / 100 in
  let e := o * (1 + a) in
  let s := e - e * (stop / 100) in
  let tp := e + e * (stop / 100) * rr in
  let v := capital * 0.02 in
  let raw := if num_le (Fin l) (Fin s) then s
             else if num_ge (Fin h) (Fin tp) then tp else c in
  0 < e /\
  tr_entryPrice t = Fin e /\ tr_stopLossPrice t = Fin s /\ tr_takeProfitPrice t = Fin tp /\
  tr_value t = Fin v /\ tr_positionSize t = Fin (v / e) /\
  tr_exitPrice t = Fin (raw * (1 - a)) /\
  tr_pnl t = Fin ((raw * (1 - a) - e) * (v / e) - fee) /\
  tr_exitReason t =
    (if num_le (Fin l) (Fin s) then SL else if num_ge (Fin h) (Fin tp) then TP else EOD).
Proof.
  intros Ecapital Eslip Efee Estop Eo Eh El Ec Hslip Ho. cbn zeta.
  assert (Hrate : 0 <= slip / 100) by (apply Qle_shift_div_l; lra).
  assert (Hentry : 0 < o * (1 + slip / 100)) by (apply Qmult_lt_0_compat; lra).
  split; [exact Hentry |].
  unfold executeTrade, resolveExit.
  cbn [tr_entryPrice tr_stopLossPrice tr_takeProfitPrice tr_value tr_positionSize
       tr_exitPrice tr_pnl tr_exitReason].
  rewrite Ecapital, Eslip, Efee, Estop, Eo, Eh, El, Ec.
  rewrite !(num_div_Fin _ 100) by lra. cbn [num_add num_mul num_sub].
  rewrite num_div_Fin by lra.
  repeat split; try reflexivity;
    destruct (num_le (Fin l) _); try reflexivity;
    destruct (num_ge (Fin h) _); reflexivity.
Qed.

Lemma Qdiv_100_bounds (x : Q) : 0 <= x -> x <= 100 -> 0 <= x / 100 <= 1.
Proof.
  intros H0 H100. split.
  - apply Qle_shift_div_l; lra.
  - apply Qle_shift_div_r; lra.
Qed.

(** The price ladder and the worst case of a trade over sound inputs. *)
Lemma executeTrade_sound form holdingTime_ strategy i symbol currentBar (rr : Q) :
  soundForm form -> soundStrategy strategy -> soundBar currentBar -> 2.5 <= rr ->
  let t := executeTrade form holdingTime_ strategy i symbol currentBar (Fin rr) in
  exists capital slip fee e s tp ps x p,
    initialCapital form = Fin capital /\ slippage form = Fin slip /\
    commission form = Fin fee /\
    tr_entryPrice t = Fin e /\ tr_stopLossPrice t = Fin s /\
    tr_takeProfitPrice t = Fin tp /\ tr_positionSize t = Fin ps /\
    tr_value t = Fin (capital * 0.02) /\
    tr_exitPrice t = Fin x /\ tr_pnl t = Fin p /\
    s < e < tp /\ 0 < ps /\ ps * e == capital * 0.02 /\
    p == (x - e) * ps - fee /\
    (s * (1 - slip / 100) - e) * ps - fee <= p /\
    s * (1 - slip / 100) <= x /\
    (tr_exitReason t = SL -> x == s * (1 - slip / 100) /\ p < 0 /\ tr_type t = LOSS).
Proof.
  intros ((Hcapital & Hfc & Hslip & Hfs & Hfk) & Hslip100 & Hfee) (Hfstop & Hstop)
         ((Hopen & Hfo & Hfh & Hfl & Hfcl) & Hlc) Hrr.
  apply isFinite_Fin in Hfc as [capital Ecapital], Hfs as [slip Eslip],
    Hfk as [fee Efee], Hfstop as [stop Estop], Hfo as [o Eo], Hfh as [h Eh],
    Hfl as [l El], Hfcl as [c Ec].
  rewrite Ecapital in Hcapital. rewrite Eslip in Hslip, Hslip100. rewrite Efee in Hfee.
  rewrite Estop in Hstop. rewrite Eo in Hopen. rewrite El, Ec in Hlc.
  apply num_lt_Fin in Hcapital, Hstop, Hopen.
  apply num_le_Fin in Hslip, Hslip100, Hfee, Hlc.
  destruct (executeTrade_closed_form form holdingTime_ strategy i symbol currentBar
              rr capital slip fee stop o h l c Ecapital Eslip Efee Estop Eo Eh El Ec
              Hslip Hopen)
    as (He & Eentry & Estopprice & Etarget & Evalue & Esize & Eexit & Epnl & Ereason).
  cbn zeta.
  destruct (Qdiv_100_bounds slip Hslip Hslip100) as [Ha0 Ha1].
  set (a := slip / 100) in *. set (e := o * (1 + a)) in *.
  assert (Hb : 0 < stop / 100) by (apply Qlt_shift_div_l; lra).
  set (b := stop / 100) in *.
  assert (Heb : 0 < e * b) by (apply Qmult_lt_0_compat; assumption).
  assert (Hebr : 0 < e * b * rr) by (apply Qmult_lt_0_compat; lra).
  set (s := e - e * b) in *. set (tp := e + e * b * rr) in *.
  assert (Hse : s < e) by (unfold s; lra).
  assert (Het : e < tp) by (unfold tp; lra).
  assert (Hps : 0 < capital * 0.02 / e) by (apply Qlt_shift_div_l; lra).
  set (ps := capital * 0.02 / e) in *.
  assert (Hpse : ps * e == capital * 0.02) by (unfold ps; field; lra).
  set (raw := if num_le (Fin l) (Fin s) then s
              else if num_ge (Fin h) (Fin tp) then tp else c) in *.
  assert (Hraw : s <= raw).
  { unfold raw. destruct (num_le (Fin l) (Fin s)) eqn:Hl; [lra |].
    apply num_le_Fin_false in Hl. destruct (num_ge (Fin h) (Fin tp)); lra. }
  assert (Hfloor : s * (1 - a) <= raw * (1 - a)) by (apply Qmult_le_compat_r; lra).
  assert (Hworst : (s * (1 - a) - e) * ps <= (raw * (1 - a) - e) * ps).
  { apply Qmult_le_compat_r; lra. }
  exists capital, slip, fee, e, s, tp, ps, (raw * (1 - a)),
         ((raw * (1 - a) - e) * ps - fee).
  fold a.
  repeat (split; [first [assumption | reflexivity | lra] |]).
  intros Hsl. rewrite Ereason in Hsl.
  assert (Eraw : raw = s).
  { unfold raw. destruct (num_le (Fin l) (Fin s)); [reflexivity |].
    destruct (num_ge (Fin h) (Fin tp)); discriminate. }
  assert (Hbelow : s * (1 - a) < e).
  { destruct (Qlt_le_dec s 0) as [Hneg | Hpos].
    - assert (s * (1 - a) <= 0 * (1 - a)) by (apply Qmult_le_compat_r; lra). lra.
    - assert ((1 - a) * s <= 1 * s) by (apply Qmult_le_compat_r; lra). lra. }
  assert (Hloss : (s * (1 - a) - e) * ps < 0 * ps).
  { apply Qmult_lt_compat_r; lra. }
  rewrite Eraw. split; [reflexivity |]. split; [lra |].
  assert (Hnot : num_gt (tr_pnl (executeTrade form holdingTime_ strategy i symbol
                                               currentBar (Fin rr))) (Fin 0) = false).
  { rewrite Epnl. apply num_lt_Fin_false. rewrite Eraw. lra. }
  unfold executeTrade in Hnot |- *. cbn [tr_pnl tr_type] in Hnot |- *.
  rewrite Hnot. reflexivity.
Qed.

Section TradeProperties.
Context `{JsMath}.

(** X5.  Every trade of the results of a run was opened by a selected
    strategy on a bar, of index 5 or more, of one of that strategy's
    available symbols, with a risk/reward ratio between [2.5] and [5.0]. *)
Theorem results_trades_source rnd savedStrategies form dataResult feedback results :
  handleRunBacktest rnd savedStrategies form dataResult feedback = SetResults results ->
  exists data,
    fetchedData dataResult = Some data /\
    Forall (fun t => exists strategy,
                strategy ∈ selectedStrategiesOf savedStrategies form /\
                tradeSource form data strategy t)
           (res_allTrades results).
Proof.
  intros Hrun.
  destruct (handleRunBacktest_results _ _ _ _ _ _ Hrun) as (data & Hdata & _ & ->).
  exists data. split; [exact Hdata |]. apply simulate_tradeSource.
Qed.

(** X6.  Every trade of the results of a run carries an integer leverage
    between 2 and the maximum leverage of its asset class, which is the
    class the symbol table gives its symbol (US stocks when the symbol is
    not in the table) and lies between 5 and 30. *)
Theorem results_trades_leverage rnd savedStrategies form dataResult feedback results :
  handleRunBacktest rnd savedStrategies form dataResult feedback = SetResults results ->
  Forall (fun t => exists r m : Z,
              tr_assetClass t
                = default AC_USStocks (SYMBOL_TO_ASSET_CLASS_MAP !! tr_symbol t) /\
              tr_leverage t = Fin (inject_Z r) /\
              ASSET_LEVERAGE_MAP (tr_assetClass t) = Fin (inject_Z m) /\
              (2 <= r <= m)%Z /\ (5 <= m <= 30)%Z)
         (res_allTrades results).
Proof.
  intros Hrun.
  destruct (handleRunBacktest_results _ _ _ _ _ _ Hrun) as (data & Hdata & _ & ->).
  cbn [assembleResults res_allTrades].
  eapply Forall_impl; [apply (simulate_tradeSource rnd form data) |].
  intros t (strategy & _ & i & symbol & symbolBars & currentBar & rr & _ & _ & _ & _
            & Hrr & ->).
  destruct (calculateDynamicLeverage_in_table rr
              (default AC_USStocks (SYMBOL_TO_ASSET_CLASS_MAP !! symbol)))
    as (r & m & Hr & Hm & Hrm & Hm30); [apply Hrr |].
  exists r, m. unfold executeTrade. cbn [tr_assetClass tr_symbol tr_leverage].
  auto.
Qed.

Lemma results_trades_sound rnd savedStrategies form dataResult feedback results data :
  handleRunBacktest rnd savedStrategies form dataResult feedback = SetResults results ->
  fetchedData dataResult = Some data ->
  soundForm form ->
  Forall soundStrategy (selectedStrategiesOf savedStrategies form) ->
  soundData data ->
  Forall (fun t => exists holdingTime_ strategy i symbol currentBar rr,
              soundStrategy strategy /\ soundBar currentBar /\ 2.5 <= rr /\
              t = executeTrade form holdingTime_ strategy i symbol currentBar (Fin rr))
         (res_allTrades results).
Proof.
  intros Hrun Hdata Hform Hstrategies Hbars.
  destruct (handleRunBacktest_results _ _ _ _ _ _ Hrun) as (data' & Hdata' & _ & ->).
  rewrite Hdata in Hdata'. injection Hdata' as <-.
  cbn [assembleResults res_allTrades].
  eapply Forall_impl; [apply (simulate_tradeSource rnd form data) |].
  intros t (strategy & Hsel & i & symbol & symbolBars & currentBar & rr & _ & Hsymbol
            & Hbar & _ & Hrr & ->).
  exists (holdingTime (getSimulationParams (timeframe form))), strategy, i, symbol,
         currentBar, rr.
  split; [| split; [| split; [apply Hrr | reflexivity]]].
  - rewrite Forall_forall in Hstrategies. apply (Hstrategies strategy Hsel).
  - specialize (Hbars symbol symbolBars Hsymbol). rewrite Forall_lookup in Hbars.
    apply (Hbars i currentBar Hbar).
Qed.

(** X7.  Over sound inputs, every trade of a run has a notional of the
    initial capital times [0.02], a position size that is this notional
    over the entry price and is not negative, and a positive entry price;
    when the entry price is finite, the stop-loss price is not above it and
    the take-profit price not below it. *)
Theorem results_trades_prices rnd savedStrategies form dataResult feedback results data :
  handleRunBacktest rnd savedStrategies form dataResult feedback = SetResults results ->
  fetchedData dataResult = Some data ->
  soundForm form ->
  Forall soundStrategy (selectedStrategiesOf savedStrategies form) ->
  soundData data ->
  Forall (fun t =>
            tr_value t = num_mul (initialCapital form) (Fin 0.02) /\
            tr_positionSize t = num_div (tr_value t) (tr_entryPrice t) /\
            num_gt (tr_entryPrice t) (Fin 0) = true /\
            num_ge (tr_positionSize t) (Fin 0) = true /\
            (isFinite (tr_entryPrice t) = true ->
             num_le (tr_stopLossPrice t) (tr_entryPrice t) = true /\
             num_le (tr_entryPrice t) (tr_takeProfitPrice t) = true))
         (res_allTrades results).
Proof.
  intros Hrun Hdata Hform Hstrategies Hbars.
  eapply Forall_impl;
    [apply (results_trades_sound _ _ _ _ _ _ _ Hrun Hdata Hform Hstrategies Hbars) |].
  intros t (ht & strategy & i & symbol & currentBar & rr & Hs & Hb & Hrr & ->).
  destruct (executeTrade_sound form ht strategy i symbol currentBar rr Hform Hs Hb Hrr)
    as (capital & slip & fee & e & s & tp & ps & x & p & Hc & _ & _ & He & Hsl & Htp
        & Hps & Hv & _ & _ & Hladder & Hpos & Hprod & _).
  split; [reflexivity |]. split; [reflexivity |].
  rewrite He, Hsl, Htp, Hps.
  assert (He0 : 0 < e).
  { destruct (Qlt_le_dec 0 e) as [Hlt | Hle]; [exact Hlt |].
    pose proof (wellFormedForm_capital form (proj1 Hform)) as (c0 & Hc0 & Hc0pos).
    rewrite Hc in Hc0. injection Hc0 as <-.
    assert (e * ps <= 0 * ps) by (apply Qmult_le_compat_r; lra).
    assert (ps * e == e * ps) by ring. lra. }
  split; [apply num_lt_Fin; exact He0 |].
  split; [apply num_le_Fin; lra |].
  intros _. split; apply num_le_Fin; lra.
Qed.

(** X8.  Over sound inputs, a trade of a run is a [WIN] exactly when its
    P&L is positive, and a trade that exits at its stop is never one: its
    exit price is the stop-loss price less the slippage, and its type is
    [LOSS].  Whatever the exit, when the stop-loss price is finite the exit
    price is not below that of an exit at the stop. *)
Theorem results_trades_worst_case rnd savedStrategies form dataResult feedback results
    data :
  handleRunBacktest rnd savedStrategies form dataResult feedback = SetResults results ->
  fetchedData dataResult = Some data ->
  soundForm form ->
  Forall soundStrategy (selectedStrategiesOf savedStrategies form) ->
  soundData data ->
  Forall (fun t =>
            let atStop :=
              num_mul (tr_stopLossPrice t)
                      (num_sub (Fin 1) (num_div (slippage form) (Fin 100))) in
            (tr_type t = WIN <-> num_gt (tr_pnl t) (Fin 0) = true) /\
            (tr_exitReason t = SL -> tr_type t = LOSS /\ tr_exitPrice t = atStop) /\
            (isFinite (tr_stopLossPrice t) = true ->
             num_ge (tr_exitPrice t) atStop = true))
         (res_allTrades results).
Proof.
  intros Hrun Hdata Hform Hstrategies Hbars.
  eapply Forall_impl;
    [apply (results_trades_sound _ _ _ _ _ _ _ Hrun Hdata Hform Hstrategies Hbars) |].
  intros t (ht & strategy & i & symbol & currentBar & rr & Hs & Hb & Hrr & ->).
  destruct (executeTrade_sound form ht strategy i symbol currentBar rr Hform Hs Hb Hrr)
    as (capital & slip & fee & e & s & tp & ps & x & p & _ & Hslip & Hfee & He & Hsl & _
        & Hps & _ & Hx & Hp & _ & _ & _ & _ & Hworst & Hfloor & Hstop).
  cbn zeta. split; [| split].
  - unfold executeTrade. cbn [tr_type tr_pnl].
    destruct (num_gt _ (Fin 0)); split; congruence.
  - intros Hreason. split; [apply (Hstop Hreason) |].
    revert Hreason. unfold executeTrade, resolveExit.
    cbn [tr_exitReason tr_exitPrice tr_stopLossPrice].
    destruct (num_le (bar_l currentBar) _); [reflexivity |].
    destruct (num_ge (bar_h currentBar) _); discriminate.
  - intros _. rewrite Hx, Hsl, Hslip.
    assert (Hbounds : 0 <= slip / 100 <= 1).
    { destruct Hform as ((_ & _ & Hslip0 & _) & Hslip100 & _).
      rewrite Hslip in Hslip0, Hslip100. apply num_le_Fin in Hslip0, Hslip100.
      apply Qdiv_100_bounds; assumption. }
    rewrite (num_div_Fin _ 100) by lra. cbn [num_sub num_mul].
    apply num_le_Fin. exact Hfloor.
Qed.
End TradeProperties.

(** ** Conservation of P&L *)

#[global] Instance entriesPnl_proper : Proper (Permutation ==> Qeq) entriesPnl.
Proof.
  intros l l' Hperm. unfold entriesPnl.
  induction Hperm as [| x l l' _ IH | x y l | l l' l'' _ IH1 _ IH2]; simpl.
  - reflexivity.
  - rewrite IH. reflexivity.
  - lra.
  - rewrite IH1. exact IH2.
Qed.

Lemma dailyPnlTotal_empty : dailyPnlTotal ∅ == 0.
Proof. unfold dailyPnlTotal. rewrite map_to_list_empty. reflexivity. Qed.

(** Writing an entry changes the total by the new value less the old. *)
Lemma dailyPnlTotal_insert (pnl : gmap string num) (date : string) (v : num) :
  dailyPnlTotal (<[date := v]> pnl) ==
  dailyPnlTotal pnl - finiteValue (default (Fin 0) (pnl !! date)) + finiteValue v.
Proof.
  unfold dailyPnlTotal. destruct (pnl !! date) as [w |] eqn:E; cbn [from_option id].
  - rewrite <- (insert_delete_eq pnl date v).
    rewrite (map_to_list_insert (delete date pnl) date v) by apply lookup_delete_eq.
    rewrite <- (map_to_list_delete pnl date w E). simpl. lra.
  - rewrite (map_to_list_insert pnl date v E). simpl. lra.
Qed.

Lemma tradesPnl_snoc (trades : list Trade) (t : Trade) :
  tradesPnl (trades ++ [t]) == tradesPnl trades + finiteValue (tr_pnl t).
Proof.
  unfold tradesPnl. induction trades as [| t' trades IH]; simpl; [lra |].
  rewrite IH. lra.
Qed.

Lemma finiteValue_num_or (v : num) :
  isFinite v = true -> finiteValue (num_or v (Fin 0)) == finiteValue v.
Proof.
  intros Hv. apply isFinite_Fin in Hv as [q ->]. unfold num_or, truthy.
  destruct (Qeq_bool q 0) eqn:E; cbn [negb finiteValue]; [| reflexivity].
  apply Qeq_bool_iff in E. rewrite E. reflexivity.
Qed.

Lemma simulateBar_pnlConserved rnd form data strategy availableSymbols timelineBars st i :
  wellFormedForm form -> wellFormedStrategy strategy -> wellFormedData data ->
  pnlConserved st ->
  pnlConserved (simulateBar rnd form data strategy availableSymbols timelineBars st i).
Proof.
  intros Hform Hstrategy Hdata (Hfin & Htrades & Htotal).
  pose proof (simulateBar_finitePnl rnd form data strategy availableSymbols timelineBars
                st i Hform Hstrategy Hdata Hfin) as Hfin'.
  split; [exact Hfin' |]. clear Hfin'. unfold simulateBar.
  destruct (potentialRR_range rnd (S (S (rng st)))) as (rr & Hrr & _).
  assert (Hinit : forall date0,
            dailyPnlTotal (<[date0 := num_or (default NaN (dailyPnl st !! date0)) (Fin 0)]>
                             (dailyPnl st))
            == tradesPnl (allTrades st)).
  { intros date0. rewrite dailyPnlTotal_insert, Htotal.
    destruct (dailyPnl st !! date0) as [w |] eqn:E; cbn [from_option id].
    - rewrite finiteValue_num_or by (eapply Hfin; exact E). lra.
    - simpl. lra. }
  destruct (timelineBars !! i) as [timelineBar |]; [| auto].
  destruct (num_lt _ _); [| cbn [allTrades dailyPnl]; auto].
  destruct (array_get _ _) as [symbol |]; [| cbn [allTrades dailyPnl]; auto].
  destruct (data !! symbol) as [symbolBars |] eqn:Hsymbol;
    [| cbn [allTrades dailyPnl]; auto].
  destruct (symbolBars !! i) as [currentBar |] eqn:Hbar;
    [| cbn [allTrades dailyPnl]; auto].
  destruct (useWeeklyBias form && negb _); [cbn [allTrades dailyPnl]; auto |].
  rewrite Hrr.
  set (trade := executeTrade form (holdingTime (getSimulationParams (timeframe form)))
                             strategy i symbol currentBar (Fin rr)).
  assert (Hpnl : isFinite (tr_pnl trade) = true).
  { apply executeTrade_pnl_finite; [exact Hform | exact Hstrategy |].
    specialize (Hdata symbol symbolBars Hsymbol). rewrite Forall_lookup in Hdata.
    exact (Hdata i currentBar Hbar). }
  cbn [allTrades dailyPnl]. split.
  - apply Forall_app. split; [exact Htrades |]. apply Forall_singleton. exact Hpnl.
  - unfold addPnl. rewrite dailyPnlTotal_insert, lookup_insert_eq. cbn [from_option id].
    rewrite Hinit, tradesPnl_snoc.
    set (base := num_or (default NaN (dailyPnl st !! beforeT (bar_t timelineBar)))
                        (Fin 0)).
    assert (Hbase : isFinite base = true).
    { unfold base. destruct (dailyPnl st !! beforeT (bar_t timelineBar)) as [w |] eqn:E;
        cbn [from_option id]; [| reflexivity].
      unfold num_or. destruct (truthy w); [eapply Hfin; exact E | reflexivity]. }
    apply isFinite_Fin in Hbase as [b ->]. apply isFinite_Fin in Hpnl as [x ->].
    simpl. lra.
Qed.

Lemma simulate_pnlConserved rnd form data selectedStrategies :
  wellFormedForm form -> Forall wellFormedStrategy selectedStrategies ->
  wellFormedData data ->
  pnlConserved (simulate rnd form data selectedStrategies).
Proof.
  intros Hform Hstrategies Hdata. unfold simulate.
  apply (foldl_invariant pnlConserved).
  - split; [| split].
    + intros date v. cbn [initialSimState dailyPnl]. rewrite lookup_empty. discriminate.
    + constructor.
    + apply dailyPnlTotal_empty.
  - intros s strategy Hin Hs. unfold simulateStrategy.
    destruct (availableSymbolsOf data strategy); [exact Hs |].
    apply (foldl_invariant pnlConserved); [exact Hs |].
    intros s' i _. apply simulateBar_pnlConserved; try assumption.
    rewrite Forall_forall in Hstrategies. apply Hstrategies. exact Hin.
Qed.

#[global] Instance datesPnl_proper pnl : Proper (Permutation ==> Qeq) (datesPnl pnl).
Proof.
  intros l l' Hperm. unfold datesPnl.
  induction Hperm as [| x l l' _ IH | x y l | l l' l'' _ IH1 _ IH2]; simpl.
  - reflexivity.
  - rewrite IH. reflexivity.
  - lra.
  - rewrite IH1. exact IH2.
Qed.

Lemma datesPnl_entries (pnl : gmap string num) (entries : list (string * num)) :
  Forall (fun entry => pnl !! entry.1 = Some entry.2) entries ->
  datesPnl pnl (fst <$> entries) == entriesPnl entries.
Proof.
  induction 1 as [| [date v] entries Hentry _ IH]; [reflexivity |].
  cbn [fmap list_fmap fst]. unfold datesPnl, entriesPnl in *. cbn [foldr].
  cbn [fst snd] in Hentry. rewrite Hentry. cbn [from_option id snd]. rewrite IH.
  reflexivity.
Qed.

Lemma datesPnl_sorted (pnl : gmap string num) :
  datesPnl pnl (sortedDatesOf pnl) == dailyPnlTotal pnl.
Proof.
  unfold sortedDatesOf, dailyPnlTotal. rewrite merge_sort_Permutation.
  apply datesPnl_entries. apply Forall_forall. intros [date v] Hin.
  apply elem_of_map_to_list in Hin. exact Hin.
Qed.

Lemma curve_portfolioValue_finite initialCapital_ pnl dateToSpyPriceMap spyInitialPrice
    (dates : list string) st (v : Q) :
  finitePnl pnl -> Forall (fun date => is_Some (pnl !! date)) dates ->
  portfolioValue st = Fin v ->
  exists v',
    portfolioValue (foldl (curveStep initialCapital_ pnl dateToSpyPriceMap spyInitialPrice)
                          st dates) = Fin v' /\
    v' == v + datesPnl pnl dates.
Proof.
  intros Hpnl Hdates. revert st v.
  induction Hdates as [| date dates [x Hx] _ IH]; intros st v Hv; cbn [foldl].
  - exists v. split; [exact Hv |]. unfold datesPnl. simpl. lra.
  - destruct (proj1 (isFinite_Fin x) (Hpnl _ _ Hx)) as [q ->].
    destruct (IH (curveStep initialCapital_ pnl dateToSpyPriceMap spyInitialPrice st date)
                 (v + q)) as (v' & Hv' & Esum).
    { unfold curveStep. cbn [portfolioValue]. rewrite Hv, Hx. reflexivity. }
    exists v'. split; [exact Hv' |]. rewrite Esum. unfold datesPnl. cbn [foldr].
    rewrite Hx. cbn [from_option id finiteValue]. lra.
Qed.

Lemma buildCurve_total (c0 : Q) pnl spyData :
  finitePnl pnl ->
  exists v, portfolioValue (buildCurve (Fin c0) pnl spyData) = Fin v /\
            v == c0 + dailyPnlTotal pnl.
Proof.
  intros Hpnl. unfold buildCurve.
  destruct (curve_portfolioValue_finite (Fin c0) pnl (dateToSpyPriceMapOf spyData)
              (spyInitialPriceOf spyData) (sortedDatesOf pnl)
              (initialCurveState (Fin c0)) c0 Hpnl) as (v & Hv & Esum).
  - apply Forall_forall. intros date Hdate. apply sortedDatesOf_elem. exact Hdate.
  - reflexivity.
  - exists v. split; [exact Hv |]. rewrite Esum, datesPnl_sorted. reflexivity.
Qed.

Lemma buildCurve_last_value initialCapital_ pnl spyData :
  portfolioValue (buildCurve initialCapital_ pnl spyData) =
  from_option pd_strategy initialCapital_
              (last (performanceData (buildCurve initialCapital_ pnl spyData))) /\
  spyValue (buildCurve initialCapital_ pnl spyData) =
  from_option pd_sp500 initialCapital_
              (last (performanceData (buildCurve initialCapital_ pnl spyData))).
Proof.
  unfold buildCurve.
  apply (foldl_invariant
           (fun st => portfolioValue st =
                        from_option pd_strategy initialCapital_ (last (performanceData st)) /\
                      spyValue st =
                        from_option pd_sp500 initialCapital_ (last (performanceData st)))).
  - split; reflexivity.
  - intros st date _ _. unfold curveStep. cbn [portfolioValue spyValue performanceData].
    rewrite last_snoc. split; reflexivity.
Qed.

(** The summed P&L of trades that are all losses, or all wins. *)
Lemma tradesPnl_sign (trades : list Trade) :
  Forall (fun t => isFinite (tr_pnl t) = true) trades ->
  (Forall (fun t => num_gt (tr_pnl t) (Fin 0) = false) trades -> tradesPnl trades <= 0) /\
  (Forall (fun t => num_gt (tr_pnl t) (Fin 0) = true) trades -> 0 <= tradesPnl trades).
Proof.
  induction trades as [| t trades IH]; intros Hfin.
  - split; intros _; cbn [tradesPnl foldr]; lra.
  - apply Forall_cons in Hfin as [Ht Hfin]. destruct (IH Hfin) as [IHloss IHwin].
    apply isFinite_Fin in Ht as [q Hq].
    split; intros Hall; apply Forall_cons in Hall as [Hsign Hall];
      rewrite Hq in Hsign; cbn [tradesPnl foldr]; rewrite Hq; cbn [finiteValue];
      fold (tradesPnl trades).
    + apply num_lt_Fin_false in Hsign. specialize (IHloss Hall). lra.
    + apply num_lt_Fin in Hsign. specialize (IHwin Hall). lra.
Qed.

(** The type of a trade of a simulation is the sign of its P&L. *)
Lemma simulate_trade_types rnd form data selectedStrategies :
  Forall (fun t => tr_type t = if num_gt (tr_pnl t) (Fin 0) then WIN else LOSS)
         (allTrades (simulate rnd form data selectedStrategies)).
Proof.
  eapply Forall_impl; [apply (simulate_tradeSource rnd form data) |].
  intros t (strategy & _ & i & symbol & symbolBars & currentBar & rr & _ & _ & _ & _
            & _ & ->).
  reflexivity.
Qed.

Section Conservation.
Context `{JsMath}.

(** X9.  Over well-formed inputs the sign of the result agrees with the
    trades.  The [Total P&L] metric is the last portfolio value less the
    initial capital.  When no trade of the run is a [WIN], the last
    portfolio value is not above the initial capital and the metric is not
    positive; when every trade is a [WIN], the last portfolio value is not
    below the initial capital and the metric is not negative. *)
Theorem total_pnl_sign_of_trades rnd savedStrategies form dataResult feedback results
    data :
  handleRunBacktest rnd savedStrategies form dataResult feedback = SetResults results ->
  fetchedData dataResult = Some data ->
  wellFormedForm form ->
  Forall wellFormedStrategy (selectedStrategiesOf savedStrategies form) ->
  wellFormedData data ->
  exists lastPoint,
    last (res_performanceData results) = Some lastPoint /\
    let totalReturn := num_sub (pd_strategy lastPoint) (initialCapital form) in
    res_metrics results !! 0%nat = Some ("Total P&L", totalReturn) /\
    (Forall (fun t => tr_type t = LOSS) (res_allTrades results) ->
     num_gt (pd_strategy lastPoint) (initialCapital form) = false /\
     num_gt totalReturn (Fin 0) = false) /\
    (Forall (fun t => tr_type t = WIN) (res_allTrades results) ->
     num_lt (pd_strategy lastPoint) (initialCapital form) = false /\
     num_lt totalReturn (Fin 0) = false).
Proof.
  intros Hrun Hdata Hform Hstrategies Hbars.
  destruct (handleRunBacktest_results _ _ _ _ _ _ Hrun) as (data' & Hdata' & Hne & ->).
  rewrite Hdata in Hdata'. injection Hdata' as <-.
  destruct (wellFormedForm_capital form Hform) as (c0 & Hc0 & Hpos).
  destruct (simulate_pnlConserved rnd form data _ Hform Hstrategies Hbars)
    as (Hfin & Htrades & Htotal).
  pose proof (simulate_trade_types rnd form data
                (selectedStrategiesOf savedStrategies form)) as Htypes.
  cbn [assembleResults res_allTrades res_metrics res_performanceData].
  set (sim := simulate rnd form data (selectedStrategiesOf savedStrategies form)) in *.
  destruct (buildCurve_last_value (initialCapital form) (dailyPnl sim) (data !! "SPY"))
    as [Hlast _].
  rewrite Hc0 in Hlast |- *.
  destruct (buildCurve_total c0 (dailyPnl sim) (data !! "SPY") Hfin) as (v & Hv & Esum).
  destruct (tradesPnl_sign (allTrades sim) Htrades) as [Hloss Hwin].
  destruct (last (performanceData (buildCurve (Fin c0) (dailyPnl sim) (data !! "SPY"))))
    as [lastPoint |] eqn:Elast.
  - exists lastPoint. cbn [from_option] in Hlast. split; [reflexivity |].
    cbn zeta. rewrite <- Hlast, Hv. cbn [lookup list_lookup num_sub].
    split; [reflexivity |]. split.
    + intros Hall.
      assert (Hsum : tradesPnl (allTrades sim) <= 0).
      { apply Hloss. rewrite Forall_forall in Hall, Htypes. apply Forall_forall.
        intros t Ht. specialize (Hall t Ht). rewrite (Htypes t Ht) in Hall.
        destruct (num_gt (tr_pnl t) (Fin 0)); [discriminate | reflexivity]. }
      split; apply num_lt_Fin_false; lra.
    + intros Hall.
      assert (Hsum : 0 <= tradesPnl (allTrades sim)).
      { apply Hwin. rewrite Forall_forall in Hall, Htypes. apply Forall_forall.
        intros t Ht. specialize (Hall t Ht). rewrite (Htypes t Ht) in Hall.
        destruct (num_gt (tr_pnl t) (Fin 0)); [reflexivity | discriminate]. }
      split; apply num_lt_Fin_false; lra.
  - exfalso. apply last_None in Elast. apply buildCurve_empty in Elast.
    apply Hne. exact Elast.
Qed.
End Conservation.

(** ** Order of the curve *)

Lemma ascii_compare_lt_trans (a b c : Ascii.ascii) :
  Ascii.compare a b = Lt -> Ascii.compare b c = Lt -> Ascii.compare a c = Lt.
Proof.
  unfold Ascii.compare. rewrite !N.compare_lt_iff. apply N.lt_trans.
Qed.

Lemma string_compare_lt_trans (s1 s2 s3 : string) :
  String.compare s1 s2 = Lt -> String.compare s2 s3 = Lt -> String.compare s1 s3 = Lt.
Proof.
  revert s2 s3. induction s1 as [| a s1 IH]; intros [| b s2] [| c s3]; simpl;
    try congruence.
  destruct (Ascii.compare a b) eqn:Eab; try discriminate;
    destruct (Ascii.compare b c) eqn:Ebc; try discriminate; intros H12 H23.
  - apply Ascii.compare_eq_iff in Eab, Ebc. subst b c.
    replace (Ascii.compare a a) with Eq; [eapply IH; eassumption |].
    symmetry. unfold Ascii.compare. apply N.compare_refl.
  - apply Ascii.compare_eq_iff in Eab. subst b. rewrite Ebc. reflexivity.
  - apply Ascii.compare_eq_iff in Ebc. subst c. rewrite Eab. reflexivity.
  - rewrite (ascii_compare_lt_trans a b c Eab Ebc). reflexivity.
Qed.

Lemma string_compare_refl (s : string) : String.compare s s = Eq.
Proof.
  induction s as [| a s IH]; simpl; [reflexivity |].
  unfold Ascii.compare. rewrite N.compare_refl. exact IH.
Qed.

Lemma date_le_lt (a b : string) : date_le a b <-> a = b \/ String.compare a b = Lt.
Proof.
  unfold date_le, String.leb. split.
  - destruct (String.compare a b) eqn:E; try discriminate; intros _.
    + left. apply String.compare_eq_iff. exact E.
    + right. reflexivity.
  - intros [-> | ->]; [rewrite string_compare_refl |]; reflexivity.
Qed.

#[global] Instance date_le_transitive : Transitive date_le.
Proof.
  intros a b c. rewrite !date_le_lt. intros [-> | Hab] [-> | Hbc]; auto.
  right. eapply string_compare_lt_trans; eassumption.
Qed.

#[global] Instance date_le_total : Total date_le.
Proof. intros a b. apply String.leb_total. Qed.

Lemma StronglySorted_lookup {A : Type} (R : A -> A -> Prop) (l : list A) (i j : nat)
    (x y : A) :
  StronglySorted R l -> (i < j)%nat -> l !! i = Some x -> l !! j = Some y -> R x y.
Proof.
  intros Hsorted. revert i j. induction Hsorted as [| z l _ IH Hz]; intros i j Hij Hi Hj.
  - inversion Hi.
  - destruct j as [| j]; [lia |]. destruct i as [| i].
    + injection Hi as <-. rewrite Forall_forall in Hz. apply Hz.
      apply list_elem_of_lookup. exists j. exact Hj.
    + apply (IH i j); [lia | exact Hi | exact Hj].
Qed.

Lemma sortedDatesOf_ascending (pnl : gmap string num) (i j : nat) (a b : string) :
  (i < j)%nat -> sortedDatesOf pnl !! i = Some a -> sortedDatesOf pnl !! j = Some b ->
  String.ltb a b = true.
Proof.
  intros Hij Ha Hb.
  assert (Hle : date_le a b).
  { apply (StronglySorted_lookup date_le (sortedDatesOf pnl) i j); try assumption.
    unfold sortedDatesOf. apply StronglySorted_merge_sort; apply _. }
  apply date_le_lt in Hle as [-> | Hlt].
  - exfalso. pose proof (sortedDatesOf_NoDup pnl) as Hnd.
    rewrite NoDup_alt in Hnd. specialize (Hnd i j b Ha Hb). lia.
  - unfold String.ltb. rewrite Hlt. reflexivity.
Qed.

Section CurveOrder.
Context `{JsMath}.

(** X10.  The points of the results of a run are in strictly ascending
    order of their dates (compared as strings, code unit by code unit), so
    no date occurs twice. *)
Theorem results_dates_ascending rnd savedStrategies form dataResult feedback results
    (i j : nat) (p q : PerformanceDataPoint) :
  handleRunBacktest rnd savedStrategies form dataResult feedback = SetResults results ->
  (i < j)%nat ->
  res_performanceData results !! i = Some p ->
  res_performanceData results !! j = Some q ->
  String.ltb (pd_date p) (pd_date q) = true.
Proof.
  intros Hrun Hij Hp Hq.
  destruct (handleRunBacktest_results _ _ _ _ _ _ Hrun) as (data & _ & _ & ->).
  cbn [assembleResults res_performanceData] in Hp, Hq.
  set (pnl := dailyPnl (simulate rnd form data (selectedStrategiesOf savedStrategies form)))
    in *.
  apply (sortedDatesOf_ascending pnl i j); [exact Hij | |];
    rewrite <- (buildCurve_dates (initialCapital form) pnl (data !! "SPY"));
    rewrite list_lookup_fmap; [rewrite Hp | rewrite Hq]; reflexivity.
Qed.
End CurveOrder.

(** ** Peaks, drawdowns and their maximum *)

Lemma runningPeak_attained initialCapital_ (values : list num) :
  runningPeak initialCapital_ values = initialCapital_ \/
  runningPeak initialCapital_ values ∈ values.
Proof.
  induction values as [| value values IH] using rev_ind; [left; reflexivity |].
  rewrite runningPeak_snoc. destruct (num_gt _ _).
  - right. apply elem_of_app. right. left.
  - destruct IH as [-> | Hin]; [left; reflexivity |].
    right. apply elem_of_app. left. exact Hin.
Qed.

Lemma num_lt_asym (x y : num) : num_lt x y = true -> num_lt y x = false.
Proof.
  destruct x as [a | | |], y as [b | | |]; try discriminate; try reflexivity.
  rewrite num_lt_Fin, num_lt_Fin_false. lra.
Qed.

Lemma num_lt_false_chain (x y z : num) :
  y <> NaN -> num_lt y x = false -> num_lt z y = false -> num_lt z x = false.
Proof.
  destruct x as [a | | |], y as [b | | |], z as [c | | |];
    try discriminate; try reflexivity; try congruence.
  rewrite !num_lt_Fin_false. lra.
Qed.

Lemma Math_max2_order (x y : num) :
  x <> NaN -> y <> NaN ->
  (Math_max2 x y = x \/ Math_max2 x y = y) /\
  Math_max2 x y <> NaN /\
  num_gt x (Math_max2 x y) = false /\ num_gt y (Math_max2 x y) = false.
Proof.
  intros Hx Hy. unfold num_gt.
  assert (E : Math_max2 x y = if num_lt x y then y else x).
  { destruct x, y; try reflexivity; congruence. }
  rewrite E. destruct (num_lt x y) eqn:Hlt.
  - split; [right; reflexivity |]. split; [exact Hy |].
    split; [apply num_lt_asym; exact Hlt | apply num_lt_irrefl].
  - split; [left; reflexivity |]. split; [exact Hx |].
    split; [apply num_lt_irrefl | exact Hlt].
Qed.

(** [Math.max] of a non-empty list without [NaN] is one of its elements,
    and none of them exceeds it. *)
Lemma Math_max_order (xs : list num) :
  xs <> [] -> Forall (fun x => x <> NaN) xs ->
  Math_max xs ∈ xs /\ Math_max xs <> NaN /\
  Forall (fun x => num_gt x (Math_max xs) = false) xs.
Proof.
  unfold Math_max. induction xs as [| x xs IH] using rev_ind; [congruence |].
  intros _ Hall. apply Forall_app in Hall as [Hxs Hx].
  rewrite Forall_singleton in Hx. rewrite foldl_app. cbn [foldl].
  destruct xs as [| y ys].
  - cbn [foldl].
    assert (E : Math_max2 NInf x = x) by (destruct x; try reflexivity; congruence).
    rewrite E. split; [left |]. split; [exact Hx |].
    apply Forall_singleton, num_lt_irrefl.
  - destruct (IH ltac:(discriminate) Hxs) as (Hin & Hnan & Hle).
    set (m := foldl Math_max2 NInf (y :: ys)) in *.
    destruct (Math_max2_order m x Hnan Hx) as (Hcase & Hnan' & Hm & Hxm).
    split; [| split; [exact Hnan' |]].
    + destruct Hcase as [-> | ->]; apply elem_of_app; [left; exact Hin | right; left].
    + apply Forall_app. split; [| apply Forall_singleton; exact Hxm].
      eapply Forall_impl; [exact Hle |]. intros z Hz. cbn beta in *.
      unfold num_gt in *. apply (num_lt_false_chain z m _ Hnan Hz Hm).
Qed.

Section DrawdownProperties.
Context `{JsMath}.

(** X11.  In a run with a positive initial capital, the peak of every
    point is the largest of the initial capital and the portfolio values up
    to that point: none of them exceeds it and it is one of them.  A
    drawdown of [0] means that the portfolio value of the point is that
    peak, and a finite portfolio value that is the peak has drawdown [0].
    The statement holds whatever the P&L entries, finite or not. *)
Theorem drawdown_zero_at_peak rnd savedStrategies form dataResult feedback results
    (c0 : Q) (k : nat) (p : PerformanceDataPoint) :
  handleRunBacktest rnd savedStrategies form dataResult feedback = SetResults results ->
  initialCapital form = Fin c0 -> 0 < c0 ->
  res_performanceData results !! k = Some p ->
  let peak := peakAt (Fin c0) (res_performanceData results) k in
  num_ge peak (Fin c0) = true /\
  (forall j q, (j <= k)%nat -> res_performanceData results !! j = Some q ->
               num_gt (pd_strategy q) peak = false) /\
  (peak = Fin c0 \/
   exists j q, (j <= k)%nat /\ res_performanceData results !! j = Some q /\
               pd_strategy q = peak) /\
  (num_eqv (pd_drawdown p) (Fin 0) -> num_eqv (pd_strategy p) peak) /\
  (isFinite (pd_strategy p) = true -> num_eqv (pd_strategy p) peak ->
   num_eqv (pd_drawdown p) (Fin 0)).
Proof.
  intros Hrun Hc0 Hpos Hp.
  destruct (handleRunBacktest_results _ _ _ _ _ _ Hrun) as (data & Hdata & _ & ->).
  cbn [assembleResults res_performanceData] in *. rewrite Hc0 in Hp |- *.
  set (pnl := dailyPnl (simulate rnd form data (selectedStrategiesOf savedStrategies form)))
    in *.
  set (points := performanceData (buildCurve (Fin c0) pnl (data !! "SPY"))) in *.
  pose proof (buildCurve_shape (Fin c0) pnl (data !! "SPY")) as Hshape.
  fold points in Hshape. cbn zeta.
  destruct (peakAt_bounds c0 points k) as [Hcpeak Hle].
  destruct (Hshape k p Hp) as [_ Hd].
  destruct (drawdown_sign c0 _ (pd_strategy p) Hpos Hcpeak (Hle k p (le_n k) Hp))
    as (_ & _ & _ & Hzero).
  rewrite <- Hd in Hzero.
  split; [exact Hcpeak |]. split; [exact Hle |]. split; [| split; [exact Hzero |]].
  - unfold peakAt.
    destruct (runningPeak_attained (Fin c0) (pd_strategy <$> take (S k) points))
      as [Hsame | Hin].
    + left. exact Hsame.
    + right. apply list_elem_of_fmap in Hin as (q & Hq & Hin).
      apply list_elem_of_lookup in Hin as (j & Hj).
      apply lookup_take_Some in Hj as [Hj Hlt].
      exists j, q. split; [lia |]. split; [exact Hj | symmetry; exact Hq].
  - intros Hfin.
    destruct (peakAt_finite c0 pnl points k p Hshape Hp Hfin)
      as (peak & value & Hpeak & Hvalue & Hcp & Hvp).
    destruct (drawdown_finite_value c0 peak value Hpos Hcp Hvp) as (_ & _ & Hsame).
    rewrite Hd, Hpeak, Hvalue. exact Hsame.
Qed.

(** X12.  In a run with a positive initial capital, the [Max Drawdown]
    metric is a hundred times a number [m] that is not negative, that the
    drawdown of no point exceeds, and that is the drawdown of one of the
    points, or [0] for a point whose drawdown is [0] or [NaN].  The
    statement holds whatever the P&L entries, finite or not. *)
Theorem max_drawdown_metric rnd savedStrategies form dataResult feedback results
    (c0 : Q) :
  handleRunBacktest rnd savedStrategies form dataResult feedback = SetResults results ->
  initialCapital form = Fin c0 -> 0 < c0 ->
  exists m,
    res_metrics results !! 2%nat = Some ("Max Drawdown", num_mul m (Fin 100)) /\
    num_ge m (Fin 0) = true /\
    (forall p, p ∈ res_performanceData results -> num_gt (pd_drawdown p) m = false) /\
    (exists p, p ∈ res_performanceData results /\ m = num_or (pd_drawdown p) (Fin 0)).
Proof.
  intros Hrun Hc0 Hpos.
  destruct (handleRunBacktest_results _ _ _ _ _ _ Hrun) as (data & Hdata & Hne & ->).
  cbn [assembleResults res_performanceData res_metrics] in *. rewrite Hc0.
  set (pnl := dailyPnl (simulate rnd form data (selectedStrategiesOf savedStrategies form)))
    in *.
  set (points := performanceData (buildCurve (Fin c0) pnl (data !! "SPY"))) in *.
  pose proof (buildCurve_shape (Fin c0) pnl (data !! "SPY")) as Hshape.
  fold points in Hshape.
  assert (Hsign : forall p, p ∈ points -> num_lt (pd_drawdown p) (Fin 0) = false).
  { intros p Hp. apply list_elem_of_lookup in Hp as [k Hk].
    destruct (Hshape k p Hk) as [_ Hd].
    destruct (peakAt_bounds c0 points k) as [Hcpeak Hle].
    destruct (drawdown_sign c0 _ (pd_strategy p) Hpos Hcpeak (Hle k p (le_n k) Hk))
      as (_ & Hnonneg & _).
    rewrite Hd. exact Hnonneg. }
  set (drawdowns := map (fun d => num_or (pd_drawdown d) (Fin 0)) points).
  assert (Hor : forall d : num,
            num_lt d (Fin 0) = false ->
            num_or d (Fin 0) <> NaN /\ num_ge (num_or d (Fin 0)) (Fin 0) = true /\
            forall m, num_gt (num_or d (Fin 0)) m = false -> num_gt d m = false).
  { intros d Hd. unfold num_or, truthy.
    destruct d as [q | | |]; try discriminate.
    - apply num_lt_Fin_false in Hd.
      destruct (Qeq_bool q 0) eqn:E; cbn [negb].
      + apply Qeq_bool_iff in E. split; [discriminate |]. split; [reflexivity |].
        intros m Hm. unfold num_gt in *.
        destruct m as [a | | |]; try reflexivity; try discriminate.
        apply num_lt_Fin_false in Hm. apply num_lt_Fin_false. lra.
      + split; [discriminate |]. split; [apply num_le_Fin; exact Hd |]. auto.
    - split; [discriminate |]. split; [reflexivity |]. auto.
    - split; [discriminate |]. split; [reflexivity |]. intros m _.
      unfold num_gt. destruct m; reflexivity. }
  destruct (Math_max_order drawdowns) as (Hin & _ & Hall).
  { intros Hnil. apply map_eq_nil in Hnil. apply Hne.
    apply (buildCurve_empty (Fin c0) pnl (data !! "SPY")). exact Hnil. }
  { apply List.Forall_map. apply Forall_forall. intros p Hp.
    apply (Hor (pd_drawdown p) (Hsign p Hp)). }
  exists (Math_max drawdowns). split; [reflexivity |].
  apply list_elem_of_In, in_map_iff in Hin as (p0 & Hp0 & Hin0).
  apply list_elem_of_In in Hin0.
  split; [| split].
  - rewrite <- Hp0. apply (Hor (pd_drawdown p0) (Hsign p0 Hin0)).
  - intros p Hp. apply (Hor (pd_drawdown p) (Hsign p Hp)).
    rewrite Forall_forall in Hall. apply Hall.
    apply list_elem_of_In, in_map_iff. exists p. split; [reflexivity |].
    apply list_elem_of_In. exact Hp.
  - exists p0. split; [exact Hin0 | symmetry; exact Hp0].
Qed.
End DrawdownProperties.

(** ** Benchmark *)

(** The price map keeps, for every date, the close of the last benchmark
    bar of that date. *)
Lemma dateToSpyPriceMapOf_last (spyData : option (list AlpacaBar)) (date : string) :
  dateToSpyPriceMapOf spyData !! date =
  last (bar_c <$> filter (fun bar => beforeT (bar_t bar) = date) (default [] spyData)).
Proof.
  unfold dateToSpyPriceMapOf. generalize (default [] spyData) as bars. intros bars.
  induction bars as [| bar bars IH] using rev_ind; [apply lookup_empty |].
  rewrite foldl_app, filter_app. cbn [foldl].
  destruct (decide (beforeT (bar_t bar) = date)) as [Heq | Hne].
  - rewrite filter_cons_True, filter_nil by exact Heq.
    rewrite fmap_app. change (bar_c <$> [bar]) with [bar_c bar].
    rewrite last_snoc, Heq. apply lookup_insert_eq.
  - rewrite filter_cons_False, filter_nil, app_nil_r by exact Hne.
    rewrite lookup_insert_ne by exact Hne. exact IH.
Qed.

Lemma buildCurve_benchmark initialCapital_ pnl spyData (k : nat) (p : PerformanceDataPoint) :
  performanceData (buildCurve initialCapital_ pnl spyData) !! k = Some p ->
  pd_sp500 p =
  benchmarkOf initialCapital_ spyData (performanceData (buildCurve initialCapital_ pnl spyData))
              k p.
Proof.
  revert k p. unfold buildCurve.
  apply (foldl_invariant
           (fun st =>
              (forall k p, performanceData st !! k = Some p ->
                 pd_sp500 p = benchmarkOf initialCapital_ spyData (performanceData st) k p) /\
              spyValue st = from_option pd_sp500 initialCapital_ (last (performanceData st)))).
  - split; [| reflexivity]. intros k p Hp. inversion Hp.
  - intros st date _ [Hshape Hlast]. unfold curveStep.
    cbn [performanceData spyValue]. rewrite last_snoc. split; [| reflexivity].
    intros k p Hp. destruct (decide (k < length (performanceData st))%nat) as [Hlt | Hge].
    + rewrite lookup_app_l in Hp by exact Hlt. rewrite (Hshape k p Hp).
      unfold benchmarkOf. destruct (_ && _); [reflexivity |].
      destruct k as [| j]; [reflexivity |]. cbn [previousBenchmark].
      rewrite lookup_app_l by lia. reflexivity.
    + rewrite lookup_app_r in Hp by lia.
      assert (Hk : k = length (performanceData st)).
      { apply lookup_lt_Some in Hp. simpl in Hp. lia. }
      subst k. rewrite Nat.sub_diag in Hp. injection Hp as <-.
      unfold benchmarkOf. cbn [pd_sp500 pd_date].
      destruct (_ && _); [reflexivity |]. rewrite Hlast, last_lookup.
      destruct (performanceData st) as [| p0 points']; [reflexivity |].
      cbn [previousBenchmark length pred]. rewrite lookup_app_l by (simpl; lia).
      destruct ((p0 :: points') !! length points') as [q |] eqn:E; [reflexivity |].
      apply lookup_ge_None in E. simpl in E. lia.
Qed.

Lemma buildCurve_benchmark_flat initialCapital_ pnl spyData :
  truthy_opt (spyInitialPriceOf spyData) = false ->
  Forall (fun p => pd_sp500 p = initialCapital_)
         (performanceData (buildCurve initialCapital_ pnl spyData)).
Proof.
  intros Hfirst. apply Forall_lookup. intros k.
  induction k as [k IH] using lt_wf_ind. intros p Hp.
  rewrite (buildCurve_benchmark _ _ _ k p Hp). unfold benchmarkOf.
  rewrite Hfirst, andb_false_r. destruct k as [| j]; [reflexivity |].
  cbn [previousBenchmark].
  destruct (performanceData (buildCurve initialCapital_ pnl spyData) !! j) as [q |] eqn:Hq.
  - cbn [from_option]. apply (IH j); [lia | exact Hq].
  - apply lookup_ge_None in Hq. apply lookup_lt_Some in Hp. lia.
Qed.

Section BenchmarkProperties.
Context `{JsMath}.

(** X13.  The benchmark value of a point of a run is the initial capital
    scaled by the ratio of the benchmark's price on the point's date (the
    close of the last [SPY] bar of that date) to the close of the first
    [SPY] bar, when both prices exist and are neither [0] nor [NaN];
    otherwise it carries the benchmark value of the point before (the
    initial capital before the first point).  Without a usable first price
    the benchmark stays at the initial capital on the whole curve. *)
Theorem benchmark_values rnd savedStrategies form dataResult feedback results data :
  handleRunBacktest rnd savedStrategies form dataResult feedback = SetResults results ->
  fetchedData dataResult = Some data ->
  (forall k p,
     res_performanceData results !! k = Some p ->
     let currentSpyPrice :=
       last (bar_c <$> filter (fun bar => beforeT (bar_t bar) = pd_date p)
                              (default [] (data !! "SPY"))) in
     let spyInitialPrice := spyInitialPriceOf (data !! "SPY") in
     pd_sp500 p =
     if truthy_opt currentSpyPrice && truthy_opt spyInitialPrice
     then num_mul (initialCapital form)
                  (num_div (default NaN currentSpyPrice) (default NaN spyInitialPrice))
     else previousBenchmark (initialCapital form) (res_performanceData results) k) /\
  (truthy_opt (spyInitialPriceOf (data !! "SPY")) = false ->
   Forall (fun p => pd_sp500 p = initialCapital form) (res_performanceData results)).
Proof.
  intros Hrun Hdata.
  destruct (handleRunBacktest_results _ _ _ _ _ _ Hrun) as (data' & Hdata' & _ & ->).
  rewrite Hdata in Hdata'. injection Hdata' as <-.
  cbn [assembleResults res_performanceData]. split.
  - intros k p Hp. cbn zeta. rewrite (buildCurve_benchmark _ _ _ k p Hp).
    unfold benchmarkOf. rewrite dateToSpyPriceMapOf_last. reflexivity.
  - apply buildCurve_benchmark_flat.
Qed.
End BenchmarkProperties.

(** ** Summary block *)

Lemma length_filter_partition (trades : list Trade) :
  (length (filter (fun t => isWin t = true) trades)
   + length (filter (fun t => isLoss t = true) trades) = length trades)%nat.
Proof.
  induction trades as [| t trades IH]; [reflexivity |].
  assert (Htag : isLoss t = negb (isWin t)).
  { unfold isLoss, isWin. destruct (tr_type t); reflexivity. }
  destruct (isWin t) eqn:Ew; cbn [negb] in Htag.
  - rewrite (filter_cons_True (fun t => isWin t = true)) by exact Ew.
    rewrite (filter_cons_False (fun t => isLoss t = true)) by (rewrite Htag; discriminate).
    cbn [length]. lia.
  - rewrite (filter_cons_False (fun t => isWin t = true)) by (rewrite Ew; discriminate).
    rewrite (filter_cons_True (fun t => isLoss t = true)) by exact Htag.
    cbn [length]. lia.
Qed.

(** X14.  The summary counts add up: wins plus losses is the number of
    trades, and the losses are exactly the trades tagged [LOSS] (those the
    average loss is taken over); the win rate lies between [0] and [100];
    and without any trade the win rate and all five averages are [0]. *)
Theorem summaryOf_counts (trades : list Trade) :
  let summary := summaryOf trades in
  (sm_wins summary + sm_losses summary = sm_trades summary)%nat /\
  sm_losses summary = length (filter (fun t => isLoss t = true) trades) /\
  num_le (Fin 0) (sm_winRate summary) = true /\
  num_le (sm_winRate summary) (Fin 100) = true /\
  (trades = [] ->
   sm_winRate summary = Fin 0 /\ sm_avgWin summary = Fin 0 /\
   sm_avgLoss summary = Fin 0 /\ sm_avgRR summary = Fin 0 /\
   sm_avgPositionSize summary = Fin 0 /\ sm_avgLeverage summary = Fin 0).
Proof.
  cbn zeta. unfold summaryOf.
  cbn [sm_wins sm_losses sm_trades sm_winRate sm_avgWin sm_avgLoss sm_avgRR
       sm_avgPositionSize sm_avgLeverage].
  pose proof (length_filter_partition trades) as Hpart.
  set (wins := length (filter (fun t => isWin t = true) trades)) in *.
  split; [lia |]. split; [lia |].
  assert (Hrate : exists r,
            (if (0 <? length trades)%nat
             then num_mul (num_div (num_of_nat wins) (num_of_nat (length trades))) (Fin 100)
             else Fin 0) = Fin r /\ 0 <= r <= 100).
  { destruct (0 <? length trades)%nat eqn:Hlen;
      [| exists 0; split; [reflexivity | lra]].
    apply Nat.ltb_lt in Hlen. unfold num_of_nat.
    assert (HposQ : 0 < inject_Z (Z.of_nat (length trades))).
    { change 0 with (inject_Z 0). rewrite <- Zlt_Qlt. lia. }
    rewrite num_div_Fin by lra. eexists. split; [reflexivity |].
    assert (Hwins0 : 0 <= inject_Z (Z.of_nat wins)).
    { change 0 with (inject_Z 0). rewrite <- Zle_Qle. lia. }
    assert (Hwins : inject_Z (Z.of_nat wins) <= inject_Z (Z.of_nat (length trades))).
    { rewrite <- Zle_Qle. lia. }
    assert (Hq0 : 0 <= inject_Z (Z.of_nat wins) / inject_Z (Z.of_nat (length trades))).
    { apply Qdiv_pos_ge; lra. }
    assert (Hq1 : inject_Z (Z.of_nat wins) / inject_Z (Z.of_nat (length trades)) <= 1).
    { apply Qdiv_pos_le; lra. }
    lra. }
  destruct Hrate as (r & Hr & Hbounds).
  split; [rewrite Hr; apply num_le_Fin; lra |].
  split; [rewrite Hr; apply num_le_Fin; lra |].
  intros ->. clear. repeat split.
Qed.

(** ** Number of trades *)

Lemma simulateBar_one_trade rnd form data strategy availableSymbols timelineBars st i :
  (length (allTrades (simulateBar rnd form data strategy availableSymbols timelineBars
                                  st i))
   <= length (allTrades st) + 1)%nat.
Proof.
  unfold simulateBar. repeat case_match; cbn [allTrades]; rewrite ?length_app; simpl; lia.
Qed.

Lemma foldl_simulateBar_trade_count rnd form data strategy availableSymbols timelineBars
    (indices : list nat) st :
  (length (allTrades (foldl (simulateBar rnd form data strategy availableSymbols
                                         timelineBars) st indices))
   <= length (allTrades st) + length indices)%nat.
Proof.
  revert st. induction indices as [| i indices IH]; intros st; cbn [foldl length]; [lia |].
  specialize (IH (simulateBar rnd form data strategy availableSymbols timelineBars st i)).
  pose proof (simulateBar_one_trade rnd form data strategy availableSymbols timelineBars
                st i).
  lia.
Qed.

Lemma simulateStrategy_trade_count rnd form data st strategy :
  (length (allTrades (simulateStrategy rnd form data st strategy))
   <= length (allTrades st) + barsVisited data strategy)%nat.
Proof.
  unfold simulateStrategy, barsVisited.
  destruct (availableSymbolsOf data strategy) as [| first rest]; [lia |].
  pose proof (foldl_simulateBar_trade_count rnd form data strategy (first :: rest)
                (default [] (data !! first))
                (seq 5 (length (default [] (data !! first)) - 5)) st) as Hcount.
  rewrite length_seq in Hcount. exact Hcount.
Qed.

Lemma simulate_trade_count rnd form data selectedStrategies :
  (length (allTrades (simulate rnd form data selectedStrategies))
   <= totalBarsVisited data selectedStrategies)%nat.
Proof.
  unfold simulate.
  assert (Hgen : forall st,
            (length (allTrades (foldl (simulateStrategy rnd form data) st selectedStrategies))
             <= length (allTrades st) + totalBarsVisited data selectedStrategies)%nat).
  { induction selectedStrategies as [| strategy strategies IH]; intros st; cbn [foldl].
    - simpl. lia.
    - specialize (IH (simulateStrategy rnd form data st strategy)).
      pose proof (simulateStrategy_trade_count rnd form data st strategy).
      unfold totalBarsVisited in *. cbn [foldr]. lia. }
  apply (Hgen initialSimState).
Qed.

Section TradeCount.
Context `{JsMath}.

(** X15.  A run opens at most one trade for each selected strategy and
    each bar its loop visits: the number of trades of the results is at
    most the sum, over the selected strategies with an available symbol,
    of the length of the strategy's timeline less the five lookback bars. *)
Theorem results_trade_count rnd savedStrategies form dataResult feedback results :
  handleRunBacktest rnd savedStrategies form dataResult feedback = SetResults results ->
  exists data,
    fetchedData dataResult = Some data /\
    sm_trades (res_summary results) = length (res_allTrades results) /\
    (length (res_allTrades results)
     <= totalBarsVisited data (selectedStrategiesOf savedStrategies form))%nat.
Proof.
  intros Hrun.
  destruct (handleRunBacktest_results _ _ _ _ _ _ Hrun) as (data & Hdata & _ & ->).
  exists data. split; [exact Hdata |]. split; [reflexivity |].
  apply simulate_trade_count.
Qed.
End TradeCount.

(** ** Symbol table *)

Lemma SYMBOL_TO_ASSET_CLASS_MAP_universes :
  forallb (fun universe =>
             forallb (fun symbol =>
                        bool_decide (SYMBOL_TO_ASSET_CLASS_MAP !! symbol
                                     = Some (ASSET_UNIVERSE_ASSET_CLASS_MAP universe)))
                     (ASSET_UNIVERSE_TICKER_MAP universe))
          ASSET_UNIVERSES = true.
Proof. vm_compute. reflexivity. Qed.

(** X16.  The reverse symbol table agrees with the universe tables: every
    ticker of an asset universe is mapped to the asset class of that
    universe (no ticker is overridden by a later universe), and the three
    crypto pairs added by hand are mapped to [Crypto]. *)
Theorem SYMBOL_TO_ASSET_CLASS_MAP_lookup (universe : AssetUniverse) (symbol : string) :
  (symbol ∈ ASSET_UNIVERSE_TICKER_MAP universe ->
   SYMBOL_TO_ASSET_CLASS_MAP !! symbol = Some (ASSET_UNIVERSE_ASSET_CLASS_MAP universe)) /\
  (symbol ∈ ["BTC/USD"; "ETH/USD"; "SOL/USD"] ->
   SYMBOL_TO_ASSET_CLASS_MAP !! symbol = Some AC_Crypto).
Proof.
  split.
  - intros Hsymbol. pose proof SYMBOL_TO_ASSET_CLASS_MAP_universes as Hall.
    rewrite forallb_forall in Hall.
    assert (Hu : In universe ASSET_UNIVERSES).
    { destruct universe; simpl; tauto. }
    specialize (Hall universe Hu). rewrite forallb_forall in Hall.
    apply list_elem_of_In in Hsymbol. specialize (Hall symbol Hsymbol).
    apply bool_decide_eq_true in Hall. exact Hall.
  - intros Hsymbol.
    repeat (apply elem_of_cons in Hsymbol as [-> | Hsymbol]; [vm_compute; reflexivity |]).
    inversion Hsymbol.
Qed.

(** ** Fetching bars *)

Lemma alpaca_fold_lookup (bars : gmap string (list AlpacaBar)) (symbols : list string)
    (combined : gmap string (list AlpacaBar)) (s : string) :
  foldl (fun combined symbol =>
           if served bars symbol
           then <[symbol := default [] (bars !! symbol)]> combined
           else combined)
        combined symbols !! s
  = if decide (s ∈ symbols /\ served bars s = true) then bars !! s else combined !! s.
Proof.
  revert combined. induction symbols as [| x symbols IH]; intros combined; cbn [foldl].
  - rewrite decide_False; [reflexivity |]. intros [Hin _]. inversion Hin.
  - rewrite IH. destruct (decide (s ∈ symbols /\ served bars s = true)) as [[Hin Hs] | Hno].
    + rewrite decide_True; [reflexivity |]. split; [right; exact Hin | exact Hs].
    + destruct (decide (s = x)) as [-> | Hne].
      * destruct (served bars x) eqn:Hx.
        -- rewrite decide_True by (split; [left | reflexivity]).
           rewrite lookup_insert_eq. unfold served in Hx.
           destruct (bars !! x) as [[| b l] |]; try discriminate. reflexivity.
        -- rewrite decide_False; [reflexivity |]. intros [_ Hs]. discriminate.
      * rewrite decide_False.
        -- destruct (served bars x); [apply lookup_insert_ne; congruence | reflexivity].
        -- intros [Hin Hs]. apply elem_of_cons in Hin as [-> | Hin]; [congruence |].
           apply Hno. auto.
Qed.

(** What Alpaca contributes: the non-empty bars it answered for requested
    US stocks. *)
Lemma fetchFromAlpaca_lookup backends symbols (s : string) (bars : list AlpacaBar) :
  (fetchFromAlpaca backends symbols).1 !! s = Some bars <->
  exists answer,
    alpacaBars backends (alpacaRequestOf symbols) = Some answer /\
    s ∈ symbols /\ isUSStock s = true /\ answer !! s = Some bars /\ bars <> [].
Proof.
  unfold fetchFromAlpaca, alpacaRequestOf.
  set (us := filter (fun s => isUSStock s = true) symbols).
  destruct (0 <? length us)%nat eqn:Hlen.
  - destruct (alpacaBars backends us) as [answer |] eqn:Hanswer; cbn [fst].
    + rewrite alpaca_fold_lookup, lookup_empty. split.
      * case_decide as Hs; [| discriminate]. destruct Hs as [Hin Hs]. intros Hbars.
        exists answer. apply list_elem_of_filter in Hin as [Hus Hin].
        repeat split; try assumption.
        unfold served in Hs. rewrite Hbars in Hs. intros ->. discriminate.
      * intros (answer' & [= <-] & Hin & Hus & Hbars & Hne).
        rewrite decide_True; [exact Hbars |]. split.
        -- apply list_elem_of_filter. auto.
        -- unfold served. rewrite Hbars. destruct bars; [contradiction | reflexivity].
    + rewrite lookup_empty. split; [discriminate |].
      intros (answer & Habs & _). discriminate.
  - cbn [fst]. rewrite lookup_empty. split; [discriminate |].
    intros (answer & _ & Hin & Hus & _). exfalso.
    assert (Hmem : s ∈ us) by (apply list_elem_of_filter; auto).
    apply Nat.ltb_ge in Hlen. destruct us; [inversion Hmem | simpl in Hlen; lia].
Qed.

(** X19.  What the internal backend is asked for: each symbol once, and
    exactly the requested symbols that are not US stocks together with the
    requested US stocks for which Alpaca failed, did not answer, or answered
    an empty list of bars. *)
Theorem internal_backend_request backends symbols :
  NoDup (internalRequestOf backends symbols) /\
  forall s, s ∈ internalRequestOf backends symbols <->
            s ∈ symbols /\
            (isUSStock s = false \/
             match alpacaBars backends (alpacaRequestOf symbols) with
             | Some answer => served answer s = false
             | None => True
             end).
Proof.
  unfold internalRequestOf.
  destruct (uniq_spec (fetchFromAlpaca backends symbols).2) as [Hnd Hin].
  split; [exact Hnd |]. intros s. rewrite Hin. clear Hnd Hin.
  unfold fetchFromAlpaca, alpacaRequestOf.
  set (us := filter (fun s => isUSStock s = true) symbols).
  assert (Hus : forall x, x ∈ us <-> isUSStock x = true /\ x ∈ symbols).
  { intros x. unfold us. rewrite list_elem_of_filter. reflexivity. }
  destruct (0 <? length us)%nat eqn:Hlen.
  - destruct (alpacaBars backends us) as [answer |]; cbn [snd];
      rewrite elem_of_app, !list_elem_of_filter, ?Hus.
    + destruct (isUSStock s); intuition congruence.
    + destruct (isUSStock s); intuition congruence.
  - cbn [snd]. rewrite list_elem_of_filter. split; [intuition |].
    intros [Hin [Hnot | _]]; [auto |]. split; [| exact Hin].
    destruct (isUSStock s) eqn:E; [exfalso | reflexivity].
    assert (Hmem : s ∈ us) by (apply Hus; auto).
    apply Nat.ltb_ge in Hlen. destruct us; [inversion Hmem | simpl in Hlen; lia].
Qed.

(** The answer is the internal backend's bars laid over Alpaca's. *)
Lemma fetchStockHistoricalData_combined backends symbols :
  let internal :=
    if decide (internalRequestOf backends symbols = []) then ∅
    else default ∅ (internalBars backends (internalRequestOf backends symbols)) in
  let combinedData := internal ∪ (fetchFromAlpaca backends symbols).1 in
  fetchStockHistoricalData backends symbols =
  if decide (combinedData = ∅)
  then {| br_success := false; br_data := None |}
  else {| br_success := true; br_data := Some combinedData |}.
Proof.
  unfold fetchStockHistoricalData, internalRequestOf.
  destruct (fetchFromAlpaca backends symbols) as [fromAlpaca rest]. cbn [fst snd].
  assert (Huniq : uniq rest = [] <-> rest = []).
  { destruct (uniq_spec rest) as [_ Hin]. split.
    - intros Hnil. destruct rest as [| x rest]; [reflexivity |].
      assert (Hx : x ∈ uniq (x :: rest)) by (apply Hin; left).
      rewrite Hnil in Hx. inversion Hx.
    - intros ->. reflexivity. }
  assert (Hsize : forall m : gmap string (list AlpacaBar),
            (0 <? size m)%nat = negb (bool_decide (m = ∅))).
  { intros m. destruct (decide (m = ∅)) as [-> | Hne].
    - rewrite bool_decide_eq_true_2 by reflexivity. reflexivity.
    - rewrite bool_decide_eq_false_2 by exact Hne. apply Nat.ltb_lt.
      destruct (size m) eqn:E; [apply map_size_empty_inv in E; contradiction | lia]. }
  destruct rest as [| x rest].
  - destruct (decide (uniq [] = [])) as [_ | Hcontra];
      [| exfalso; apply Hcontra; reflexivity].
    change (0 <? length (@nil string))%nat with false. cbn iota.
    rewrite (left_id_L ∅ (∪)), Hsize.
    destruct (decide (fromAlpaca = ∅)) as [-> | Hne].
    + rewrite bool_decide_eq_true_2 by reflexivity. reflexivity.
    + rewrite bool_decide_eq_false_2 by exact Hne. reflexivity.
  - destruct (decide (uniq (x :: rest) = [])) as [Hnil | _];
      [apply Huniq in Hnil; discriminate |].
    change (0 <? length (x :: rest))%nat with true. cbn iota.
    destruct (internalBars backends (uniq (x :: rest))) as [answer |];
      cbn [from_option id]; rewrite ?(left_id_L ∅ (∪)), Hsize.
    + destruct (decide (answer ∪ fromAlpaca = ∅)) as [-> | Hne].
      * rewrite bool_decide_eq_true_2 by reflexivity. reflexivity.
      * rewrite bool_decide_eq_false_2 by exact Hne. reflexivity.
    + destruct (decide (fromAlpaca = ∅)) as [-> | Hne].
      * rewrite bool_decide_eq_true_2 by reflexivity. reflexivity.
      * rewrite bool_decide_eq_false_2 by exact Hne. reflexivity.
Qed.

(** The component's test on the answer never rejects what the service
    returned. *)
Lemma fetchedData_fetchStockHistoricalData backends symbols :
  fetchedData (fetchStockHistoricalData backends symbols)
  = br_data (fetchStockHistoricalData backends symbols).
Proof.
  rewrite fetchStockHistoricalData_combined. cbn zeta.
  match goal with |- context [decide (?m = ∅)] => set (combined := m) end.
  destruct (decide (combined = ∅)) as [Hnil | Hne]; [reflexivity |].
  unfold fetchedData. cbn [br_data br_success negb orb].
  destruct (size combined) eqn:E; [apply map_size_empty_inv in E; contradiction |].
  reflexivity.
Qed.

(** X17.  The fetch answers in one of two shapes only: success with a
    non-empty map of bars, or failure with no data.  The three-part test of
    the component on the answer ([!success || !data || no keys]) therefore
    passes on exactly the data the service returned. *)
Theorem fetchStockHistoricalData_response backends symbols :
  let response := fetchStockHistoricalData backends symbols in
  ((br_success response = true /\
    exists data, br_data response = Some data /\ data <> ∅) \/
   (br_success response = false /\ br_data response = None)) /\
  fetchedData response = br_data response.
Proof.
  cbn zeta. split; [| apply fetchedData_fetchStockHistoricalData].
  rewrite fetchStockHistoricalData_combined. cbn zeta.
  match goal with |- context [decide (?m = ∅)] => set (combined := m) end.
  destruct (decide (combined = ∅)) as [Hnil | Hne].
  - right. split; reflexivity.
  - left. split; [reflexivity |]. exists combined. split; [reflexivity | exact Hne].
Qed.

(** X18.  Where the bars of a fetched symbol come from.  A symbol of the
    answer carries either the bars the internal backend answered for it (an
    answer for a symbol it was not asked for included, an empty list of bars
    included), or, when the internal backend was not asked, failed or did
    not answer the symbol, the non-empty bars Alpaca answered for it, and
    then the symbol is a requested US stock. *)
Theorem fetched_bars_provenance backends symbols data (s : string)
    (bars : list AlpacaBar) :
  br_data (fetchStockHistoricalData backends symbols) = Some data ->
  (data !! s = Some bars <->
   (internalRequestOf backends symbols <> [] /\
    exists answer,
      internalBars backends (internalRequestOf backends symbols) = Some answer /\
      answer !! s = Some bars) \/
   ((forall answer,
       internalRequestOf backends symbols <> [] ->
       internalBars backends (internalRequestOf backends symbols) = Some answer ->
       answer !! s = None) /\
    s ∈ symbols /\ isUSStock s = true /\ bars <> [] /\
    exists answer,
      alpacaBars backends (alpacaRequestOf symbols) = Some answer /\
      answer !! s = Some bars)).
Proof.
  rewrite fetchStockHistoricalData_combined. cbn zeta.
  match goal with |- context [decide (?m = ∅)] => set (combined := m) end.
  destruct (decide (combined = ∅)) as [Hnil | Hne]; [discriminate |].
  cbn [br_data]. intros [= <-]. unfold combined. rewrite lookup_union_Some_raw.
  rewrite fetchFromAlpaca_lookup.
  destruct (decide (internalRequestOf backends symbols = [])) as [Hreq | Hreq].
  - rewrite lookup_empty. split.
    + intros [Habs | [_ (answer & Hanswer & Hin & Hus & Hbars & Hnonempty)]];
        [discriminate |].
      right. split; [intros ? Hcontra; contradiction |]. eauto 8.
    + intros [[Hcontra _] | (_ & Hin & Hus & Hnonempty & answer & Hanswer & Hbars)];
        [contradiction |].
      right. split; [reflexivity |]. eauto 8.
  - destruct (internalBars backends (internalRequestOf backends symbols))
      as [internal |]; cbn [from_option id].
    + split.
      * intros [Hint | [Hnone (answer & Hanswer & Hin & Hus & Hbars & Hnonempty)]].
        -- left. split; [exact Hreq |]. exists internal. auto.
        -- right. split; [intros ? _ [= <-]; exact Hnone |]. eauto 8.
      * intros [(_ & answer & [= <-] & Hint)
               | (Hnone & Hin & Hus & Hnonempty & answer & Hanswer & Hbars)].
        -- left. exact Hint.
        -- right. split; [apply (Hnone internal Hreq eq_refl) |]. eauto 8.
    + rewrite lookup_empty. split.
      * intros [Habs | [_ (answer & Hanswer & Hin & Hus & Hbars & Hnonempty)]];
          [discriminate |].
        right. split; [intros ? _ Hcontra; discriminate |]. eauto 8.
      * intros [(_ & answer & Hcontra & _)
               | (_ & Hin & Hus & Hnonempty & answer & Hanswer & Hbars)];
          [discriminate |].
        right. split; [reflexivity |]. eauto 8.
Qed.

(** A requested US stock that Alpaca served is in the answer. *)
Lemma fetchStockHistoricalData_served backends symbols answer (s : string) :
  alpacaBars backends (alpacaRequestOf symbols) = Some answer ->
  served answer s = true -> s ∈ symbols -> isUSStock s = true ->
  exists data,
    fetchedData (fetchStockHistoricalData backends symbols) = Some data /\
    is_Some (data !! s).
Proof.
  intros Hanswer Hserved Hin Hus.
  rewrite fetchedData_fetchStockHistoricalData.
  rewrite fetchStockHistoricalData_combined. cbn zeta.
  match goal with |- context [decide (?m = ∅)] => set (combined := m) end.
  assert (Hs : is_Some (combined !! s)).
  { unfold combined. apply lookup_union_is_Some. right.
    unfold served in Hserved.
    destruct (answer !! s) as [[| b bars] |] eqn:Hbars; try discriminate.
    exists (b :: bars). apply fetchFromAlpaca_lookup. exists answer.
    repeat split; try assumption. discriminate. }
  destruct (decide (combined = ∅)) as [Hnil | Hne].
  - rewrite Hnil, lookup_empty in Hs. destruct Hs as [? Hs]. discriminate.
  - exists combined. split; [reflexivity | exact Hs].
Qed.

Lemma symbolsToFetchOf_benchmark selectedStrategies :
  "SPY" ∈ symbolsToFetchOf selectedStrategies.
Proof.
  unfold symbolsToFetchOf. apply uniq_spec. left.
Qed.

Section FetchAndRun.
Context `{JsMath}.

(** X20.  The benchmark is always part of the request, so one non-empty
    list of SPY bars from Alpaca is enough for the run to get past the
    fetch: it never reports the fetch error, whatever else the backends
    answer. *)
Theorem benchmark_served_no_fetch_error backends rnd savedStrategies form
    stopLossFeedback answer :
  alpacaBars backends
    (alpacaRequestOf (symbolsToFetchOf (selectedStrategiesOf savedStrategies form)))
    = Some answer ->
  served answer "SPY" = true ->
  runBacktest backends rnd savedStrategies form stopLossFeedback
    <> SetError FetchFailed.
Proof.
  intros Hanswer Hserved. unfold runBacktest, handleRunBacktest.
  destruct (length (selectedStrategyIds form) =? 0)%nat; [discriminate |].
  destruct (fetchStockHistoricalData_served backends _ answer "SPY" Hanswer Hserved
              (symbolsToFetchOf_benchmark _) eq_refl) as (data & -> & _).
  cbn zeta. destruct (length _ =? 0)%nat; discriminate.
Qed.

(** X21.  With a strategy selected, the run reports the fetch error when
    Alpaca serves none of the requested symbols (it fails, or answers no
    bars for them) and the internal backend fails or answers an empty
    object. *)
Theorem no_bars_fetch_error backends rnd savedStrategies form stopLossFeedback :
  let symbols := symbolsToFetchOf (selectedStrategiesOf savedStrategies form) in
  selectedStrategyIds form <> [] ->
  (forall answer s,
     alpacaBars backends (alpacaRequestOf symbols) = Some answer ->
     s ∈ symbols -> served answer s = false) ->
  (forall answer,
     internalBars backends (internalRequestOf backends symbols) = Some answer ->
     answer = ∅) ->
  runBacktest backends rnd savedStrategies form stopLossFeedback
    = SetError FetchFailed.
Proof.
  intros symbols Hids Halpaca Hinternal. unfold runBacktest, handleRunBacktest.
  destruct (length (selectedStrategyIds form) =? 0)%nat eqn:E.
  { apply length_zero_nil in E. contradiction. }
  fold symbols.
  rewrite fetchedData_fetchStockHistoricalData.
  rewrite fetchStockHistoricalData_combined. cbn zeta.
  match goal with |- context [decide (?m = ∅)] => set (combined := m) end.
  assert (Hnil : combined = ∅).
  { unfold combined. apply map_eq. intros s. rewrite lookup_empty.
    apply lookup_union_None. split.
    - destruct (decide (internalRequestOf backends symbols = []));
        [apply lookup_empty |].
      destruct (internalBars backends (internalRequestOf backends symbols))
        as [answer |] eqn:Hanswer; cbn [from_option id]; [| apply lookup_empty].
      rewrite (Hinternal answer eq_refl). apply lookup_empty.
    - destruct ((fetchFromAlpaca backends symbols).1 !! s) as [bars |] eqn:Hs;
        [| reflexivity].
      apply fetchFromAlpaca_lookup in Hs
        as (answer & Hanswer & Hin & _ & Hbars & Hnonempty).
      specialize (Halpaca answer s Hanswer Hin). unfold served in Halpaca.
      rewrite Hbars in Halpaca. destruct bars; [contradiction | discriminate]. }
  rewrite decide_True by exact Hnil. reflexivity.
Qed.
End FetchAndRun.

(** ** What a run requests *)

Lemma allSymbolsOf_elem selectedStrategies (symbol : string) :
  symbol ∈ allSymbolsOf selectedStrategies <->
  exists strategy, strategy ∈ selectedStrategies /\ symbol ∈ strategySymbols strategy.
Proof.
  unfold allSymbolsOf, strategySymbols.
  rewrite (proj2 (uniq_spec _)), list_elem_of_In, in_flat_map.
  split; intros (strategy & Hstrategy & Hsymbol); exists strategy.
  - split; [apply list_elem_of_In; exact Hstrategy |].
    apply uniq_spec, list_elem_of_In. exact Hsymbol.
  - split; [apply list_elem_of_In; exact Hstrategy |].
    apply list_elem_of_In, uniq_spec. exact Hsymbol.
Qed.

(** X22.  The symbols a run requests from the fetch start with the
    benchmark [SPY] and list every symbol once: they are [SPY] and the
    symbols the selected strategies resolve to.  So every symbol the
    simulation can trade was requested. *)
Theorem symbolsToFetchOf_request selectedStrategies :
  head (symbolsToFetchOf selectedStrategies) = Some "SPY" /\
  NoDup (symbolsToFetchOf selectedStrategies) /\
  (forall symbol,
     symbol ∈ symbolsToFetchOf selectedStrategies <->
     symbol = "SPY" \/
     exists strategy,
       strategy ∈ selectedStrategies /\ symbol ∈ strategySymbols strategy) /\
  (forall data strategy symbol,
     strategy ∈ selectedStrategies ->
     symbol ∈ availableSymbolsOf data strategy ->
     symbol ∈ symbolsToFetchOf selectedStrategies).
Proof.
  assert (Helem : forall symbol,
            symbol ∈ symbolsToFetchOf selectedStrategies <->
            symbol = "SPY" \/
            exists strategy,
              strategy ∈ selectedStrategies /\ symbol ∈ strategySymbols strategy).
  { intros symbol. unfold symbolsToFetchOf.
    rewrite (proj2 (uniq_spec _)), elem_of_cons, allSymbolsOf_elem. reflexivity. }
  split; [| split; [apply uniq_spec | split; [exact Helem |]]].
  - unfold symbolsToFetchOf, uniq. cbn [uniq_from].
    destruct (decide ("SPY" ∈ [])) as [Hin | _]; [inversion Hin | reflexivity].
  - intros data strategy symbol Hstrategy Hsymbol. apply Helem. right.
    exists strategy. split; [exact Hstrategy |].
    unfold availableSymbolsOf in Hsymbol.
    apply list_elem_of_filter in Hsymbol as [_ Hsymbol]. exact Hsymbol.
Qed.

(* ===================================================================== *)
(** * The further properties on the example inputs *)
(* ===================================================================== *)

Lemma soundBar_mkBar t o h l c : 0 < o -> l <= c -> soundBar (mkBar t o h l c).
Proof.
  intros Ho Hlc. split; [apply wellFormedBar_mkBar; exact Ho |].
  unfold mkBar. cbn [bar_l bar_c]. apply num_le_Fin. exact Hlc.
Qed.

Lemma soundData_empty : soundData ∅.
Proof. intros symbol bars. rewrite lookup_empty. discriminate. Qed.

Lemma soundData_insert symbol bars data :
  Forall soundBar bars -> soundData data -> soundData (<[symbol := bars]> data).
Proof.
  intros Hbars Hdata symbol' bars'. rewrite lookup_insert.
  case_decide; [intros [= <-]; exact Hbars | apply Hdata].
Qed.

Lemma soundData_fetchedWith_fallingBar : soundData (fetchedWith fallingBar).
Proof.
  unfold fetchedWith, leadBars, flatBar, fallingBar. cbn [app].
  apply soundData_insert; [| apply soundData_insert; [| apply soundData_empty]];
    repeat (constructor; [apply soundBar_mkBar; lra |]); constructor.
Qed.

Lemma soundForm_defaultForm : soundForm defaultForm.
Proof.
  split; [apply wellFormedForm_formWith; reflexivity |]. split; reflexivity.
Qed.

Lemma soundStrategy_selected :
  Forall soundStrategy (selectedStrategiesOf [customStrategy] defaultForm).
Proof.
  rewrite selected_custom. repeat constructor.
Qed.

Lemma wellFormedStrategy_selected :
  Forall wellFormedStrategy (selectedStrategiesOf [customStrategy] defaultForm).
Proof.
  rewrite selected_custom. repeat constructor.
Qed.

Lemma wellFormedForm_defaultForm : wellFormedForm defaultForm.
Proof. apply wellFormedForm_formWith. reflexivity. Qed.

Lemma wellFormedData_fallingBar : wellFormedData (fetchedWith fallingBar).
Proof. apply wellFormedData_fetchedWith. reflexivity. Qed.

Lemma results_trades_source_witness :
  exists results data,
    @handleRunBacktest exactMath alwaysTrade [customStrategy] defaultForm
      (fetchOf (fetchedWith fallingBar)) feedback = SetResults results /\
    res_allTrades results <> [] /\
    fetchedData (fetchOf (fetchedWith fallingBar)) = Some data /\
    Forall (fun t => exists strategy,
                strategy ∈ selectedStrategiesOf [customStrategy] defaultForm /\
                tradeSource defaultForm data strategy t)
           (res_allTrades results).
Proof.
  eexists.
  assert (Hrun : @handleRunBacktest exactMath alwaysTrade [customStrategy] defaultForm
                   (fetchOf (fetchedWith fallingBar)) feedback = SetResults _)
    by (vm_compute; reflexivity).
  destruct (@results_trades_source exactMath alwaysTrade [customStrategy] defaultForm
              (fetchOf (fetchedWith fallingBar)) feedback _ Hrun) as (data & Hdata & Hall).
  exists data. split; [exact Hrun |]. split; [discriminate |].
  split; [exact Hdata | exact Hall].
Defined.

Lemma results_trades_leverage_witness :
  exists results,
    @handleRunBacktest exactMath alwaysTrade [customStrategy] defaultForm
      (fetchOf (fetchedWith fallingBar)) feedback = SetResults results /\
    res_allTrades results <> [] /\
    Forall (fun t => exists r m : Z,
                tr_assetClass t
                  = default AC_USStocks (SYMBOL_TO_ASSET_CLASS_MAP !! tr_symbol t) /\
                tr_leverage t = Fin (inject_Z r) /\
                ASSET_LEVERAGE_MAP (tr_assetClass t) = Fin (inject_Z m) /\
                (2 <= r <= m)%Z /\ (5 <= m <= 30)%Z)
           (res_allTrades results).
Proof.
  eexists. split; [vm_compute; reflexivity |]. split; [discriminate |].
  apply (@results_trades_leverage exactMath alwaysTrade [customStrategy] defaultForm
           (fetchOf (fetchedWith fallingBar)) feedback).
  vm_compute. reflexivity.
Defined.

Lemma results_trades_prices_witness :
  exists results,
    @handleRunBacktest exactMath alwaysTrade [customStrategy] defaultForm
      (fetchOf (fetchedWith fallingBar)) feedback = SetResults results /\
    res_allTrades results <> [] /\
    Forall (fun t =>
              tr_value t = num_mul (initialCapital defaultForm) (Fin 0.02) /\
              tr_positionSize t = num_div (tr_value t) (tr_entryPrice t) /\
              num_gt (tr_entryPrice t) (Fin 0) = true /\
              num_ge (tr_positionSize t) (Fin 0) = true /\
              (isFinite (tr_entryPrice t) = true ->
               num_le (tr_stopLossPrice t) (tr_entryPrice t) = true /\
               num_le (tr_entryPrice t) (tr_takeProfitPrice t) = true))
           (res_allTrades results).
Proof.
  eexists. split; [vm_compute; reflexivity |]. split; [discriminate |].
  apply (@results_trades_prices exactMath alwaysTrade [customStrategy] defaultForm
           (fetchOf (fetchedWith fallingBar)) feedback _ (fetchedWith fallingBar)).
  - vm_compute. reflexivity.
  - reflexivity.
  - exact soundForm_defaultForm.
  - exact soundStrategy_selected.
  - exact soundData_fetchedWith_fallingBar.
Defined.

Lemma results_trades_worst_case_witness :
  exists results,
    @handleRunBacktest exactMath alwaysTrade [customStrategy] defaultForm
      (fetchOf (fetchedWith fallingBar)) feedback = SetResults results /\
    Exists (fun t => tr_exitReason t = SL) (res_allTrades results) /\
    Forall (fun t =>
              let atStop :=
                num_mul (tr_stopLossPrice t)
                        (num_sub (Fin 1) (num_div (slippage defaultForm) (Fin 100))) in
              (tr_type t = WIN <-> num_gt (tr_pnl t) (Fin 0) = true) /\
              (tr_exitReason t = SL -> tr_type t = LOSS /\ tr_exitPrice t = atStop) /\
              (isFinite (tr_stopLossPrice t) = true ->
               num_ge (tr_exitPrice t) atStop = true))
           (res_allTrades results).
Proof.
  eexists. split; [vm_compute; reflexivity |].
  split; [apply Exists_cons_hd; reflexivity |].
  apply (@results_trades_worst_case exactMath alwaysTrade [customStrategy] defaultForm
           (fetchOf (fetchedWith fallingBar)) feedback _ (fetchedWith fallingBar)).
  - vm_compute. reflexivity.
  - reflexivity.
  - exact soundForm_defaultForm.
  - exact soundStrategy_selected.
  - exact soundData_fetchedWith_fallingBar.
Defined.

Lemma total_pnl_sign_of_trades_witness :
  exists results lastPoint,
    @handleRunBacktest exactMath alwaysTrade [customStrategy] defaultForm
      (fetchOf (fetchedWith fallingBar)) feedback = SetResults results /\
    res_allTrades results <> [] /\
    Forall (fun t => tr_type t = LOSS) (res_allTrades results) /\
    last (res_performanceData results) = Some lastPoint /\
    let totalReturn := num_sub (pd_strategy lastPoint) (initialCapital defaultForm) in
    res_metrics results !! 0%nat = Some ("Total P&L", totalReturn) /\
    num_gt (pd_strategy lastPoint) (initialCapital defaultForm) = false /\
    num_gt totalReturn (Fin 0) = false.
Proof.
  eexists.
  assert (Hrun : @handleRunBacktest exactMath alwaysTrade [customStrategy] defaultForm
                   (fetchOf (fetchedWith fallingBar)) feedback = SetResults _)
    by (vm_compute; reflexivity).
  destruct (@total_pnl_sign_of_trades exactMath alwaysTrade [customStrategy] defaultForm
              (fetchOf (fetchedWith fallingBar)) feedback _ (fetchedWith fallingBar)
              Hrun eq_refl wellFormedForm_defaultForm wellFormedStrategy_selected
              wellFormedData_fallingBar)
    as (lastPoint & Hlast & Hmetric & Hloss & _).
  exists lastPoint. split; [exact Hrun |]. split; [discriminate |].
  match goal with |- Forall ?P ?l /\ _ => assert (Hall : Forall P l) end.
  { cbn [res_allTrades]. constructor; [reflexivity | constructor]. }
  split; [exact Hall |]. split; [exact Hlast |]. split; [exact Hmetric |].
  exact (Hloss Hall).
Defined.

Lemma results_dates_ascending_witness :
  exists results p q,
    @handleRunBacktest exactMath alwaysTrade [customStrategy] defaultForm
      (fetchOf fetchedTwoDays) feedback = SetResults results /\
    res_performanceData results !! 0%nat = Some p /\
    res_performanceData results !! 1%nat = Some q /\
    String.ltb (pd_date p) (pd_date q) = true.
Proof.
  set (sim := simulate alwaysTrade defaultForm fetchedTwoDays
                (selectedStrategiesOf [customStrategy] defaultForm)).
  set (curve := buildCurve (initialCapital defaultForm) (dailyPnl sim)
                  (fetchedTwoDays !! "SPY")).
  assert (Hrun : @handleRunBacktest exactMath alwaysTrade [customStrategy] defaultForm
                   (fetchOf fetchedTwoDays) feedback
                 = SetResults (@assembleResults exactMath defaultForm feedback sim curve)).
  { rewrite (@handleRunBacktest_fetched exactMath alwaysTrade [customStrategy]
               defaultForm (fetchOf fetchedTwoDays) feedback fetchedTwoDays);
      [| discriminate | reflexivity].
    fold sim. fold curve.
    destruct (decide (dailyPnl sim = ∅)) as [Hnil | _]; [exfalso | reflexivity].
    assert (Hday : dailyPnl sim !! "2024-01-08" = None)
      by (rewrite Hnil; apply lookup_empty).
    vm_compute in Hday. discriminate. }
  destruct (performanceData curve !! 0%nat) as [p |] eqn:Hp;
    [| vm_compute in Hp; discriminate].
  destruct (performanceData curve !! 1%nat) as [q |] eqn:Hq;
    [| vm_compute in Hq; discriminate].
  exists (@assembleResults exactMath defaultForm feedback sim curve), p, q.
  split; [exact Hrun |]. split; [exact Hp |]. split; [exact Hq |].
  apply (@results_dates_ascending exactMath alwaysTrade [customStrategy] defaultForm
           (fetchOf fetchedTwoDays) feedback _ 0%nat 1%nat p q Hrun);
    [lia | exact Hp | exact Hq].
Defined.

Lemma drawdown_zero_at_peak_witness :
  exists results p,
    @handleRunBacktest exactMath alwaysTrade [customStrategy] defaultForm
      (fetchOf (fetchedWith fallingBar)) feedback = SetResults results /\
    res_performanceData results !! 0%nat = Some p /\
    let peak := peakAt (Fin 100000) (res_performanceData results) 0 in
    num_ge peak (Fin 100000) = true /\
    (forall j q, (j <= 0)%nat -> res_performanceData results !! j = Some q ->
                 num_gt (pd_strategy q) peak = false) /\
    (peak = Fin 100000 \/
     exists j q, (j <= 0)%nat /\ res_performanceData results !! j = Some q /\
                 pd_strategy q = peak) /\
    (num_eqv (pd_drawdown p) (Fin 0) -> num_eqv (pd_strategy p) peak) /\
    (isFinite (pd_strategy p) = true -> num_eqv (pd_strategy p) peak ->
     num_eqv (pd_drawdown p) (Fin 0)).
Proof.
  do 2 eexists.
  assert (Hrun : @handleRunBacktest exactMath alwaysTrade [customStrategy] defaultForm
                   (fetchOf (fetchedWith fallingBar)) feedback = SetResults _)
    by (vm_compute; reflexivity).
  split; [exact Hrun |]. split; [reflexivity |].
  exact (@drawdown_zero_at_peak exactMath alwaysTrade [customStrategy] defaultForm
           (fetchOf (fetchedWith fallingBar)) feedback _ 100000 0%nat _
           Hrun eq_refl eq_refl eq_refl).
Defined.

Lemma max_drawdown_metric_witness :
  exists results m,
    @handleRunBacktest exactMath alwaysTrade [customStrategy] defaultForm
      (fetchOf (fetchedWith fallingBar)) feedback = SetResults results /\
    res_metrics results !! 2%nat = Some ("Max Drawdown", num_mul m (Fin 100)) /\
    num_ge m (Fin 0) = true /\
    (forall p, p ∈ res_performanceData results -> num_gt (pd_drawdown p) m = false) /\
    (exists p, p ∈ res_performanceData results /\ m = num_or (pd_drawdown p) (Fin 0)).
Proof.
  eexists.
  assert (Hrun : @handleRunBacktest exactMath alwaysTrade [customStrategy] defaultForm
                   (fetchOf (fetchedWith fallingBar)) feedback = SetResults _)
    by (vm_compute; reflexivity).
  destruct (@max_drawdown_metric exactMath alwaysTrade [customStrategy] defaultForm
              (fetchOf (fetchedWith fallingBar)) feedback _ 100000 Hrun eq_refl eq_refl)
    as (m & Hrest).
  exists m. split; [exact Hrun | exact Hrest].
Defined.

Lemma benchmark_values_witness :
  exists results,
    @handleRunBacktest exactMath alwaysTrade [customStrategy] defaultForm
      (fetchOf (fetchedWith fallingBar)) feedback = SetResults results /\
    (forall k p,
       res_performanceData results !! k = Some p ->
       let currentSpyPrice :=
         last (bar_c <$> filter (fun bar => beforeT (bar_t bar) = pd_date p)
                                (default [] ((fetchedWith fallingBar) !! "SPY"))) in
       let spyInitialPrice := spyInitialPriceOf ((fetchedWith fallingBar) !! "SPY") in
       pd_sp500 p =
       if truthy_opt currentSpyPrice && truthy_opt spyInitialPrice
       then num_mul (initialCapital defaultForm)
                    (num_div (default NaN currentSpyPrice) (default NaN spyInitialPrice))
       else previousBenchmark (initialCapital defaultForm)
              (res_performanceData results) k) /\
    (truthy_opt (spyInitialPriceOf ((fetchedWith fallingBar) !! "SPY")) = false ->
     Forall (fun p => pd_sp500 p = initialCapital defaultForm)
            (res_performanceData results)).
Proof.
  eexists. split; [vm_compute; reflexivity |].
  apply (@benchmark_values exactMath alwaysTrade [customStrategy] defaultForm
           (fetchOf (fetchedWith fallingBar)) feedback _ (fetchedWith fallingBar)).
  - vm_compute. reflexivity.
  - reflexivity.
Defined.

Lemma results_trade_count_witness :
  exists results data,
    @handleRunBacktest exactMath alwaysTrade [customStrategy] defaultForm
      (fetchOf (fetchedWith fallingBar)) feedback = SetResults results /\
    fetchedData (fetchOf (fetchedWith fallingBar)) = Some data /\
    sm_trades (res_summary results) = length (res_allTrades results) /\
    (length (res_allTrades results)
     <= totalBarsVisited data (selectedStrategiesOf [customStrategy] defaultForm))%nat.
Proof.
  eexists.
  assert (Hrun : @handleRunBacktest exactMath alwaysTrade [customStrategy] defaultForm
                   (fetchOf (fetchedWith fallingBar)) feedback = SetResults _)
    by (vm_compute; reflexivity).
  destruct (@results_trade_count exactMath alwaysTrade [customStrategy] defaultForm
              (fetchOf (fetchedWith fallingBar)) feedback _ Hrun) as (data & Hrest).
  exists data. split; [exact Hrun | exact Hrest].
Defined.

Lemma fetched_bars_provenance_witness :
  exists data,
    br_data (fetchStockHistoricalData alpacaOnly ["SPY"; "ZZZ"]) = Some data /\
    data !! "ZZZ" = Some (leadBars ++ [fallingBar]) /\
    ((internalRequestOf alpacaOnly ["SPY"; "ZZZ"] <> [] /\
      exists answer,
        internalBars alpacaOnly (internalRequestOf alpacaOnly ["SPY"; "ZZZ"])
          = Some answer /\
        answer !! "ZZZ" = Some (leadBars ++ [fallingBar])) \/
     ((forall answer,
         internalRequestOf alpacaOnly ["SPY"; "ZZZ"] <> [] ->
         internalBars alpacaOnly (internalRequestOf alpacaOnly ["SPY"; "ZZZ"])
           = Some answer ->
         answer !! "ZZZ" = None) /\
      "ZZZ" ∈ ["SPY"; "ZZZ"] /\ isUSStock "ZZZ" = true /\
      leadBars ++ [fallingBar] <> [] /\
      exists answer,
        alpacaBars alpacaOnly (alpacaRequestOf ["SPY"; "ZZZ"]) = Some answer /\
        answer !! "ZZZ" = Some (leadBars ++ [fallingBar]))).
Proof.
  assert (Hdata : br_data (fetchStockHistoricalData alpacaOnly ["SPY"; "ZZZ"])
                  = Some (fetchedWith fallingBar)) by (vm_compute; reflexivity).
  exists (fetchedWith fallingBar). split; [exact Hdata |]. split; [reflexivity |].
  apply (proj1 (fetched_bars_provenance alpacaOnly ["SPY"; "ZZZ"]
                  (fetchedWith fallingBar) "ZZZ" (leadBars ++ [fallingBar]) Hdata)).
  reflexivity.
Defined.

Lemma benchmark_served_no_fetch_error_witness :
  served (fetchedWith fallingBar) "SPY" = true /\
  @runBacktest exactMath alpacaOnly alwaysTrade [customStrategy] defaultForm feedback
    <> SetError FetchFailed.
Proof.
  split; [reflexivity |].
  apply (@benchmark_served_no_fetch_error exactMath alpacaOnly alwaysTrade
           [customStrategy] defaultForm feedback (fetchedWith fallingBar)).
  - reflexivity.
  - reflexivity.
Defined.

Lemma no_bars_fetch_error_witness :
  selectedStrategyIds defaultForm <> [] /\
  @runBacktest exactMath emptyBackend alwaysTrade [customStrategy] defaultForm feedback
    = SetError FetchFailed.
Proof.
  split; [discriminate |].
  apply (@no_bars_fetch_error exactMath emptyBackend alwaysTrade [customStrategy]
           defaultForm feedback).
  - discriminate.
  - intros answer s [= <-] _. reflexivity.
  - intros answer [= <-]. reflexivity.
Defined.
